(** * The process monitor of the hide subsystem (native/jni/zygisk/hide/monitor.cpp)

    A shallow embedding of the monitor: the global variables of the
    translation unit and the kernel state the monitor changes form a
    [world]; every function of monitor.cpp is a computation in a small
    state / trace / error monad [M].  A computation
      - threads the [world],
      - appends to the trace the calls it makes to the kernel and to the
        external collaborators (kill, ptrace, waitpid, hide_daemon, ...),
        reads with the answer they got,
      - fails ([None]) exactly when the C++ code would index the
        [bitset<PID_MAX>] out of range.
    What the kernel answers is given by an oracle [env]: a snapshot of
    procfs and of the pending kernel replies for every instant; every
    query moves the clock [now] by one, so that two reads of the same
    proc file may differ.

    Conventions:
      - one turn of the for loop of proc_monitor, one run of a signal
        handler and one run of the worker do_check_fork are each one
        computation; a worker sees the registry as it is when it runs;
      - an uninitialised local (a char[] before a failed fgets, an int
        before a failed scanf) holds what the oracle says it holds;
      - wrappers of utils (open_file, xptrace, xinotify_init1,
        new_daemon_thread) are the call they wrap;
      - LOGD/LOGI/LOGW/PTRACE_LOG only write to the log and are left
        out, as are sa_mask and the handle monitor_thread.

    The file has the embedding first, then the definitions the
    properties are stated with, then the properties. *)

From Stdlib Require Import ZArith String Ascii List Bool Lia.
From stdpp Require Import gmap strings list fin_maps pretty.

Local Open Scope string_scope.
Local Open Scope Z_scope.

(** ** Constants of the system headers *)

Definition PID_MAX : Z := 32768.

Definition SIGTRAP : Z := 5.
Definition SIGALRM : Z := 14.
Definition SIGCONT : Z := 18.
Definition SIGSTOP : Z := 19.
Definition SIGIO : Z := 29.

Definition PTRACE_O_TRACEFORK : Z := Z.shiftl 1 1.
Definition PTRACE_O_TRACEVFORK : Z := Z.shiftl 1 2.
Definition PTRACE_O_TRACECLONE : Z := Z.shiftl 1 3.
Definition PTRACE_O_TRACEEXEC : Z := Z.shiftl 1 4.
Definition PTRACE_O_TRACEEXIT : Z := Z.shiftl 1 6.

Definition PTRACE_EVENT_FORK : Z := 1.
Definition PTRACE_EVENT_VFORK : Z := 2.
Definition PTRACE_EVENT_EXIT : Z := 6.

Definition WALL : Z := 0x40000000.
Definition WNOTHREAD : Z := 0x20000000.
Definition ECHILD : Z := 10.

Definition IN_ACCESS : Z := 0x1.
Definition IN_CLOSE_WRITE : Z := 0x8.
Definition IN_CLOEXEC : Z := 0x80000.

(** <sys/wait.h>: a wait status is an int; the low byte 0x7f marks a
    stop, the next byte is the stopping signal. *)
Definition WIFSTOPPED (status : Z) : bool := Z.land status 0xff =? 0x7f.
Definition WSTOPSIG (status : Z) : Z := Z.shiftr (Z.land status 0xff00) 8.

(** The iteration cap of the three polling loops. *)
Definition MAX_ITER : nat := Z.to_nat 300000.

(** ** Data model *)

(** The fields of [struct stat] the monitor looks at. *)
Record stat := { st_dev : Z; st_ino : Z; st_uid : Z }.

Record timeval := { tv_sec : Z; tv_usec : Z }.
Record itimerval := { it_interval : timeval; it_value : timeval }.

Inductive sighandler :=
| SIG_DFL
| SIG_IGN
| H_term_thread
| H_inotify_event
| H_check_zygote.

Inductive ptrace_request :=
| PTRACE_ATTACH
| PTRACE_DETACH
| PTRACE_SETOPTIONS
| PTRACE_CONT
| PTRACE_GETEVENTMSG.

Inductive proc_file := AttrCurrent | Cmdline.

(** One instant of what the kernel would answer.  A proc file read with
    open_file/fopen and one fgets is [None] when it cannot be opened,
    [Some None] when fgets returns NULL, [Some (Some s)] when fgets
    leaves the C string [s] in the buffer. *)
Record snapshot := {
  pf_pids : list Z;                            (* pids crawl_procfs walks over *)
  pf_stat : Z -> option stat;                  (* stat("/proc/<pid>") *)
  pf_file : proc_file -> Z -> option (option string);
  pf_ns_mnt : Z -> option stat;                (* stat("/proc/<pid>/ns/mnt") *)
  pf_status : Z -> option (list string);       (* /proc/<pid>/status, line by line *)
  pf_ppid : Z -> option (option Z);            (* /proc/<pid>/stat, 4th field *)
  k_waitpid_any : Z * Z * Z;                   (* waitpid(-1): result, status, errno *)
  k_eventmsg : Z -> Z;                         (* msg after PTRACE_GETEVENTMSG *)
  k_inotify_init1 : Z;
  k_poll : Z;
  k_inotify_read : Z * string;                 (* mask and name found in buf *)
  k_access : string -> Z;
  uninit_buf : string;                         (* content of an uninitialised char[] *)
  uninit_int : Z                               (* content of an uninitialised int *)
}.

Inductive event :=
| EStatProc (pid : Z) (r : option stat)
| EOpenRead (f : proc_file) (pid : Z) (r : option (option string))
| EReadNs (pid : Z) (r : option stat)
| EReadStatus (pid : Z) (r : option (list string))
| EParsePpid (pid : Z) (r : option (option Z))
| EUsleep (usec : Z)
| ENanosleep
| EKill (pid sig : Z)
| EIsHideTarget (uid : Z) (cmdline : string) (threshold : Z)
| EHideDaemon (pid : Z)
| EUpdateUidMap
| EPtrace (req : ptrace_request) (pid : Z) (data : Z)
| EWaitpid (pid : Z) (options : Z)
| EWaitAny (r : Z * Z * Z)
| ENewDaemonThreadCheckFork
| EInotifyInit (fd : Z)
| EFcntlAsync (fd : Z)
| EInotifyAddWatch (fd : Z) (path : string) (mask : Z)
| EPoll (fd : Z)
| ERead (fd : Z)
| EClose (fd : Z)
| EPthreadExit.

(** The globals of monitor.cpp, then the kernel state of the monitor
    thread, then the oracle's clock. *)
Record world := {
  zygote_map : gmap Z stat;        (* static map<int, struct stat> zygote_map *)
  attaches : Z;                    (* pid_set::set, the bits of bitset<PID_MAX> *)
  fork_pid : Z;                    (* static int fork_pid *)
  inotify_fd : Z;                  (* static int inotify_fd *)
  itimer_real : itimerval;         (* ITIMER_REAL *)
  sig_handlers : gmap Z sighandler;
  sig_mask : Z;                    (* blocked signals, bit sig-1 *)
  open_fds : gset Z;
  now : nat
}.

Definition set_zygote_map (m : gmap Z stat) (w : world) : world :=
  {| zygote_map := m; attaches := attaches w; fork_pid := fork_pid w;
     inotify_fd := inotify_fd w; itimer_real := itimer_real w;
     sig_handlers := sig_handlers w; sig_mask := sig_mask w;
     open_fds := open_fds w; now := now w |}.

Definition set_attaches (b : Z) (w : world) : world :=
  {| zygote_map := zygote_map w; attaches := b; fork_pid := fork_pid w;
     inotify_fd := inotify_fd w; itimer_real := itimer_real w;
     sig_handlers := sig_handlers w; sig_mask := sig_mask w;
     open_fds := open_fds w; now := now w |}.

Definition set_fork_pid (p : Z) (w : world) : world :=
  {| zygote_map := zygote_map w; attaches := attaches w; fork_pid := p;
     inotify_fd := inotify_fd w; itimer_real := itimer_real w;
     sig_handlers := sig_handlers w; sig_mask := sig_mask w;
     open_fds := open_fds w; now := now w |}.

Definition set_inotify_fd (fd : Z) (w : world) : world :=
  {| zygote_map := zygote_map w; attaches := attaches w; fork_pid := fork_pid w;
     inotify_fd := fd; itimer_real := itimer_real w;
     sig_handlers := sig_handlers w; sig_mask := sig_mask w;
     open_fds := open_fds w; now := now w |}.

Definition set_itimer_real (t : itimerval) (w : world) : world :=
  {| zygote_map := zygote_map w; attaches := attaches w; fork_pid := fork_pid w;
     inotify_fd := inotify_fd w; itimer_real := t;
     sig_handlers := sig_handlers w; sig_mask := sig_mask w;
     open_fds := open_fds w; now := now w |}.

Definition set_sig_handlers (h : gmap Z sighandler) (w : world) : world :=
  {| zygote_map := zygote_map w; attaches := attaches w; fork_pid := fork_pid w;
     inotify_fd := inotify_fd w; itimer_real := itimer_real w;
     sig_handlers := h; sig_mask := sig_mask w;
     open_fds := open_fds w; now := now w |}.

Definition set_sig_mask (m : Z) (w : world) : world :=
  {| zygote_map := zygote_map w; attaches := attaches w; fork_pid := fork_pid w;
     inotify_fd := inotify_fd w; itimer_real := itimer_real w;
     sig_handlers := sig_handlers w; sig_mask := m;
     open_fds := open_fds w; now := now w |}.

Definition set_open_fds (s : gset Z) (w : world) : world :=
  {| zygote_map := zygote_map w; attaches := attaches w; fork_pid := fork_pid w;
     inotify_fd := inotify_fd w; itimer_real := itimer_real w;
     sig_handlers := sig_handlers w; sig_mask := sig_mask w;
     open_fds := s; now := now w |}.

Definition tick (w : world) : world :=
  {| zygote_map := zygote_map w; attaches := attaches w; fork_pid := fork_pid w;
     inotify_fd := inotify_fd w; itimer_real := itimer_real w;
     sig_handlers := sig_handlers w; sig_mask := sig_mask w;
     open_fds := open_fds w; now := S (now w) |}.

(** ** The monad *)

Definition M (A : Type) : Type := world -> option (A * world * list event).

Definition ret {A} (a : A) : M A := fun w => Some (a, w, []).

Definition bind {A B} (m : M A) (k : A -> M B) : M B :=
  fun w =>
    match m w with
    | None => None
    | Some (a, w1, t1) =>
        match k a w1 with
        | None => None
        | Some (b, w2, t2) => Some (b, w2, (t1 ++ t2)%list)
        end
    end.

Notation "'do' x <- m ; k" := (bind m (fun x => k))
  (at level 10, x name, m at level 99, k at level 200).
Notation "m ;; k" := (bind m (fun _ => k))
  (at level 100, k at level 200, right associativity).

Definition get : M world := fun w => Some (w, w, []).
Definition modify (f : world -> world) : M unit := fun w => Some (tt, f w, []).
Definition emit (e : event) : M unit := fun w => Some (tt, w, [e]).

(** ** pid_set: bitset<PID_MAX> behind operator[] (pos - 1) *)

Section Monitor.

(** [lp64] says whether __LP64__ is defined; size_t and unsigned long
    have [word_bits] bits. *)
Variable lp64 : bool.

Definition word_bits : Z := if lp64 then 64 else 32.

(** Conversion to size_t / unsigned long, and to int. *)
Definition to_size_t (x : Z) : Z := x mod 2 ^ word_bits.
Definition to_int (x : Z) : Z := (x + 2 ^ 31) mod 2 ^ 32 - 2 ^ 31.

(** The bit [operator[](size_t pos)] refers to: [set[pos - 1]], the
    subtraction being done in size_t. *)
Definition pid_set_index (pos : Z) : Z := to_size_t (to_size_t pos - 1).

Definition in_bounds (idx : Z) : bool := (0 <=? idx) && (idx <? PID_MAX).

(** [attaches[pos]] read. *)
Definition pid_set_get (pos : Z) : M bool :=
  fun w =>
    let idx := pid_set_index pos in
    if in_bounds idx then Some (Z.testbit (attaches w) idx, w, [])
    else None.

(** [attaches[pos] = b]. *)
Definition pid_set_put (pos : Z) (b : bool) : M unit :=
  fun w =>
    let idx := pid_set_index pos in
    if in_bounds idx
    then Some (tt, set_attaches (if b then Z.setbit (attaches w) idx
                                 else Z.clearbit (attaches w) idx) w, [])
    else None.

(** [attaches.reset()]. *)
Definition pid_set_reset : M unit := modify (set_attaches 0).

(** ** The oracle and the external collaborators *)

(** WEVENT and SIGTERMTHRD are macros of hide.hpp, which is not part of
    the sources at hand; is_hide_target is the external target
    predicate. *)
Variable WEVENT : Z -> Z.
Variable SIGTERMTHRD : Z.
Variable is_hide_target : Z -> string -> Z -> bool.
Variable env : nat -> snapshot.

(** Ask the kernel: answer of the current instant, clock moves on. *)
Definition observe {A} (q : snapshot -> A) : M A :=
  fun w => Some (q (env (now w)), tick w, []).

(** Look at uninitialised memory. *)
Definition peek {A} (q : snapshot -> A) : M A :=
  fun w => Some (q (env (now w)), w, []).

(** [fgets(buf, ...)]: the buffer keeps its content when nothing is read. *)
Definition fgets (buf : string) (r : option string) : string :=
  match r with Some s => s | None => buf end.

Definition stat_proc (pid : Z) : M (option stat) :=
  do r <- observe (fun s => pf_stat s pid);
  emit (EStatProc pid r) ;; ret r.

Definition open_read (f : proc_file) (pid : Z) : M (option (option string)) :=
  do r <- observe (fun s => pf_file s f pid);
  emit (EOpenRead f pid r) ;; ret r.

(** [read_ns(pid, &st)]: on failure [st] is left as it was. *)
Definition read_ns (pid : Z) : M (option stat) :=
  do r <- observe (fun s => pf_ns_mnt s pid);
  emit (EReadNs pid r) ;; ret r.

Definition usleep (usec : Z) : M unit := emit (EUsleep usec).
Definition kill (pid sig : Z) : M unit := emit (EKill pid sig).
Definition hide_daemon (pid : Z) : M unit := emit (EHideDaemon pid).
Definition xptrace (req : ptrace_request) (pid data : Z) : M unit :=
  emit (EPtrace req pid data).

Definition call_is_hide_target (uid : Z) (cmdline : string) (thr : Z) : M bool :=
  emit (EIsHideTarget uid cmdline thr) ;; ret (is_hide_target uid cmdline thr).

(** ** Ptrace: detach_pid, check_pid *)

Definition detach_pid (pid : Z) (signal : Z) : M unit :=
  pid_set_put pid false ;;
  xptrace PTRACE_DETACH pid signal.

Definition is_zygote_name (cmdline : string) : bool :=
  String.eqb cmdline "zygote" || String.eqb cmdline "zygote32"
  || String.eqb cmdline "zygote64".

(** [strstr(haystack, needle) != NULL]. *)
Fixpoint strstr (haystack needle : string) : bool :=
  String.prefix needle haystack ||
  match haystack with
  | EmptyString => false
  | String _ rest => strstr rest needle
  end.

Definition same_ns (a b : stat) : bool :=
  (st_ino a =? st_ino b) && (st_dev a =? st_dev b).

(** The loop over zygote_map of check_pid: does some entry have the
    inode and device of [st]? *)
Definition any_shares_ns (m : gmap Z stat) (st : stat) : bool :=
  existsb (fun kv => same_ns (snd kv) st) (map_to_list m).

(** Label not_target. *)
Definition not_target (pid : Z) : M bool :=
  kill pid SIGCONT ;; ret true.

(** The first loop, "wait until pre-initialized"; [remaining] is
    300000 - i.  [None] stands for [return true] out of the loop,
    [Some cmdline] for leaving the loop by its condition. *)
Fixpoint wait_pre_initialized (remaining : nat) (pid : Z) (cmdline : string)
  : M (option string) :=
  if String.eqb cmdline "<pre-initialized>" then ret (Some cmdline)
  else match remaining with
       | O => ret None
       | S n =>
           do r <- open_read Cmdline pid;
           match r with
           | None => ret None
           | Some l => usleep 10 ;; wait_pre_initialized n pid (fgets cmdline l)
           end
       end.

Inductive wait_result :=
| Initialized (cmdline : string)    (* loop left by its condition *)
| StuckForever                      (* i >= 300000: goto not_target *)
| Died.                             (* open_file failed: return true *)

(** The second loop, "app process is being initialized". *)
Fixpoint wait_initialized (remaining : nat) (pid : Z) (cmdline : string)
  : M wait_result :=
  if String.eqb cmdline "<pre-initialized>" then
    match remaining with
    | O => ret StuckForever
    | S n =>
        do r <- open_read Cmdline pid;
        match r with
        | None => ret Died
        | Some l => usleep 10 ;; wait_initialized n pid (fgets cmdline l)
        end
    end
  else ret (Initialized cmdline).

(** From label check_and_hide to the end of check_pid. *)
Definition check_and_hide (pid uid : Z) (cmdline : string) (st : stat) : M bool :=
  if uid =? 0 then ret false
  else if is_zygote_name cmdline || String.eqb cmdline "usap32"
          || String.eqb cmdline "usap64" then ret false
  else
    do r <- wait_initialized MAX_ITER pid cmdline;
    match r with
    | Died => ret true
    | StuckForever => not_target pid
    | Initialized cmdline =>
        do again <- open_read Cmdline pid;
        match again with
        | None => ret true
        | Some l =>
            let cmdline := fgets cmdline l in
            kill pid SIGSTOP ;;
            do target <- call_is_hide_target uid cmdline 95;
            if negb target then not_target pid
            else
              do ns <- read_ns pid;
              let st := match ns with Some st' => st' | None => st end in
              do w <- get;
              if any_shares_ns (zygote_map w) st then not_target pid
              else hide_daemon pid ;; ret true
        end
    end.

Definition check_pid (pid : Z) : M bool :=
  do r <- stat_proc pid;
  match r with
  | None => ret true
  | Some st =>
      let uid := st_uid st in
      do context0 <- peek uninit_buf;
      do c <- open_read AttrCurrent pid;
      match c with
      | None => ret true
      | Some l =>
          let context := fgets context0 l in
          do cmdline0 <- peek uninit_buf;
          do c <- open_read Cmdline pid;
          match c with
          | None => ret true
          | Some l =>
              let cmdline := fgets cmdline0 l in
              if is_zygote_name cmdline && negb (String.eqb context "u:r:zygote:s0")
              then
                if strstr context "u:r:app_zygote:s0"
                then check_and_hide pid uid cmdline st
                else
                  do r <- wait_pre_initialized MAX_ITER pid cmdline;
                  match r with
                  | None => ret true
                  | Some cmdline => check_and_hide pid uid cmdline st
                  end
              else check_and_hide pid uid cmdline st
          end
      end
  end.

(** The polling loop of do_check_fork; [remaining] is 300000 - i. *)
Fixpoint poll_check_pid (remaining : nat) (pid : Z) : M unit :=
  do done <- check_pid pid;
  if done then ret tt
  else match remaining with
       | O => ret tt
       | S n => usleep 10 ;; poll_check_pid n pid
       end.

Definition do_check_fork : M unit :=
  do w <- get;
  let pid := fork_pid w in
  modify (set_fork_pid 0) ;;
  if pid =? 0 then ret tt
  else
    detach_pid pid 0 ;;
    poll_check_pid MAX_ITER pid.

(** ** is_process *)

Definition isspace (c : ascii) : bool :=
  let n := nat_of_ascii c in
  Nat.eqb n 32 || (Nat.leb 9 n && Nat.leb n 13).

Fixpoint skip_space (s : string) : string :=
  match s with
  | String c rest => if isspace c then skip_space rest else s
  | EmptyString => s
  end.

(** The longest prefix without white space, and what follows it. *)
Fixpoint take_token (s : string) : string * string :=
  match s with
  | String c rest =>
      if isspace c then (EmptyString, s)
      else let (t, after) := take_token rest in (String c t, after)
  | EmptyString => (EmptyString, EmptyString)
  end.

Definition digit (c : ascii) : option Z :=
  let n := nat_of_ascii c in
  if Nat.leb 48 n && Nat.leb n 57 then Some (Z.of_nat n - 48) else None.

Fixpoint scan_digits (s : string) (acc : option Z) : option Z :=
  match s with
  | String c rest =>
      match digit c with
      | Some d => scan_digits rest (Some (10 * default 0 acc + d))
      | None => acc
      end
  | EmptyString => acc
  end.

(** The conversion %d: white space, an optional sign, decimal digits. *)
Definition scan_int (s : string) : option Z :=
  match skip_space s with
  | String "-" rest => Z.opp <$> scan_digits rest None
  | String "+" rest => scan_digits rest None
  | s' => scan_digits s' None
  end.

(** [sscanf(buf, "%s", key)]: [key] keeps its content when [buf] has no
    token. *)
Definition sscanf_s (buf key : string) : string :=
  let (t, _) := take_token (skip_space buf) in
  match t with EmptyString => key | _ => t end.

(** What the conversion %d leaves in an int: the C library converts
    the digits with strtoimax, which saturates at the range of
    intmax_t, and the store into the int keeps the low 32 bits. *)
Definition INTMAX_MAX : Z := 2 ^ 63 - 1.
Definition INTMAX_MIN : Z := - 2 ^ 63.

Definition store_int (n : Z) : Z :=
  to_int (Z.max INTMAX_MIN (Z.min INTMAX_MAX n)).

(** [sscanf(buf, "%*s %d", &tgid)] with [int tgid]: [tgid] keeps its
    content when the conversion fails. *)
Definition sscanf_skip_d (buf : string) (tgid : Z) : Z :=
  let (t, after) := take_token (skip_space buf) in
  match t with
  | EmptyString => tgid
  | _ => default tgid (store_int <$> scan_int after)
  end.

(** The while loop of is_process over the lines fgets yields. *)
Fixpoint scan_status (pid : Z) (lines : list string) (key : string) (tgid : Z)
  : bool :=
  match lines with
  | [] => false
  | buf :: rest =>
      let key := sscanf_s buf key in
      if String.eqb key "Tgid:" then sscanf_skip_d buf tgid =? pid
      else scan_status pid rest key tgid
  end.

Definition is_process (pid : Z) : M bool :=
  do key0 <- peek uninit_buf;
  do tgid0 <- peek uninit_int;
  do r <- observe (fun s => pf_status s pid);
  emit (EReadStatus pid r) ;;
  match r with
  | None => ret false                    (* PID is dead *)
  | Some lines => ret (scan_status pid lines key0 tgid0)
  end.

(** ** Utils: parse_ppid, is_zygote_done, new_zygote, check_zygote *)

Definition parse_ppid (pid : Z) : M Z :=
  do r <- observe (fun s => pf_ppid s pid);
  emit (EParsePpid pid r) ;;
  match r with
  | None => ret (-1)
  | Some v => do ppid0 <- peek uninit_int; ret (default ppid0 v)
  end.

Definition expected_zygotes : nat := if lp64 then 2%nat else 1%nat.

Definition is_zygote_done (w : world) : bool :=
  Nat.leb expected_zygotes (size (zygote_map w)).

Definition waitpid (pid options : Z) : M unit := emit (EWaitpid pid options).

Definition new_zygote (pid : Z) : M unit :=
  do r <- read_ns pid;
  match r with
  | None => ret tt
  | Some st =>
      do w <- get;
      match zygote_map w !! pid with
      | Some _ =>
          (* Update namespace info *)
          modify (fun w => set_zygote_map (<[pid := st]> (zygote_map w)) w)
      | None =>
          modify (fun w => set_zygote_map (<[pid := st]> (zygote_map w)) w) ;;
          xptrace PTRACE_ATTACH pid 0 ;;
          waitpid pid (Z.lor WALL WNOTHREAD) ;;
          xptrace PTRACE_SETOPTIONS pid
            (Z.lor (Z.lor PTRACE_O_TRACEFORK PTRACE_O_TRACEVFORK) PTRACE_O_TRACEEXIT) ;;
          xptrace PTRACE_CONT pid 0
      end
  end.

(** Modelled from the spec: crawl_procfs (utils, not part of the
    sources at hand) enumerates the live pids, invoking f(pid);
    continuation depends on the predicate's return. *)
Fixpoint crawl (f : Z -> M bool) (pids : list Z) : M unit :=
  match pids with
  | [] => ret tt
  | pid :: rest => do continue <- f pid; if continue then crawl f rest else ret tt
  end.

Definition crawl_procfs (f : Z -> M bool) : M unit :=
  do pids <- observe pf_pids;
  crawl f pids.

Definition proc_cmdline_path (pid : Z) : string :=
  "/proc/" +:+ pretty pid +:+ "/cmdline".

(** The lambda check_zygote hands to crawl_procfs; [buf] holds the path
    before fgets. *)
Definition check_zygote_entry (pid : Z) : M bool :=
  do r <- open_read Cmdline pid;
  match r with
  | Some l =>
      let buf := fgets (proc_cmdline_path pid) l in
      (if String.prefix "zygote" buf then
         do ppid <- parse_ppid pid;
         if ppid =? 1 then new_zygote pid else ret tt
       else ret tt) ;;
      ret true
  | None => ret true
  end.

Definition timeval_zero : timeval := {| tv_sec := 0; tv_usec := 0 |}.

Definition setitimer_real (v : itimerval) : M unit := modify (set_itimer_real v).

(** ITIMER_REAL is armed as long as it_value is not zero. *)
Definition timer_armed (w : world) : bool :=
  negb ((tv_sec (it_value (itimer_real w)) =? 0)
        && (tv_usec (it_value (itimer_real w)) =? 0)).

Definition check_zygote : M unit :=
  crawl_procfs check_zygote_entry ;;
  do w <- get;
  if is_zygote_done w then
    (* Stop periodic scanning *)
    setitimer_real {| it_interval := timeval_zero; it_value := timeval_zero |}
  else ret tt.

(** ** inotify and the signal handlers *)

Definition APP_PROC : string := "/system/bin/app_process".

Definition inotify_add_watch (fd : Z) (path : string) (mask : Z) : M unit :=
  emit (EInotifyAddWatch fd path mask).

Definition access (path : string) : M Z := observe (fun s => k_access s path).

Definition setup_inotify : M unit :=
  do fd <- observe k_inotify_init1;
  emit (EInotifyInit fd) ;;
  modify (set_inotify_fd fd) ;;
  if fd <? 0 then ret tt
  else
    modify (fun w => set_open_fds ({[fd]} ∪ open_fds w) w) ;;
    emit (EFcntlAsync fd) ;;
    inotify_add_watch fd "/data/system" IN_CLOSE_WRITE ;;
    do a32 <- access (APP_PROC +:+ "32");
    if a32 =? 0 then
      inotify_add_watch fd (APP_PROC +:+ "32") IN_ACCESS ;;
      do a64 <- access (APP_PROC +:+ "64");
      if a64 =? 0 then inotify_add_watch fd (APP_PROC +:+ "64") IN_ACCESS
      else ret tt
    else inotify_add_watch fd APP_PROC IN_ACCESS.

Definition inotify_event : M unit :=
  do w <- get;
  do n <- observe k_poll;
  emit (EPoll (inotify_fd w)) ;;
  if n <=? 0 then ret tt                     (* Nothing to read *)
  else
    do ev <- observe k_inotify_read;
    emit (ERead (inotify_fd w)) ;;
    (if negb (Z.land (fst ev) IN_CLOSE_WRITE =? 0)
        && String.eqb (snd ev) "packages.xml"
     then emit EUpdateUidMap else ret tt) ;;
    check_zygote.

(** [close(fd)]: a negative descriptor is refused (EBADF). *)
Definition close (fd : Z) : M unit :=
  emit (EClose fd) ;;
  modify (fun w => set_open_fds (if fd <? 0 then open_fds w
                                 else open_fds w ∖ {[fd]}) w).

Definition sigaction (sig : Z) (h : sighandler) : M unit :=
  modify (fun w => set_sig_handlers (<[sig := h]> (sig_handlers w)) w).

(** Signal sets are bit masks, signal [sig] being bit [sig - 1]; the
    full set has every bit. *)
Definition sigemptyset : Z := 0.
Definition sigfillset : Z := -1.
Definition sigaddset (set sig : Z) : Z := Z.setbit set (sig - 1).

Inductive sigmask_how := SIG_BLOCK | SIG_UNBLOCK | SIG_SETMASK.

Definition pthread_sigmask (how : sigmask_how) (set : Z) : M unit :=
  modify (fun w =>
    set_sig_mask (match how with
                  | SIG_BLOCK => Z.lor (sig_mask w) set
                  | SIG_UNBLOCK => Z.ldiff (sig_mask w) set
                  | SIG_SETMASK => set
                  end) w).

Definition term_thread : M unit :=
  modify (set_zygote_map ∅) ;;
  pid_set_reset ;;
  do w <- get;
  close (inotify_fd w) ;;
  modify (set_inotify_fd (-1)) ;;
  (* Restore all signal handlers that was set *)
  pthread_sigmask SIG_BLOCK sigfillset ;;
  sigaction SIGTERMTHRD SIG_DFL ;;
  sigaction SIGIO SIG_DFL ;;
  sigaction SIGALRM SIG_DFL ;;
  emit EPthreadExit.

(** ** proc_monitor *)

Definition unblock_set : Z :=
  sigaddset (sigaddset (sigaddset sigemptyset SIGTERMTHRD) SIGIO) SIGALRM.

(** proc_monitor up to its for loop; the result is [orig_mask]. *)
Definition proc_monitor_init : M Z :=
  do w <- get;
  let orig_mask := sig_mask w in
  sigaction SIGTERMTHRD SIG_IGN ;;
  sigaction SIGIO SIG_IGN ;;
  sigaction SIGALRM SIG_IGN ;;
  (* Temporary unblock to clear pending signals *)
  pthread_sigmask SIG_UNBLOCK unblock_set ;;
  pthread_sigmask SIG_SETMASK orig_mask ;;
  sigaction SIGTERMTHRD H_term_thread ;;
  sigaction SIGIO H_inotify_event ;;
  sigaction SIGALRM H_check_zygote ;;
  setup_inotify ;;
  (* First try find existing zygotes *)
  check_zygote ;;
  do w <- get;
  (if negb (is_zygote_done w) then
     (* Periodic scan every 250ms *)
     let val := {| tv_sec := 0; tv_usec := 250000 |} in
     setitimer_real {| it_interval := val; it_value := val |}
   else ret tt) ;;
  ret orig_mask.

Definition new_daemon_thread_do_check_fork : M unit :=
  emit ENewDaemonThreadCheckFork.

(** One turn of the for loop of proc_monitor. *)
Definition proc_monitor_iteration (orig_mask : Z) : M unit :=
  pthread_sigmask SIG_UNBLOCK unblock_set ;;
  do r <- observe k_waitpid_any;
  emit (EWaitAny r) ;;
  let '(pid, status, errno) := r in
  if pid <? 0 then
    if errno =? ECHILD then emit ENanosleep else ret tt
  else
    pthread_sigmask SIG_SETMASK orig_mask ;;
    if negb (WIFSTOPPED status) then detach_pid pid 0
    else
      let event := WEVENT status in
      let signal := WSTOPSIG status in
      if (signal =? SIGTRAP) && negb (event =? 0) then
        do msg <- observe (fun s => k_eventmsg s pid);
        xptrace PTRACE_GETEVENTMSG pid msg ;;
        do w <- get;
        if bool_decide (is_Some (zygote_map w !! pid)) then
          (* Zygote event *)
          if (event =? PTRACE_EVENT_FORK) || (event =? PTRACE_EVENT_VFORK) then
            pid_set_put msg false ;;
            modify (set_fork_pid (to_int msg)) ;;
            detach_pid (to_int msg) 0 ;;
            new_daemon_thread_do_check_fork ;;
            xptrace PTRACE_CONT pid 0
          else
            modify (fun w => set_zygote_map (delete pid (zygote_map w)) w) ;;
            detach_pid pid 0
        else detach_pid pid 0
      else if signal =? SIGSTOP then
        do attached <- pid_set_get pid;
        (if negb attached then
           (* Double check if this is actually a process *)
           do p <- is_process pid; pid_set_put pid p
         else ret tt) ;;
        do attached <- pid_set_get pid;
        if attached then
          (* This is a process, continue monitoring *)
          xptrace PTRACE_SETOPTIONS pid
            (Z.lor (Z.lor PTRACE_O_TRACECLONE PTRACE_O_TRACEEXEC) PTRACE_O_TRACEEXIT) ;;
          xptrace PTRACE_CONT pid 0
        else
          (* This is a thread, do NOT monitor *)
          detach_pid pid 0
      else
        (* Not caused by us, resend signal *)
        xptrace PTRACE_CONT pid signal.

(** What the monitor thread does after start-up: turns of the for
    loop, interleaved with the handlers of SIGALRM and SIGIO. *)
Inductive activity :=
| Iteration          (* one turn of the for loop *)
| Alarm              (* SIGALRM: check_zygote *)
| Inotify.           (* SIGIO: inotify_event *)

Definition perform (orig_mask : Z) (a : activity) : M unit :=
  match a with
  | Iteration => proc_monitor_iteration orig_mask
  | Alarm => check_zygote
  | Inotify => inotify_event
  end.

Fixpoint perform_all (orig_mask : Z) (l : list activity) : M unit :=
  match l with
  | [] => ret tt
  | a :: rest => perform orig_mask a ;; perform_all orig_mask rest
  end.

Definition proc_monitor (l : list activity) : M unit :=
  do orig_mask <- proc_monitor_init;
  perform_all orig_mask l.

End Monitor.

(** * Vocabulary of the properties *)

(** [returns m w Q]: from world [w] the computation [m] has a result
    (no out-of-range bitset access), and result, final world and trace
    satisfy [Q]. *)
Definition returns {A} (m : M A) (w : world)
    (Q : A -> world -> list event -> Prop) : Prop :=
  exists a w' t, m w = Some (a, w', t) /\ Q a w' t.

(** Worlds that differ by the oracle's clock only. *)
Definition set_now (n : nat) (w : world) : world :=
  {| zygote_map := zygote_map w; attaches := attaches w; fork_pid := fork_pid w;
     inotify_fd := inotify_fd w; itimer_real := itimer_real w;
     sig_handlers := sig_handlers w; sig_mask := sig_mask w;
     open_fds := open_fds w; now := n |}.

Definition clock_only (w w' : world) : Prop := w' = set_now (now w') w.

Section Vocabulary.

Variable lp64 : bool.
Variable WEVENT : Z -> Z.
Variable SIGTERMTHRD : Z.
Variable is_hide_target : Z -> string -> Z -> bool.
Variable env : nat -> snapshot.

(** Reads of proc files and sleeps: what a run does while it polls. *)
Definition passive (e : event) : bool :=
  match e with
  | EStatProc _ _ | EOpenRead _ _ _ | EUsleep _ => true
  | _ => false
  end.

(** A stat or open_file that check_pid tests and that failed. *)
Definition failed_read (e : event) : bool :=
  match e with
  | EStatProc _ None | EOpenRead _ _ None => true
  | _ => false
  end.

Definition clean (t : list event) : bool :=
  forallb (fun e => passive e && negb (failed_read e)) t.

(** How a run of check_pid ends once it acts on the child. *)
Inductive verdict (pid : Z) (zm : gmap Z stat) : list event -> Prop :=
| V_stuck :
    verdict pid zm [EKill pid SIGCONT]
| V_not_target uid cmdline :
    is_hide_target uid cmdline 95 = false ->
    verdict pid zm [EKill pid SIGSTOP; EIsHideTarget uid cmdline 95;
                    EKill pid SIGCONT]
| V_not_separated uid cmdline ns st0 n :
    is_hide_target uid cmdline 95 = true ->
    ns = pf_ns_mnt (env n) pid ->
    any_shares_ns zm (default st0 ns) = true ->
    verdict pid zm [EKill pid SIGSTOP; EIsHideTarget uid cmdline 95;
                    EReadNs pid ns; EKill pid SIGCONT]
| V_target uid cmdline ns st0 n :
    is_hide_target uid cmdline 95 = true ->
    ns = pf_ns_mnt (env n) pid ->
    any_shares_ns zm (default st0 ns) = false ->
    verdict pid zm [EKill pid SIGSTOP; EIsHideTarget uid cmdline 95;
                    EReadNs pid ns; EHideDaemon pid].

(** A run either only reads and sleeps (and then a failed read makes
    it return true), or reads without a failure and ends in a verdict. *)
Inductive inspected (pid : Z) (zm : gmap Z stat) : bool -> list event -> Prop :=
| I_quiet r t :
    forallb passive t = true ->
    (existsb failed_read t = true -> r = true) ->
    inspected pid zm r t
| I_acted P T :
    clean P = true -> verdict pid zm T -> inspected pid zm true (P ++ T).

(** A whole inspection: the polls of do_check_fork that came back
    false, then the last call of check_pid. *)
Definition inspection (pid : Z) (zm : gmap Z stat) (t : list event) : Prop :=
  exists r, inspected pid zm r t.

Definition is_kill (pid sig : Z) (e : event) : bool :=
  match e with
  | EKill p s => (p =? pid) && (s =? sig)
  | _ => false
  end.

Definition is_hide_daemon (pid : Z) (e : event) : bool :=
  match e with
  | EHideDaemon p => p =? pid
  | _ => false
  end.

Definition count (p : event -> bool) (t : list event) : nat :=
  length (List.filter p t).

Definition resumes (pid : Z) (t : list event) : nat := count (is_kill pid SIGCONT) t.
Definition stops (pid : Z) (t : list event) : nat := count (is_kill pid SIGSTOP) t.
Definition handovers (pid : Z) (t : list event) : nat := count (is_hide_daemon pid) t.

Definition cleaned (w : world) : Prop :=
  zygote_map w = ∅ /\ attaches w = 0 /\ inotify_fd w = -1 /\
  sig_handlers w !! SIGTERMTHRD = Some SIG_DFL /\
  sig_handlers w !! SIGIO = Some SIG_DFL /\
  sig_handlers w !! SIGALRM = Some SIG_DFL /\
  sig_mask w = sigfillset.

(** The world term_thread leaves behind. *)
Definition terminated (w : world) : world :=
  {| zygote_map := ∅; attaches := 0; fork_pid := fork_pid w; inotify_fd := -1;
     itimer_real := itimer_real w;
     sig_handlers :=
       <[SIGALRM := SIG_DFL]>
         (<[SIGIO := SIG_DFL]> (<[SIGTERMTHRD := SIG_DFL]> (sig_handlers w)));
     sig_mask := Z.lor (sig_mask w) sigfillset;
     open_fds := if inotify_fd w <? 0 then open_fds w
                 else open_fds w ∖ {[inotify_fd w]};
     now := now w |}.

Definition zygote_options : Z :=
  Z.lor (Z.lor PTRACE_O_TRACEFORK PTRACE_O_TRACEVFORK) PTRACE_O_TRACEEXIT.




(** The status file as is_process judges it. *)
Definition confirmed_process (s : snapshot) (pid : Z) : bool :=
  match pf_status s pid with
  | None => false
  | Some lines => scan_status pid lines (uninit_buf s) (uninit_int s)
  end.


(** [frame R m]: whenever [m] has a result, initial and final world
    are related by [R]. *)
Definition frame (R : world -> world -> Prop) {A} (m : M A) : Prop :=
  forall w a w' t, m w = Some (a, w', t) -> R w w'.

(** A turn of the loop leaves the timer alone and never grows the
    registry. *)
Definition timer_kept (w w' : world) : Prop :=
  itimer_real w' = itimer_real w /\
  (size (zygote_map w') <= size (zygote_map w))%nat.

Definition timer_only (w w' : world) : Prop := itimer_real w' = itimer_real w.

(** The invariant: an armed timer means an incomplete registry. *)
Definition armed_means_incomplete (w : world) : Prop :=
  timer_armed w = true -> is_zygote_done lp64 w = false.

(** ** Further vocabulary: what a trace is made of *)

(** [emits_only P m]: whenever [m] has a result, every event of its
    trace satisfies [P]. *)
Definition emits_only (P : event -> bool) {A} (m : M A) : Prop :=
  forall w a w' t, m w = Some (a, w', t) -> forallb P t = true.

(** Events that concern process [pid] and no other: reads of its proc
    files, signals, ptrace requests and the hand-over for it, sleeps
    and the consultation of the target predicate. *)
Definition about (pid : Z) (e : event) : bool :=
  match e with
  | EStatProc p _ | EOpenRead _ p _ | EReadNs p _
  | EKill p _ | EHideDaemon p | EPtrace _ p _ => p =? pid
  | EUsleep _ | EIsHideTarget _ _ _ => true
  | _ => false
  end.

Definition is_usleep (e : event) : bool :=
  match e with EUsleep _ => true | _ => false end.

Definition is_stat_proc (e : event) : bool :=
  match e with EStatProc _ _ => true | _ => false end.

(** [costs p k m]: whenever [m] has a result, at most [k] events of its
    trace satisfy [p]. *)
Definition costs (p : event -> bool) (k : nat) {A} (m : M A) : Prop :=
  forall w a w' t, m w = Some (a, w', t) -> (count p t <= k)%nat.

(** The child is root whenever its proc directory can be examined. *)
Definition always_root (pid : Z) : Prop :=
  forall n st, pf_stat (env n) pid = Some st -> st_uid st = 0.

(** The child's command line, whenever it can be opened, reads usap32
    or usap64. *)
Definition always_usap (pid : Z) : Prop :=
  forall n,
    match pf_file (env n) Cmdline pid with
    | None => True
    | Some None => False
    | Some (Some c) => c = "usap32" \/ c = "usap64"
    end.

(** ** Further vocabulary: discovery *)

Definition registered (pid : Z) (w : world) : Prop :=
  is_Some (zygote_map w !! pid).

Definition is_attach (pid : Z) (e : event) : bool :=
  match e with
  | EPtrace PTRACE_ATTACH p _ => p =? pid
  | _ => false
  end.

(** A ptrace request for [pid], or a wait for it. *)
Definition is_trace_call (pid : Z) (e : event) : bool :=
  match e with
  | EPtrace _ p _ | EWaitpid p _ => p =? pid
  | _ => false
  end.

(** What check_zygote's lambda finds in buf after fopen and fgets: does
    it start with "zygote"?  (A file that cannot be opened is skipped;
    after a failed fgets buf still holds the path.) *)
Definition reads_zygote (s : snapshot) (pid : Z) : bool :=
  match pf_file s Cmdline pid with
  | Some l => String.prefix "zygote" (fgets (proc_cmdline_path pid) l)
  | None => false
  end.

(** [parse_ppid(pid) == 1], the stat file being read at [s] and the
    local ppid being looked at at [s']. *)
Definition child_of_init (s s' : snapshot) (pid : Z) : bool :=
  match pf_ppid s pid with
  | None => false
  | Some v => default (uninit_int s') v =? 1
  end.

Definition adoption_calls (pid : Z) : list event :=
  [EPtrace PTRACE_ATTACH pid 0;
   EWaitpid pid (Z.lor WALL WNOTHREAD);
   EPtrace PTRACE_SETOPTIONS pid zygote_options;
   EPtrace PTRACE_CONT pid 0].

Definition is_scan_read (pid : Z) (e : event) : bool :=
  match e with
  | EOpenRead Cmdline p _ | EParsePpid p _ | EReadNs p _ => p =? pid
  | _ => false
  end.

(** What one call of check_zygote's lambda does for process [pid]. *)
Inductive entry_effect (pid : Z) (w w' : world) (t : list event) : Prop :=
| E_skipped :
    clock_only w w' ->
    forallb (is_scan_read pid) t = true ->
    (exists n, reads_zygote (env n) pid = false) \/
    (exists n, child_of_init (env n) (env (S n)) pid = false) \/
    (exists n, pf_ns_mnt (env n) pid = None) ->
    entry_effect pid w w' t
| E_adopted st n reads :
    (exists n1, reads_zygote (env n1) pid = true) ->
    (exists n2, child_of_init (env n2) (env (S n2)) pid = true) ->
    pf_ns_mnt (env n) pid = Some st ->
    clock_only (set_zygote_map (<[pid := st]> (zygote_map w)) w) w' ->
    forallb (is_scan_read pid) reads = true ->
    t = (reads ++ match zygote_map w !! pid with
                  | Some _ => []
                  | None => adoption_calls pid
                  end)%list ->
    entry_effect pid w w' t.

(** What a rescan does to the registry: it keeps every spawner,
    attaches none of those it had, attaches a pid at most once, and
    has in the registry what it attached. *)
Definition rescan_effect (w w' : world) (t : list event) : Prop :=
  (forall pid, registered pid w -> registered pid w') /\
  (forall pid, registered pid w -> count (is_attach pid) t = 0%nat) /\
  (forall pid, (count (is_attach pid) t <= 1)%nat) /\
  (forall pid, (1 <= count (is_attach pid) t)%nat -> registered pid w') /\
  attaches w' = attaches w /\ fork_pid w' = fork_pid w.

(** Process [pid] is a spawner with fingerprint [st] in snapshot [s]:
    its command line starts with "zygote", its parent is init, its
    mount namespace can be examined. *)
Definition is_zygote_at (s : snapshot) (pid : Z) (st : stat) : Prop :=
  (exists c, pf_file s Cmdline pid = Some (Some c) /\
             String.prefix "zygote" c = true) /\
  pf_ppid s pid = Some (Some 1) /\
  pf_ns_mnt s pid = Some st.

(** The command line of [pid] never reads as a spawner's: it cannot be
    opened, is empty, or does not start with "zygote". *)
Definition never_zygote_cmdline (pid : Z) : Prop :=
  forall n,
    match pf_file (env n) Cmdline pid with
    | Some (Some c) => String.prefix "zygote" c = false
    | _ => True
    end.

(** The parent of [pid] is never read as init. *)
Definition never_child_of_init (pid : Z) : Prop :=
  forall n,
    match pf_ppid (env n) pid with
    | None => True
    | Some None => False
    | Some (Some ppid) => ppid <> 1
    end.

(** ** Further vocabulary: inotify and signals *)

Definition is_update_uid_map (e : event) : bool :=
  match e with EUpdateUidMap => true | _ => false end.

Definition no_update_uid_map (e : event) : bool := negb (is_update_uid_map e).

(** The inotify event in buf is a close-write on packages.xml. *)
Definition packages_written (ev : Z * string) : bool :=
  negb (Z.land (fst ev) IN_CLOSE_WRITE =? 0)
  && String.eqb (snd ev) "packages.xml".

(** ** Further vocabulary: the loop *)

(** What no turn of the loop writes, and the registry never growing. *)
Definition loop_kept (w w' : world) : Prop :=
  itimer_real w' = itimer_real w /\ sig_handlers w' = sig_handlers w /\
  inotify_fd w' = inotify_fd w /\ open_fds w' = open_fds w /\
  zygote_map w' ⊆ zygote_map w.


(** What a rescan and the set-up of inotify leave as they were. *)
Definition rescan_kept (w w' : world) : Prop :=
  sig_handlers w' = sig_handlers w /\ sig_mask w' = sig_mask w /\
  attaches w' = attaches w /\ fork_pid w' = fork_pid w /\
  inotify_fd w' = inotify_fd w /\ open_fds w' = open_fds w.

(** The inotify descriptor and the descriptor table are as they were. *)
Definition fd_kept (w w' : world) : Prop :=
  inotify_fd w' = inotify_fd w /\ open_fds w' = open_fds w.

End Vocabulary.

(** * Concrete runs *)

(** hide.hpp is not among the sources at hand; the properties hold for
    every WEVENT and SIGTERMTHRD.  The concrete runs decode the ptrace
    event from bits 16 and up of the wait status and use SIGUSR1. *)
Definition WEVENT_bits (s : Z) : Z := Z.shiftr (Z.land s 0xffff0000) 16.
Definition SIGUSR1 : Z := 10.

(** Spawner 1000 with fingerprint F1, forked child 1100. *)
Definition F1 : stat := {| st_dev := 4; st_ino := 4026531840; st_uid := 0 |}.
Definition F2 : stat := {| st_dev := 4; st_ino := 4026532617; st_uid := 0 |}.
Definition proc_dir_1100 : stat :=
  {| st_dev := 5; st_ino := 23456; st_uid := 10050 |}.

Definition target_predicate (uid : Z) (cmdline : string) (thr : Z) : bool :=
  (uid =? 10050) && String.eqb cmdline "com.example.target" && (thr =? 95).

(** No process at all, nothing to wait for. *)
Definition empty_snapshot : snapshot :=
  {| pf_pids := [];
     pf_stat := fun _ => None;
     pf_file := fun _ _ => None;
     pf_ns_mnt := fun _ => None;
     pf_status := fun _ => None;
     pf_ppid := fun _ => None;
     k_waitpid_any := (-1, 0, ECHILD);
     k_eventmsg := fun _ => 0;
     k_inotify_init1 := 7;
     k_poll := 0;
     k_inotify_read := (0, "");
     k_access := fun _ => 0;
     uninit_buf := "";
     uninit_int := 0 |}.

(** Child 1100 alive as an app process, its mount namespace being [ns]. *)
Definition child_snapshot (ns : option stat) : snapshot :=
  {| pf_pids := [1100];
     pf_stat := fun pid => if pid =? 1100 then Some proc_dir_1100 else None;
     pf_file := fun f pid =>
       if pid =? 1100 then
         match f with
         | AttrCurrent => Some (Some "u:r:untrusted_app:s0:c50,c256,c512,c768")
         | Cmdline => Some (Some "com.example.target")
         end
       else None;
     pf_ns_mnt := fun pid => if pid =? 1100 then ns else None;
     pf_status := fun _ => None;
     pf_ppid := fun _ => None;
     k_waitpid_any := (-1, 0, ECHILD);
     k_eventmsg := fun _ => 0;
     k_inotify_init1 := 7;
     k_poll := 0;
     k_inotify_read := (0, "");
     k_access := fun _ => 0;
     uninit_buf := "";
     uninit_int := 0 |}.

(** Spawner 100 alive; the next wait reports [status] for it, and a
    fork event carries child 1100. *)
Definition zygote_snapshot (status : Z) : snapshot :=
  {| pf_pids := [1; 100];
     pf_stat := fun _ => None;
     pf_file := fun f pid =>
       if pid =? 100 then
         match f with
         | AttrCurrent => Some (Some "u:r:zygote:s0")
         | Cmdline => Some (Some "zygote")
         end
       else None;
     pf_ns_mnt := fun pid => if pid =? 100 then Some F1 else None;
     pf_status := fun pid =>
       if pid =? 100 then
         Some ["Name:" +:+ String (ascii_of_nat 9) "main";
               "Tgid:" +:+ String (ascii_of_nat 9) "100"]
       else if pid =? 101 then
         Some ["Name:" +:+ String (ascii_of_nat 9) "Binder";
               "Tgid:" +:+ String (ascii_of_nat 9) "100"]
       else None;
     pf_ppid := fun pid => if pid =? 100 then Some (Some 1) else Some (Some 2);
     k_waitpid_any := (100, status, 0);
     k_eventmsg := fun _ => 1100;
     k_inotify_init1 := 7;
     k_poll := 0;
     k_inotify_read := (0, "");
     k_access := fun _ => 0;
     uninit_buf := "";
     uninit_int := 0 |}.

(** The wait status of a ptrace-event-stop: SIGTRAP | event << 8 as
    stop signal. *)
Definition event_stop (event : Z) : Z :=
  Z.lor (Z.shiftl (Z.lor SIGTRAP (Z.shiftl event 8)) 8) 0x7f.

Definition signal_stop (sig : Z) : Z := Z.lor (Z.shiftl sig 8) 0x7f.

Definition fresh_world : world :=
  {| zygote_map := ∅; attaches := 0; fork_pid := 0; inotify_fd := -1;
     itimer_real := {| it_interval := timeval_zero; it_value := timeval_zero |};
     sig_handlers := ∅; sig_mask := 0; open_fds := ∅; now := 0 |}.

(** Spawner 1000 in the registry, [pending] in the pending-fork slot. *)
Definition registry_world (pending : Z) : world :=
  set_fork_pid pending (set_zygote_map {[1000 := F1]} fresh_world).

(** Spawner 100 in the registry. *)
Definition zygote_world : world := set_zygote_map {[100 := F1]} fresh_world.

(** The child dies right after its command line was read for the last
    time: from instant 4 on, procfs has nothing about it. *)
Definition child_dies (n : nat) : snapshot :=
  if (n <? 4)%nat then child_snapshot (Some F2) else empty_snapshot.

(** Child 1100 alive as a pre-warmed helper (usap64). *)
Definition usap_snapshot : snapshot :=
  {| pf_pids := [1100];
     pf_stat := fun pid => if pid =? 1100 then Some proc_dir_1100 else None;
     pf_file := fun f pid =>
       if pid =? 1100 then
         match f with
         | AttrCurrent => Some (Some "u:r:zygote:s0")
         | Cmdline => Some (Some "usap64")
         end
       else None;
     pf_ns_mnt := fun pid => if pid =? 1100 then Some F1 else None;
     pf_status := fun _ => None;
     pf_ppid := fun _ => None;
     k_waitpid_any := (-1, 0, ECHILD);
     k_eventmsg := fun _ => 0;
     k_inotify_init1 := 7;
     k_poll := 0;
     k_inotify_read := (0, "");
     k_access := fun _ => 0;
     uninit_buf := "";
     uninit_int := 0 |}.




(** A fork event of spawner 100 whose child pid the kernel gives as 0. *)
Definition zero_message_snapshot : snapshot :=
  let z := zygote_snapshot (event_stop PTRACE_EVENT_FORK) in
  {| pf_pids := pf_pids z;
     pf_stat := pf_stat z;
     pf_file := pf_file z;
     pf_ns_mnt := pf_ns_mnt z;
     pf_status := pf_status z;
     pf_ppid := pf_ppid z;
     k_waitpid_any := k_waitpid_any z;
     k_eventmsg := fun _ => 0;
     k_inotify_init1 := k_inotify_init1 z;
     k_poll := k_poll z;
     k_inotify_read := k_inotify_read z;
     k_access := k_access z;
     uninit_buf := uninit_buf z;
     uninit_int := uninit_int z |}.

(** * Reasoning about computations *)

Lemma returns_ret {A} (a : A) w (Q : A -> world -> list event -> Prop) :
  Q a w [] -> returns (ret a) w Q.
Proof. intros H. exists a, w, []. split; [reflexivity | exact H]. Qed.

Lemma returns_bind {A B} (m : M A) (k : A -> M B) w
    (Q : B -> world -> list event -> Prop) :
  returns m w (fun a w1 t1 =>
    returns (k a) w1 (fun b w2 t2 => Q b w2 (t1 ++ t2)%list)) ->
  returns (bind m k) w Q.
Proof.
  intros (a & w1 & t1 & Hm & b & w2 & t2 & Hk & HQ).
  exists b, w2, (t1 ++ t2)%list. split; [| exact HQ].
  unfold bind. rewrite Hm, Hk. reflexivity.
Qed.

Lemma returns_weaken {A} (m : M A) w (Q Q' : A -> world -> list event -> Prop) :
  returns m w Q -> (forall a w' t, Q a w' t -> Q' a w' t) -> returns m w Q'.
Proof. intros (a & w' & t & Hm & HQ) HQQ'. exists a, w', t. auto. Qed.

Lemma returns_get w (Q : world -> world -> list event -> Prop) :
  Q w w [] -> returns get w Q.
Proof. intros H. exists w, w, []. auto. Qed.

Lemma returns_modify f w (Q : unit -> world -> list event -> Prop) :
  Q tt (f w) [] -> returns (modify f) w Q.
Proof. intros H. exists tt, (f w), []. auto. Qed.

Lemma returns_emit e w (Q : unit -> world -> list event -> Prop) :
  Q tt w [e] -> returns (emit e) w Q.
Proof. intros H. exists tt, w, [e]. auto. Qed.

Lemma returns_inv {A} (m : M A) w (Q : A -> world -> list event -> Prop) a w' t :
  returns m w Q -> m w = Some (a, w', t) -> Q a w' t.
Proof. intros (a0 & w0 & t0 & Hm & HQ) E. congruence. Qed.

Lemma bind_Some {A B} (m : M A) (k : A -> M B) w b w2 t :
  bind m k w = Some (b, w2, t) ->
  exists a w1 t1 t2,
    m w = Some (a, w1, t1) /\ k a w1 = Some (b, w2, t2) /\ t = (t1 ++ t2)%list.
Proof.
  unfold bind. destruct (m w) as [[[a w1] t1]|] eqn:Hm; [| discriminate].
  destruct (k a w1) as [[[b' w2'] t2]|] eqn:Hk; [| discriminate].
  intros [= -> -> <-]. exists a, w1, t1, t2. auto.
Qed.

Lemma clock_only_refl w : clock_only w w.
Proof. destruct w; reflexivity. Qed.

Lemma clock_only_tick w w' : clock_only w w' -> clock_only w (tick w').
Proof. unfold clock_only. intros ->. destruct w; reflexivity. Qed.

Lemma clock_only_trans w1 w2 w3 :
  clock_only w1 w2 -> clock_only w2 w3 -> clock_only w1 w3.
Proof. unfold clock_only. intros -> ->. destruct w1; reflexivity. Qed.

Lemma clock_only_zygote_map w w' : clock_only w w' -> zygote_map w' = zygote_map w.
Proof. unfold clock_only. intros ->. reflexivity. Qed.

Create HintDb monitor.
#[local] Hint Resolve clock_only_refl clock_only_tick : monitor.

Section Properties.

Variable lp64 : bool.
Variable WEVENT : Z -> Z.
Variable SIGTERMTHRD : Z.
Variable is_hide_target : Z -> string -> Z -> bool.
Variable env : nat -> snapshot.

Lemma returns_observe {A} (q : snapshot -> A) w
    (Q : A -> world -> list event -> Prop) :
  Q (q (env (now w))) (tick w) [] -> returns (observe env q) w Q.
Proof. intros H. eexists _, _, _. split; [reflexivity | exact H]. Qed.

Lemma returns_peek {A} (q : snapshot -> A) w
    (Q : A -> world -> list event -> Prop) :
  Q (q (env (now w))) w [] -> returns (peek env q) w Q.
Proof. intros H. eexists _, _, _. split; [reflexivity | exact H]. Qed.

(** ** The attachment bitmap *)

Lemma word_bits_cases : word_bits lp64 = 64 \/ word_bits lp64 = 32.
Proof. unfold word_bits. destruct lp64; auto. Qed.

Lemma pid_set_index_in_range pos :
  1 <= pos <= PID_MAX -> pid_set_index lp64 pos = pos - 1.
Proof.
  intros H. unfold pid_set_index, to_size_t, PID_MAX in *.
  destruct word_bits_cases as [-> | ->];
    rewrite (Z.mod_small pos) by lia; rewrite Z.mod_small by lia; reflexivity.
Qed.

Lemma pid_set_index_zero : pid_set_index lp64 0 = 2 ^ word_bits lp64 - 1.
Proof.
  unfold pid_set_index, to_size_t.
  destruct word_bits_cases as [-> | ->]; reflexivity.
Qed.

Lemma in_bounds_iff pos :
  0 <= pos < 2 ^ word_bits lp64 ->
  in_bounds (pid_set_index lp64 pos) = true <-> 1 <= pos <= PID_MAX.
Proof.
  intros Hpos. split.
  - unfold in_bounds, pid_set_index, to_size_t, PID_MAX.
    rewrite (Z.mod_small pos) by exact Hpos.
    intros H. apply andb_prop in H as [H1 H2].
    apply Z.leb_le in H1. apply Z.ltb_lt in H2.
    destruct (Z.eq_dec pos 0) as [-> | Hne].
    + exfalso. revert H2.
      destruct word_bits_cases as [-> | ->]; intros H2; vm_compute in H2;
        discriminate.
    + revert Hpos H2. destruct word_bits_cases as [-> | ->]; intros Hpos H2;
        rewrite Z.mod_small in H2 by lia; lia.
  - intros H. rewrite pid_set_index_in_range by exact H.
    unfold in_bounds, PID_MAX in *. apply andb_true_intro.
    split; [apply Z.leb_le | apply Z.ltb_lt]; lia.
Qed.

Lemma in_bounds_in_range pos :
  1 <= pos <= PID_MAX -> in_bounds (pid_set_index lp64 pos) = true.
Proof.
  intros H. apply in_bounds_iff; [| exact H].
  unfold PID_MAX in H. destruct word_bits_cases as [-> | ->]; lia.
Qed.

Lemma pid_set_put_in_range pos b w :
  1 <= pos <= PID_MAX ->
  pid_set_put lp64 pos b w =
    Some (tt, set_attaches (if b then Z.setbit (attaches w) (pos - 1)
                            else Z.clearbit (attaches w) (pos - 1)) w, []).
Proof.
  intros H. unfold pid_set_put.
  rewrite in_bounds_in_range by exact H.
  rewrite pid_set_index_in_range by exact H. reflexivity.
Qed.

Lemma pid_set_get_in_range pos w :
  1 <= pos <= PID_MAX ->
  pid_set_get lp64 pos w = Some (Z.testbit (attaches w) (pos - 1), w, []).
Proof.
  intros H. unfold pid_set_get.
  rewrite in_bounds_in_range by exact H.
  rewrite pid_set_index_in_range by exact H. reflexivity.
Qed.

Lemma detach_pid_in_range pid sig w :
  1 <= pid <= PID_MAX ->
  detach_pid lp64 pid sig w =
    Some (tt, set_attaches (Z.clearbit (attaches w) (pid - 1)) w,
          [EPtrace PTRACE_DETACH pid sig]).
Proof.
  intros H. unfold detach_pid, bind. rewrite pid_set_put_in_range by exact H.
  reflexivity.
Qed.

Lemma detach_pid_Some pid sig w w' t :
  detach_pid lp64 pid sig w = Some (tt, w', t) ->
  in_bounds (pid_set_index lp64 pid) = true.
Proof.
  unfold detach_pid, bind, pid_set_put.
  destruct (in_bounds (pid_set_index lp64 pid)); [reflexivity | discriminate].
Qed.

(** ** The child inspector: shape of a run *)

Local Opaque MAX_ITER.

Lemma returns_stat_proc pid w (Q : option stat -> world -> list event -> Prop) :
  Q (pf_stat (env (now w)) pid) (tick w) [EStatProc pid (pf_stat (env (now w)) pid)] ->
  returns (stat_proc env pid) w Q.
Proof. intros H. eexists _, _, _. split; [reflexivity | exact H]. Qed.

Lemma returns_open_read f pid w
    (Q : option (option string) -> world -> list event -> Prop) :
  Q (pf_file (env (now w)) f pid) (tick w)
    [EOpenRead f pid (pf_file (env (now w)) f pid)] ->
  returns (open_read env f pid) w Q.
Proof. intros H. eexists _, _, _. split; [reflexivity | exact H]. Qed.

Lemma returns_read_ns pid w (Q : option stat -> world -> list event -> Prop) :
  Q (pf_ns_mnt (env (now w)) pid) (tick w)
    [EReadNs pid (pf_ns_mnt (env (now w)) pid)] ->
  returns (read_ns env pid) w Q.
Proof. intros H. eexists _, _, _. split; [reflexivity | exact H]. Qed.

Ltac mstep :=
  first [ apply returns_stat_proc | apply returns_open_read
        | apply returns_read_ns
        | apply returns_bind | apply returns_ret | apply returns_get
        | apply returns_modify | apply returns_emit
        | apply returns_observe | apply returns_peek ];
  cbv beta.

Ltac msteps := repeat mstep.

Lemma clean_app t1 t2 : clean (t1 ++ t2) = clean t1 && clean t2.
Proof. apply forallb_app. Qed.

Lemma clean_passive t : clean t = true -> forallb passive t = true.
Proof.
  unfold clean. induction t as [| e t IH]; simpl; [reflexivity |].
  intros H. apply andb_prop in H as [He Ht].
  apply andb_prop in He as [He _]. rewrite He, IH by exact Ht. reflexivity.
Qed.

Lemma clean_no_failed t : clean t = true -> existsb failed_read t = false.
Proof.
  unfold clean. induction t as [| e t IH]; simpl; [reflexivity |].
  intros H. apply andb_prop in H as [He Ht].
  apply andb_prop in He as [_ He]. apply negb_true_iff in He.
  rewrite He, IH by exact Ht. reflexivity.
Qed.

Lemma inspected_acted pid zm P T t :
  t = (P ++ T)%list -> clean P = true -> verdict is_hide_target env pid zm T ->
  inspected is_hide_target env pid zm true t.
Proof. intros -> HP HT. apply I_acted; assumption. Qed.

Lemma inspected_prefix pid zm P r t :
  clean P = true -> inspected is_hide_target env pid zm r t -> inspected is_hide_target env pid zm r (P ++ t).
Proof.
  intros HP [r' t' Hpass Hfail | P' T HP' HT].
  - apply I_quiet.
    + rewrite forallb_app, (clean_passive _ HP), Hpass. reflexivity.
    + rewrite existsb_app, (clean_no_failed _ HP). exact Hfail.
  - rewrite app_assoc. apply I_acted; [| exact HT].
    rewrite clean_app, HP, HP'. reflexivity.
Qed.

Lemma wait_pre_initialized_returns pid n : forall cmdline w,
  returns (wait_pre_initialized env n pid cmdline) w (fun r w' t =>
    clock_only w w' /\
    match r with
    | Some _ => clean t = true
    | None => forallb passive t = true
    end).
Proof.
  induction n as [| n IH]; intros cmdline w; simpl;
    destruct (String.eqb cmdline "<pre-initialized>").
  - msteps. auto with monitor.
  - msteps. auto with monitor.
  - msteps. auto with monitor.
  - mstep. mstep. destruct (pf_file (env (now w)) Cmdline pid) as [l |].
    + unfold usleep. mstep. mstep.
      eapply returns_weaken; [apply IH |]. cbv beta.
      intros r w' t [Hc Ht]. split.
      * eapply clock_only_trans; [| exact Hc]. auto with monitor.
      * destruct r; simpl; exact Ht.
    + msteps. auto with monitor.
Qed.

Lemma wait_initialized_returns pid n : forall cmdline w,
  returns (wait_initialized env n pid cmdline) w (fun r w' t =>
    clock_only w w' /\
    match r with
    | Died => forallb passive t = true
    | _ => clean t = true
    end).
Proof.
  induction n as [| n IH]; intros cmdline w; simpl;
    destruct (String.eqb cmdline "<pre-initialized>").
  - msteps. auto with monitor.
  - msteps. auto with monitor.
  - mstep. mstep. destruct (pf_file (env (now w)) Cmdline pid) as [l |].
    + unfold usleep. mstep. mstep.
      eapply returns_weaken; [apply IH |]. cbv beta.
      intros r w' t [Hc Ht]. split.
      * eapply clock_only_trans; [| exact Hc]. auto with monitor.
      * destruct r; simpl; exact Ht.
    + msteps. auto with monitor.
  - msteps. auto with monitor.
Qed.

Lemma quiet_nil pid zm r : inspected is_hide_target env pid zm r [].
Proof. apply I_quiet; [reflexivity | discriminate]. Qed.

Lemma check_and_hide_returns pid uid cmdline st w :
  returns (check_and_hide is_hide_target env pid uid cmdline st) w
    (fun r w' t => clock_only w w' /\ inspected is_hide_target env pid (zygote_map w) r t).
Proof.
  unfold check_and_hide.
  destruct (uid =? 0).
  { msteps. split; [auto with monitor | apply quiet_nil]. }
  destruct (is_zygote_name cmdline || String.eqb cmdline "usap32"
            || String.eqb cmdline "usap64").
  { msteps. split; [auto with monitor | apply quiet_nil]. }
  mstep. eapply returns_weaken; [apply wait_initialized_returns |]. cbv beta.
  intros r w1 t1 [Hc1 Ht1]. destruct r as [cmdline' | |].
  - (* the loop was left by its condition *)
    mstep. mstep.
    destruct (pf_file (env (now w1)) Cmdline pid) as [l |].
    + unfold kill, call_is_hide_target. mstep. mstep. mstep. mstep. mstep. mstep.
      destruct (is_hide_target uid (fgets cmdline' l) 95) eqn:Htarget; simpl negb; cbv iota.
      * mstep. mstep. mstep. mstep. rewrite (clock_only_zygote_map w (tick (tick w1)))
          by (eapply clock_only_trans; [exact Hc1 | auto with monitor]).
        destruct (any_shares_ns (zygote_map w)
                    match pf_ns_mnt (env (now (tick w1))) pid with
                    | Some st' => st'
                    | None => st
                    end) eqn:Hshare.
        -- unfold not_target, kill. msteps. split.
           ++ eapply clock_only_trans; [exact Hc1 | auto with monitor].
           ++ eapply inspected_acted with (P := (t1 ++ [_])%list);
                [apply (app_assoc t1 [_] _) | |].
              ** rewrite clean_app, Ht1. reflexivity.
              ** eapply V_not_separated with (st0 := st);
                   [exact Htarget | reflexivity |].
                 destruct (pf_ns_mnt (env (now (tick w1))) pid); exact Hshare.
        -- unfold hide_daemon. msteps. split.
           ++ eapply clock_only_trans; [exact Hc1 | auto with monitor].
           ++ eapply inspected_acted with (P := (t1 ++ [_])%list);
                [apply (app_assoc t1 [_] _) | |].
              ** rewrite clean_app, Ht1. reflexivity.
              ** eapply V_target with (st0 := st);
                   [exact Htarget | reflexivity |].
                 destruct (pf_ns_mnt (env (now (tick w1))) pid); exact Hshare.
      * unfold not_target, kill. msteps. split.
        -- eapply clock_only_trans; [exact Hc1 | auto with monitor].
        -- eapply inspected_acted with (P := (t1 ++ [_])%list);
             [apply (app_assoc t1 [_] _) | |].
           ++ rewrite clean_app, Ht1. reflexivity.
           ++ apply V_not_target. exact Htarget.
    + msteps. split.
      * eapply clock_only_trans; [exact Hc1 | auto with monitor].
      * apply I_quiet; [| reflexivity].
        rewrite forallb_app, (clean_passive _ Ht1). reflexivity.
  - (* stuck forever: goto not_target *)
    unfold not_target, kill. msteps. split; [exact Hc1 |].
    apply I_acted; [exact Ht1 | apply V_stuck].
  - (* died *)
    msteps. split; [exact Hc1 |].
    apply I_quiet; [| reflexivity].
    rewrite app_nil_r. exact Ht1.
Qed.

Lemma check_pid_returns pid w :
  returns (check_pid is_hide_target env pid) w
    (fun r w' t => clock_only w w' /\ inspected is_hide_target env pid (zygote_map w) r t).
Proof.
  unfold check_pid. mstep. mstep.
  destruct (pf_stat (env (now w)) pid) as [st |].
  2: { msteps. split; [auto with monitor |].
       apply I_quiet; reflexivity. }
  mstep. mstep. mstep. mstep.
  destruct (pf_file (env (now (tick w))) AttrCurrent pid) as [l1 |].
  2: { msteps. split; [auto with monitor |].
       apply I_quiet; reflexivity. }
  mstep. mstep. mstep. mstep.
  destruct (pf_file (env (now (tick (tick w)))) Cmdline pid) as [l2 |].
  2: { msteps. split; [auto with monitor |].
       apply I_quiet; reflexivity. }
  set (context := fgets (uninit_buf (env (now (tick w)))) l1).
  set (cmdline := fgets (uninit_buf (env (now (tick (tick w))))) l2).
  assert (Hdirect : forall c,
    returns (check_and_hide is_hide_target env pid (st_uid st) c st)
      (tick (tick (tick w)))
      (fun b w2 t2 =>
         clock_only w w2 /\
         inspected is_hide_target env pid (zygote_map w) b
           ([EStatProc pid (Some st)] ++ [] ++ [] ++
            [EOpenRead AttrCurrent pid (Some l1)] ++ [] ++ [] ++
            [EOpenRead Cmdline pid (Some l2)] ++ t2))).
  { intros c. eapply returns_weaken; [apply check_and_hide_returns |]. cbv beta.
    intros b w2 t2 [Hc Hi]. split.
    - eapply clock_only_trans; [| exact Hc]. auto with monitor.
    - apply (inspected_prefix pid (zygote_map w) [_; _; _]); [reflexivity |].
      exact Hi. }
  destruct (is_zygote_name cmdline && negb (String.eqb context "u:r:zygote:s0")).
  - destruct (strstr context "u:r:app_zygote:s0").
    + apply Hdirect.
    + mstep. eapply returns_weaken; [apply wait_pre_initialized_returns |].
      cbv beta. intros r w1 t1 [Hc1 Ht1]. destruct r as [cmdline' |].
      * eapply returns_weaken; [apply check_and_hide_returns |]. cbv beta.
        intros b w2 t2 [Hc Hi]. split.
        -- eapply clock_only_trans; [| exact Hc].
           eapply clock_only_trans; [| exact Hc1]. auto with monitor.
        -- apply (inspected_prefix pid (zygote_map w) [_; _; _]); [reflexivity |].
           apply inspected_prefix; [exact Ht1 |].
           rewrite (clock_only_zygote_map _ _ Hc1) in Hi. exact Hi.
      * msteps. split.
        -- eapply clock_only_trans; [| exact Hc1]. auto with monitor.
        -- apply I_quiet; [| reflexivity]. simpl.
           rewrite app_nil_r. exact Ht1.
  - apply Hdirect.
Qed.

Lemma inspected_false_clean pid zm t : inspected is_hide_target env pid zm false t -> clean t = true.
Proof.
  intros H. inversion H as [r t' Hpass Hfail |]; subst.
  unfold clean. clear H. induction t as [| e t IH]; simpl in *; [reflexivity |].
  apply andb_prop in Hpass as [He Ht].
  destruct (failed_read e) eqn:Hf; simpl in Hfail.
  - discriminate (Hfail eq_refl).
  - rewrite He, IH by assumption. reflexivity.
Qed.

Lemma poll_check_pid_returns pid n : forall w,
  returns (poll_check_pid is_hide_target env n pid) w
    (fun _ w' t => clock_only w w' /\ inspection is_hide_target env pid (zygote_map w) t).
Proof.
  induction n as [| n IH]; intros w; simpl.
  - mstep. eapply returns_weaken; [apply check_pid_returns |]. cbv beta.
    intros r w1 t1 [Hc Hi]. destruct r; msteps;
      (split; [exact Hc | eexists; rewrite app_nil_r; exact Hi]).
  - mstep. eapply returns_weaken; [apply check_pid_returns |]. cbv beta.
    intros r w1 t1 [Hc Hi]. destruct r.
    + msteps. split; [exact Hc | exists true; rewrite app_nil_r; exact Hi].
    + mstep. mstep. eapply returns_weaken; [apply IH |]. cbv beta.
      intros [] w2 t2 [Hc2 [r Hi2]]. split.
      * eapply clock_only_trans; [exact Hc | exact Hc2].
      * exists r. rewrite (app_assoc t1 [_] t2). apply inspected_prefix.
        -- rewrite clean_app, (inspected_false_clean _ _ _ Hi). reflexivity.
        -- rewrite (clock_only_zygote_map _ _ Hc) in Hi2. exact Hi2.
Qed.

(** The worker: with nothing pending it returns at once; otherwise it
    detaches the pending child and inspects it. *)
Lemma do_check_fork_nothing_pending w :
  fork_pid w = 0 ->
  do_check_fork lp64 is_hide_target env w = Some (tt, w, []).
Proof.
  intros H. unfold do_check_fork, bind, get, modify. simpl. rewrite H. simpl.
  unfold ret. destruct w; simpl in *; subst; reflexivity.
Qed.

Lemma do_check_fork_returns w :
  1 <= fork_pid w <= PID_MAX ->
  returns (do_check_fork lp64 is_hide_target env) w (fun _ w' t =>
    fork_pid w' = 0 /\ zygote_map w' = zygote_map w /\
    exists t', t = EPtrace PTRACE_DETACH (fork_pid w) 0 :: t' /\
               inspection is_hide_target env (fork_pid w) (zygote_map w) t').
Proof.
  intros Hrange. unfold do_check_fork. mstep. mstep. mstep. mstep.
  destruct (fork_pid w =? 0) eqn:E; [apply Z.eqb_eq in E; lia |].
  mstep.
  exists tt, (set_attaches (Z.clearbit (attaches (set_fork_pid 0 w)) (fork_pid w - 1))
                (set_fork_pid 0 w)), [EPtrace PTRACE_DETACH (fork_pid w) 0].
  split; [apply detach_pid_in_range; exact Hrange |].
  eapply returns_weaken; [apply poll_check_pid_returns |]. cbv beta.
  intros [] w' t [Hc Hi]. simpl in Hi.
  split; [| split].
  - unfold clock_only in Hc. rewrite Hc. reflexivity.
  - apply (clock_only_zygote_map _ _ Hc).
  - exists t. split; [reflexivity | exact Hi].
Qed.

(** ** Counting what the inspector does to the child *)

Lemma count_app p t1 t2 : count p (t1 ++ t2) = (count p t1 + count p t2)%nat.
Proof. unfold count. rewrite List.filter_app, length_app. reflexivity. Qed.

Lemma count_passive p t :
  (forall e, passive e = true -> p e = false) ->
  forallb passive t = true -> count p t = 0%nat.
Proof.
  intros Hp. unfold count. induction t as [| e t IH]; simpl; [reflexivity |].
  intros H. apply andb_prop in H as [He Ht].
  rewrite (Hp e He). apply IH. exact Ht.
Qed.

Lemma is_kill_passive pid sig e : passive e = true -> is_kill pid sig e = false.
Proof. destruct e; simpl; congruence. Qed.

Lemma is_hide_daemon_passive pid e : passive e = true -> is_hide_daemon pid e = false.
Proof. destruct e; simpl; congruence. Qed.

Lemma passive_In t e : forallb passive t = true -> In e t -> passive e = true.
Proof. intros H. apply (proj1 (forallb_forall passive t) H). Qed.

(** The four ways an inspection can count: nothing done, resumed
    without a stop, stopped and resumed, stopped and handed over. *)
Lemma inspection_counts pid zm t :
  inspection is_hide_target env pid zm t ->
  (resumes pid t = 0 /\ stops pid t = 0 /\ handovers pid t = 0)%nat \/
  (resumes pid t = 1 /\ stops pid t = 0 /\ handovers pid t = 0)%nat \/
  (resumes pid t = 1 /\ stops pid t = 1 /\ handovers pid t = 0)%nat \/
  (resumes pid t = 0 /\ stops pid t = 1 /\ handovers pid t = 1)%nat.
Proof.
  intros [r [r' t' Hpass _ | P T HP HT]].
  - left. unfold resumes, stops, handovers.
    rewrite !count_passive;
      auto using is_kill_passive, is_hide_daemon_passive.
  - apply clean_passive in HP.
    unfold resumes, stops, handovers. rewrite !count_app.
    rewrite !(count_passive _ P);
      auto using is_kill_passive, is_hide_daemon_passive.
    destruct HT; unfold count; simpl; rewrite !Z.eqb_refl; simpl; lia.
Qed.

Lemma counts_after_detach pid t :
  resumes pid (EPtrace PTRACE_DETACH pid 0 :: t) = resumes pid t /\
  stops pid (EPtrace PTRACE_DETACH pid 0 :: t) = stops pid t /\
  handovers pid (EPtrace PTRACE_DETACH pid 0 :: t) = handovers pid t.
Proof. repeat split. Qed.

Lemma split_after_passive P : forall T a e b,
  forallb passive P = true -> passive e = false ->
  (P ++ T)%list = (a ++ e :: b)%list ->
  exists a', a = (P ++ a')%list /\ T = (a' ++ e :: b)%list.
Proof.
  induction P as [| x P IH]; intros T a e b HP He Heq.
  - exists a. split; [reflexivity | exact Heq].
  - simpl in HP. apply andb_prop in HP as [Hx HP].
    destruct a as [| y a]; simpl in Heq.
    + injection Heq as -> _. congruence.
    + injection Heq as -> Heq.
      destruct (IH T a e b HP He Heq) as (a' & -> & ->).
      exists a'. split; reflexivity.
Qed.

(** In the trace of an inspection, what comes before a call of
    hide_daemon has the SIGSTOP in it. *)
Lemma stop_before_handover pid zm t a p b :
  inspection is_hide_target env pid zm t ->
  t = (a ++ EHideDaemon p :: b)%list ->
  p = pid /\ In (EKill pid SIGSTOP) a /\ b = [].
Proof.
  intros [r Hi] Heq.
  inversion Hi as [r' t'' Hpass _ Hr Ht | P T HP HT Hr Ht].
  - exfalso. assert (Hin : In (EHideDaemon p) t).
    { rewrite Heq. apply in_elt. }
    apply (passive_In _ _ Hpass) in Hin. discriminate Hin.
  - rewrite Heq in Ht.
    destruct (split_after_passive P T a (EHideDaemon p) b
                (clean_passive _ HP) eq_refl Ht) as (a' & -> & HT').
    assert (p = pid /\ In (EKill pid SIGSTOP) a' /\ b = []) as (-> & Hin & ->).
    { destruct HT; destruct a' as [| ? [| ? [| ? [| ? [| ? ?]]]]];
        simpl in HT'; try discriminate HT';
        injection HT' as <-; subst; repeat split; simpl; auto. }
    split; [reflexivity |]. split; [| reflexivity].
    apply in_or_app. right. exact Hin.
Qed.

(** C2 (as amended): the inspector never both resumes the child with
    SIGCONT and hands it to hide_daemon, and does either at most once;
    it sends SIGSTOP at most once, and once it has sent SIGSTOP it does
    exactly one of the two; a hand-over only happens after SIGSTOP:
    the events before a call of hide_daemon include the SIGSTOP sent
    to the child, and the call is the last thing the inspector does. *)
Theorem inspector_resumes_or_hands_over_at_most_once w :
  1 <= fork_pid w <= PID_MAX ->
  returns (do_check_fork lp64 is_hide_target env) w (fun _ _ t =>
    (resumes (fork_pid w) t + handovers (fork_pid w) t <= 1)%nat /\
    (stops (fork_pid w) t <= 1)%nat /\
    (stops (fork_pid w) t = 1%nat ->
     (resumes (fork_pid w) t + handovers (fork_pid w) t = 1)%nat) /\
    (handovers (fork_pid w) t = 1%nat -> stops (fork_pid w) t = 1%nat) /\
    (forall a p b,
       t = (a ++ EHideDaemon p :: b)%list ->
       p = fork_pid w /\ In (EKill (fork_pid w) SIGSTOP) a /\ b = [])).
Proof.
  intros Hrange.
  eapply returns_weaken; [apply do_check_fork_returns; exact Hrange |].
  cbv beta. intros _ w' t (_ & _ & t' & -> & Hi).
  assert (Horder : forall a p b,
    (EPtrace PTRACE_DETACH (fork_pid w) 0 :: t' = a ++ EHideDaemon p :: b)%list ->
    p = fork_pid w /\ In (EKill (fork_pid w) SIGSTOP) a /\ b = []).
  { intros a p b Heq.
    destruct a as [| x a]; [discriminate Heq |].
    simpl in Heq. injection Heq as <- Heq.
    destruct (stop_before_handover _ _ _ _ _ _ Hi Heq) as (Hp & Hin & Hb).
    split; [exact Hp |]. split; [right; exact Hin | exact Hb]. }
  destruct (counts_after_detach (fork_pid w) t') as (-> & -> & ->).
  destruct (inspection_counts _ _ _ Hi)
    as [(-> & -> & ->) | [(-> & -> & ->) | [(-> & -> & ->) | (-> & -> & ->)]]];
    (split; [lia |]); (split; [lia |]); (split; [intros; lia |]);
    (split; [intros; lia | exact Horder]).
Qed.

(** A failed stat or open_file ends the inspection with nothing done to
    the child. *)
Lemma checked_read_failure_is_swallowed w :
  1 <= fork_pid w <= PID_MAX ->
  returns (do_check_fork lp64 is_hide_target env) w (fun _ _ t =>
    existsb failed_read t = true ->
    resumes (fork_pid w) t = 0%nat /\ stops (fork_pid w) t = 0%nat /\
    handovers (fork_pid w) t = 0%nat).
Proof.
  intros Hrange.
  eapply returns_weaken; [apply do_check_fork_returns; exact Hrange |].
  cbv beta. intros _ w' t (_ & _ & t' & -> & [r Hi]) Hfail.
  destruct (counts_after_detach (fork_pid w) t') as (-> & -> & ->).
  simpl in Hfail.
  destruct Hi as [r' t'' Hpass _ | P T HP HT].
  - unfold resumes, stops, handovers.
    rewrite !count_passive;
      auto using is_kill_passive, is_hide_daemon_passive.
  - exfalso. rewrite existsb_app, (clean_no_failed _ HP) in Hfail.
    destruct HT; discriminate Hfail.
Qed.


(** When is_hide_target said yes, the inspection ends in one of two
    ways, by the fingerprint it goes by: resumed when a spawner shares
    it, handed over otherwise. *)
Lemma classified_target_ends pid zm t uid cmdline :
  inspection is_hide_target env pid zm t ->
  In (EIsHideTarget uid cmdline 95) t ->
  is_hide_target uid cmdline 95 = true ->
  exists P ns st0,
    forallb passive P = true /\
    ((any_shares_ns zm (default st0 ns) = true /\
      t = (P ++ [EKill pid SIGSTOP; EIsHideTarget uid cmdline 95;
                 EReadNs pid ns; EKill pid SIGCONT])%list) \/
     (any_shares_ns zm (default st0 ns) = false /\
      t = (P ++ [EKill pid SIGSTOP; EIsHideTarget uid cmdline 95;
                 EReadNs pid ns; EHideDaemon pid])%list)).
Proof.
  intros [r Hi] Hc Hyes.
  inversion Hi as [r' t'' Hpass _ Hr Ht | P T HP HT Hr Ht]; subst.
  - apply (passive_In _ _ Hpass) in Hc. discriminate Hc.
  - pose proof (clean_passive _ HP) as Hpass.
    apply in_app_or in Hc as [Hc | Hc];
      [apply (passive_In _ _ Hpass) in Hc; discriminate Hc |].
    destruct HT as [| u c Ht | u c ns st0 n Ht Hns Hs | u c ns st0 n Ht Hns Hs];
      simpl in Hc.
    + destruct Hc as [Hc | []]; discriminate Hc.
    + destruct Hc as [Hc | [Hc | [Hc | []]]]; try discriminate Hc.
      injection Hc as -> ->. congruence.
    + destruct Hc as [Hc | [Hc | [Hc | [Hc | []]]]]; try discriminate Hc.
      injection Hc as -> ->.
      exists P, ns, st0. split; [exact Hpass |]. left. split; [exact Hs | reflexivity].
    + destruct Hc as [Hc | [Hc | [Hc | [Hc | []]]]]; try discriminate Hc.
      injection Hc as -> ->.
      exists P, ns, st0. split; [exact Hpass |]. right. split; [exact Hs | reflexivity].
Qed.

(** C4 (as amended): is_hide_target is consulted only after the child
    has been sent SIGSTOP, and with threshold 95.  A child that is
    handed to hide_daemon got exactly one SIGSTOP, one hand-over and no
    SIGCONT.  A child that is_hide_target classifies as a target got
    exactly one SIGSTOP and is then either handed over or resumed with
    SIGCONT, never both: it is handed over when the fingerprint read
    for it is shared with no spawner, and it is resumed with SIGCONT,
    and not handed over, when the fingerprint read for it is shared
    with a spawner. *)
Theorem stop_precedes_classification w :
  1 <= fork_pid w <= PID_MAX ->
  returns (do_check_fork lp64 is_hide_target env) w (fun _ _ t =>
    (forall a b uid cmdline thr,
       t = (a ++ EIsHideTarget uid cmdline thr :: b)%list ->
       In (EKill (fork_pid w) SIGSTOP) a /\ thr = 95) /\
    (In (EHideDaemon (fork_pid w)) t ->
     stops (fork_pid w) t = 1%nat /\ handovers (fork_pid w) t = 1%nat /\
     resumes (fork_pid w) t = 0%nat) /\
    (forall uid cmdline st,
       In (EIsHideTarget uid cmdline 95) t ->
       is_hide_target uid cmdline 95 = true ->
       In (EReadNs (fork_pid w) (Some st)) t ->
       any_shares_ns (zygote_map w) st = false ->
       In (EHideDaemon (fork_pid w)) t) /\
    (forall uid cmdline st,
       In (EIsHideTarget uid cmdline 95) t ->
       is_hide_target uid cmdline 95 = true ->
       In (EReadNs (fork_pid w) (Some st)) t ->
       any_shares_ns (zygote_map w) st = true ->
       resumes (fork_pid w) t = 1%nat /\ handovers (fork_pid w) t = 0%nat) /\
    (forall uid cmdline,
       In (EIsHideTarget uid cmdline 95) t ->
       is_hide_target uid cmdline 95 = true ->
       stops (fork_pid w) t = 1%nat /\
       (resumes (fork_pid w) t + handovers (fork_pid w) t = 1)%nat)).
Proof.
  intros Hrange.
  eapply returns_weaken; [apply do_check_fork_returns; exact Hrange |].
  cbv beta. intros _ w' t (_ & _ & t' & -> & Hi).
  assert (Hends : forall uid cmdline,
    In (EIsHideTarget uid cmdline 95)
      (EPtrace PTRACE_DETACH (fork_pid w) 0 :: t') ->
    is_hide_target uid cmdline 95 = true ->
    exists P ns st0,
      forallb passive P = true /\
      ((any_shares_ns (zygote_map w) (default st0 ns) = true /\
        t' = (P ++ [EKill (fork_pid w) SIGSTOP; EIsHideTarget uid cmdline 95;
                    EReadNs (fork_pid w) ns;
                    EKill (fork_pid w) SIGCONT])%list) \/
       (any_shares_ns (zygote_map w) (default st0 ns) = false /\
        t' = (P ++ [EKill (fork_pid w) SIGSTOP; EIsHideTarget uid cmdline 95;
                    EReadNs (fork_pid w) ns;
                    EHideDaemon (fork_pid w)])%list))).
  { intros uid cmdline [Hc | Hc] Hyes; [discriminate Hc |].
    exact (classified_target_ends _ _ _ _ _ Hi Hc Hyes). }
  assert (Hcounts : forall P L,
    forallb passive P = true ->
    resumes (fork_pid w) (EPtrace PTRACE_DETACH (fork_pid w) 0 :: P ++ L)
      = resumes (fork_pid w) L /\
    stops (fork_pid w) (EPtrace PTRACE_DETACH (fork_pid w) 0 :: P ++ L)
      = stops (fork_pid w) L /\
    handovers (fork_pid w) (EPtrace PTRACE_DETACH (fork_pid w) 0 :: P ++ L)
      = handovers (fork_pid w) L).
  { intros P L HP.
    destruct (counts_after_detach (fork_pid w) (P ++ L)) as (-> & -> & ->).
    unfold resumes, stops, handovers. rewrite !count_app.
    rewrite !(count_passive _ P);
      auto using is_kill_passive, is_hide_daemon_passive. }
  split; [| split; [| split; [| split]]];
    [| | | intros uid cmdline st Hc Hyes Hn Hshare
         | intros uid cmdline Hc Hyes].
  4: { destruct (Hends uid cmdline Hc Hyes)
         as (P & ns & st0 & HP & [[Hs ->] | [Hs ->]]).
       - destruct (Hcounts P [EKill (fork_pid w) SIGSTOP;
                              EIsHideTarget uid cmdline 95;
                              EReadNs (fork_pid w) ns;
                              EKill (fork_pid w) SIGCONT] HP) as (-> & _ & ->).
         unfold resumes, handovers, count. simpl. rewrite !Z.eqb_refl.
         split; reflexivity.
       - exfalso. destruct Hn as [Hn | Hn]; [discriminate Hn |].
         apply in_app_or in Hn as [Hn | Hn];
           [apply (passive_In _ _ HP) in Hn; discriminate Hn |].
         destruct Hn as [Hn | [Hn | [Hn | [Hn | []]]]]; try discriminate Hn.
         injection Hn as ->. simpl in Hs. congruence. }
  4: { destruct (Hends uid cmdline Hc Hyes)
         as (P & ns & st0 & HP & [[Hs ->] | [Hs ->]]);
         match goal with
         | |- context [(P ++ ?L)%list] =>
             destruct (Hcounts P L HP) as (-> & -> & ->)
         end;
         unfold resumes, stops, handovers, count; simpl;
         rewrite !Z.eqb_refl; split; reflexivity. }
  - intros a b uid cmdline thr Heq.
    destruct a as [| x a]; [discriminate Heq |].
    simpl in Heq. injection Heq as <- Heq.
    destruct Hi as [r Hi].
    inversion Hi as [r' t'' Hpass _ Hr Ht | P T HP HT Hr Ht].
    + exfalso. assert (Hin : In (EIsHideTarget uid cmdline thr) t').
      { rewrite Heq. apply in_elt. }
      apply (passive_In _ _ Hpass) in Hin. discriminate Hin.
    + rewrite Heq in Ht.
      destruct (split_after_passive P T a (EIsHideTarget uid cmdline thr) b
                  (clean_passive _ HP) eq_refl Ht) as (a' & -> & HT').
      assert (In (EKill (fork_pid w) SIGSTOP) a' /\ thr = 95) as [Hin ->].
      { destruct HT; destruct a' as [| ? [| ? [| ? [| ? [| ? ?]]]]];
          simpl in HT'; try discriminate HT';
          injection HT' as <-; subst; split; simpl; auto. }
      split; [| reflexivity]. right. apply in_or_app. right. exact Hin.
  - intros Hin.
    destruct (counts_after_detach (fork_pid w) t') as (-> & -> & ->).
    destruct (inspection_counts _ _ _ Hi)
      as [(Hr & Hs & Hh) | [(Hr & Hs & Hh) | [(Hr & Hs & Hh) | (Hr & Hs & Hh)]]];
      [exfalso | exfalso | exfalso | auto].
    all: destruct Hin as [Hin | Hin]; [discriminate Hin |].
    all: unfold handovers, count in Hh.
    all: apply length_zero_iff_nil in Hh.
    all: assert (Hf : In (EHideDaemon (fork_pid w))
                        (List.filter (is_hide_daemon (fork_pid w)) t'))
           by (apply filter_In; split; [exact Hin | simpl; apply Z.eqb_refl]).
    all: rewrite Hh in Hf; destruct Hf.
  - intros uid cmdline st [Hc | Hc] Hyes [Hn | Hn] Hsep;
      try discriminate Hc; try discriminate Hn.
    right. destruct Hi as [r Hi].
    inversion Hi as [r' t'' Hpass _ Hr Ht | P T HP HT Hr Ht]; subst.
    + apply (passive_In _ _ Hpass) in Hc. discriminate Hc.
    + pose proof (clean_passive _ HP) as Hpass.
      apply in_or_app. right.
      apply in_app_or in Hc as [Hc | Hc];
        [apply (passive_In _ _ Hpass) in Hc; discriminate Hc |].
      apply in_app_or in Hn as [Hn | Hn];
        [apply (passive_In _ _ Hpass) in Hn; discriminate Hn |].
      destruct HT as [| u c Ht | u c ns st0 n Ht Hns Hs | u c ns st0 n Ht Hns Hs];
        simpl in Hc, Hn.
      * destruct Hc as [Hc | []]; discriminate Hc.
      * destruct Hc as [Hc | [Hc | [Hc | []]]]; try discriminate Hc.
        injection Hc as -> ->. congruence.
      * destruct Hn as [Hn | [Hn | [Hn | [Hn | []]]]]; try discriminate Hn.
        injection Hn as ->. simpl in Hs. congruence.
      * simpl. auto.
Qed.

(** ** The termination handler *)

Lemma term_thread_eq w :
  term_thread SIGTERMTHRD w =
    Some (tt, terminated SIGTERMTHRD w, [EClose (inotify_fd w); EPthreadExit]).
Proof.
  destruct w.
  cbv [term_thread pid_set_reset close pthread_sigmask sigaction
       bind modify get emit terminated
       set_sig_handlers set_sig_mask set_inotify_fd set_open_fds
       set_attaches set_zygote_map
       zygote_map attaches fork_pid inotify_fd itimer_real sig_handlers
       sig_mask open_fds now app].
  reflexivity.
Qed.

Lemma terminated_idempotent w : terminated SIGTERMTHRD (terminated SIGTERMTHRD w) = terminated SIGTERMTHRD w.
Proof.
  unfold terminated.
  cbn [zygote_map attaches fork_pid inotify_fd itimer_real sig_handlers
       sig_mask open_fds now].
  change (-1 <? 0) with true. cbv iota.
  unfold sigfillset. rewrite !Z.lor_m1_r.
  f_equal. apply map_eq. intros k.
  rewrite !lookup_insert. repeat case_decide; reflexivity.
Qed.

(** C9: term_thread is idempotent.  Its first run leaves the registry
    empty, every bit of the bitmap clear, the inotify descriptor closed
    (and inotify_fd = -1), the handlers of SIGTERMTHRD, SIGIO and
    SIGALRM at SIG_DFL and all signals blocked; a second run from there
    returns the very same world. *)
Theorem term_thread_idempotent w :
  exists w1 t1 t2,
    term_thread SIGTERMTHRD w = Some (tt, w1, t1) /\
    term_thread SIGTERMTHRD w1 = Some (tt, w1, t2) /\
    cleaned SIGTERMTHRD w1 /\
    (forall i, Z.testbit (attaches w1) i = false) /\
    In (EClose (inotify_fd w)) t1 /\
    (0 <= inotify_fd w -> inotify_fd w ∉ open_fds w1).
Proof.
  exists (terminated SIGTERMTHRD w), [EClose (inotify_fd w); EPthreadExit],
    [EClose (-1); EPthreadExit].
  split; [apply term_thread_eq |].
  split; [| split; [| split; [| split]]].
  - rewrite term_thread_eq, terminated_idempotent. reflexivity.
  - unfold cleaned, terminated.
    cbn [zygote_map attaches inotify_fd sig_handlers sig_mask].
    repeat split.
    + rewrite !lookup_insert. repeat case_decide; congruence.
    + rewrite !lookup_insert. repeat case_decide; congruence.
    + rewrite !lookup_insert. repeat case_decide; congruence.
    + apply Z.lor_m1_r.
  - intros i. apply Z.testbit_0_l.
  - left. reflexivity.
  - intros Hfd. unfold terminated. cbn [open_fds].
    destruct (inotify_fd w <? 0) eqn:E; [apply Z.ltb_lt in E; lia |].
    rewrite elem_of_difference. intros [_ Hn]. apply Hn.
    apply elem_of_singleton. reflexivity.
Qed.

(** ** Discovery: new_zygote *)

(** C5: new_zygote(pid).  When the mount-namespace fingerprint cannot
    be read nothing changes (but the oracle's clock) and nothing is
    done.  When pid is already in the registry only its fingerprint is
    overwritten, with no ptrace call.  Otherwise the record is
    inserted and the pid is attached, waited for, given the options
    fork | vfork | exit, and resumed, in this order. *)
Theorem new_zygote_cases pid w :
  (pf_ns_mnt (env (now w)) pid = None ->
   new_zygote env pid w = Some (tt, tick w, [EReadNs pid None])) /\
  (forall st,
     pf_ns_mnt (env (now w)) pid = Some st ->
     is_Some (zygote_map w !! pid) ->
     new_zygote env pid w =
       Some (tt, set_zygote_map (<[pid := st]> (zygote_map w)) (tick w),
             [EReadNs pid (Some st)])) /\
  (forall st,
     pf_ns_mnt (env (now w)) pid = Some st ->
     zygote_map w !! pid = None ->
     new_zygote env pid w =
       Some (tt, set_zygote_map (<[pid := st]> (zygote_map w)) (tick w),
             [EReadNs pid (Some st);
              EPtrace PTRACE_ATTACH pid 0;
              EWaitpid pid (Z.lor WALL WNOTHREAD);
              EPtrace PTRACE_SETOPTIONS pid zygote_options;
              EPtrace PTRACE_CONT pid 0])).
Proof.
  unfold new_zygote, read_ns, xptrace, waitpid.
  unfold bind, observe, emit, ret, get, modify. cbv beta iota.
  split; [| split].
  - intros ->. reflexivity.
  - intros st -> [old Hold].
    cbn [zygote_map tick]. rewrite Hold. reflexivity.
  - intros st -> Hnone.
    cbn [zygote_map tick]. rewrite Hnone. reflexivity.
Qed.

(** ** The event router: one turn of the loop *)

Lemma to_int_small x : 0 <= x < 2 ^ 31 -> to_int x = x.
Proof.
  intros H. unfold to_int. rewrite Z.mod_small by lia. lia.
Qed.

Lemma is_process_eq pid w :
  is_process env pid w =
    Some (confirmed_process (env (now w)) pid, tick w,
          [EReadStatus pid (pf_status (env (now w)) pid)]).
Proof.
  unfold is_process, confirmed_process, bind, peek, observe, emit, ret.
  cbv beta iota. destruct (pf_status (env (now w)) pid); reflexivity.
Qed.




Lemma returns_detach_pid pid sig w (Q : unit -> world -> list event -> Prop) :
  1 <= pid <= PID_MAX ->
  Q tt (set_attaches (Z.clearbit (attaches w) (pid - 1)) w)
    [EPtrace PTRACE_DETACH pid sig] ->
  returns (detach_pid lp64 pid sig) w Q.
Proof.
  intros Hrange H. eexists _, _, _.
  split; [apply detach_pid_in_range; exact Hrange | exact H].
Qed.

Lemma returns_pid_set_get pos w (Q : bool -> world -> list event -> Prop) :
  1 <= pos <= PID_MAX ->
  Q (Z.testbit (attaches w) (pos - 1)) w [] ->
  returns (pid_set_get lp64 pos) w Q.
Proof.
  intros Hrange H. eexists _, _, _.
  split; [apply pid_set_get_in_range; exact Hrange | exact H].
Qed.

Lemma returns_pid_set_put pos (b : bool) w
    (Q : unit -> world -> list event -> Prop) :
  1 <= pos <= PID_MAX ->
  Q tt (set_attaches (if b then Z.setbit (attaches w) (pos - 1)
                      else Z.clearbit (attaches w) (pos - 1)) w) [] ->
  returns (pid_set_put lp64 pos b) w Q.
Proof.
  intros Hrange H. eexists _, _, _.
  split; [apply pid_set_put_in_range; exact Hrange | exact H].
Qed.

Lemma returns_is_process pid w (Q : bool -> world -> list event -> Prop) :
  Q (confirmed_process (env (now w)) pid) (tick w)
    [EReadStatus pid (pf_status (env (now w)) pid)] ->
  returns (is_process env pid) w Q.
Proof.
  intros H. eexists _, _, _. split; [apply is_process_eq | exact H].
Qed.

(** With the pids the kernel hands out, in [1, PID_MAX], a turn of the
    loop never indexes the bitmap out of range. *)
Lemma proc_monitor_iteration_returns orig_mask w pid status errno :
  k_waitpid_any (env (now w)) = (pid, status, errno) ->
  pid < 0 \/ 1 <= pid <= PID_MAX ->
  1 <= k_eventmsg (env (S (now w))) pid <= PID_MAX ->
  returns (proc_monitor_iteration lp64 WEVENT SIGTERMTHRD env orig_mask) w
    (fun _ _ _ => True).
Proof.
  intros Hwait Hpid Hmsg.
  unfold proc_monitor_iteration. mstep. mstep. mstep. mstep.
  cbn [now set_sig_mask]. rewrite Hwait. mstep. mstep.
  destruct (pid <? 0) eqn:E.
  { destruct (errno =? ECHILD); msteps; exact I. }
  apply Z.ltb_ge in E.
  assert (Hrange : 1 <= pid <= PID_MAX) by (destruct Hpid; [lia | assumption]).
  mstep. mstep.
  destruct (negb (WIFSTOPPED status)).
  { apply returns_detach_pid; [exact Hrange | exact I]. }
  destruct ((WSTOPSIG status =? SIGTRAP) && negb (WEVENT status =? 0)).
  - mstep. mstep. cbn [now set_sig_mask tick].
    mstep. mstep. mstep. mstep.
    match goal with |- returns (if ?c then _ else _) _ _ => destruct c end;
      [| apply returns_detach_pid; [exact Hrange | exact I]].
    match goal with |- returns (if ?c then _ else _) _ _ => destruct c end.
    + rewrite to_int_small by (unfold PID_MAX in Hmsg; lia).
      mstep. apply returns_pid_set_put; [exact Hmsg |].
      mstep. mstep. mstep.
      apply returns_detach_pid; [exact Hmsg |].
      msteps. exact I.
    + mstep. mstep. apply returns_detach_pid; [exact Hrange | exact I].
  - destruct (WSTOPSIG status =? SIGSTOP); [| msteps; exact I].
    mstep. apply returns_pid_set_get; [exact Hrange |].
    mstep.
    assert (Hrest : forall w1,
      returns
        (do attached <- pid_set_get lp64 pid;
         if attached
         then xptrace PTRACE_SETOPTIONS pid
                (Z.lor (Z.lor PTRACE_O_TRACECLONE PTRACE_O_TRACEEXEC)
                   PTRACE_O_TRACEEXIT) ;;
              xptrace PTRACE_CONT pid 0
         else detach_pid lp64 pid 0) w1 (fun _ _ _ => True)).
    { intros w1. mstep. apply returns_pid_set_get; [exact Hrange |].
      destruct (Z.testbit (attaches w1) (pid - 1)).
      - msteps. exact I.
      - apply returns_detach_pid; [exact Hrange | exact I]. }
    match goal with |- returns (if ?c then _ else _) _ _ => destruct c end.
    + mstep. apply returns_is_process.
      apply returns_pid_set_put; [exact Hrange |].
      eapply returns_weaken; [apply Hrest |]. auto.
    + mstep. eapply returns_weaken; [apply Hrest |]. auto.
Qed.

(** C6: a ptrace-event-stop with event fork or vfork from a pid of the
    registry.  The turn of the loop records the child pid in fork_pid,
    clears the child's bit, detaches the child, starts the worker
    thread on do_check_fork and resumes the spawner; the registry is
    left alone.  The worker, run from there, detaches the child again
    and inspects it. *)
Theorem fork_event_dispatch orig_mask w pid status errno msg :
  k_waitpid_any (env (now w)) = (pid, status, errno) ->
  0 <= pid ->
  WIFSTOPPED status = true ->
  WSTOPSIG status = SIGTRAP ->
  WEVENT status = PTRACE_EVENT_FORK \/ WEVENT status = PTRACE_EVENT_VFORK ->
  is_Some (zygote_map w !! pid) ->
  k_eventmsg (env (S (now w))) pid = msg ->
  1 <= msg <= PID_MAX ->
  returns (proc_monitor_iteration lp64 WEVENT SIGTERMTHRD env orig_mask) w
    (fun _ w' t =>
       fork_pid w' = msg /\
       Z.testbit (attaches w') (msg - 1) = false /\
       zygote_map w' = zygote_map w /\
       t = [EWaitAny (pid, status, errno);
            EPtrace PTRACE_GETEVENTMSG pid msg;
            EPtrace PTRACE_DETACH msg 0;
            ENewDaemonThreadCheckFork;
            EPtrace PTRACE_CONT pid 0] /\
       returns (do_check_fork lp64 is_hide_target env) w' (fun _ w'' t' =>
         fork_pid w'' = 0 /\
         exists t'', t' = EPtrace PTRACE_DETACH msg 0 :: t'' /\
                     inspection is_hide_target env msg (zygote_map w) t'')).
Proof.
  intros Hwait Hpid Hstopped Hsig Hevent Hzygote Hmsg Hrange.
  assert (Hint : to_int msg = msg).
  { apply to_int_small. unfold PID_MAX in Hrange. lia. }
  unfold proc_monitor_iteration. mstep. mstep. mstep. mstep.
  cbn [now set_sig_mask]. rewrite Hwait. mstep. mstep.
  destruct (pid <? 0) eqn:E; [apply Z.ltb_lt in E; lia |].
  mstep. mstep. rewrite Hstopped. cbn [negb]. cbv iota.
  rewrite Hsig.
  assert (Hev : negb (WEVENT status =? 0) = true
                /\ (WEVENT status =? PTRACE_EVENT_FORK)
                   || (WEVENT status =? PTRACE_EVENT_VFORK) = true).
  { destruct Hevent as [-> | ->]; split; reflexivity. }
  destruct Hev as [-> ->]. rewrite Z.eqb_refl. cbn [andb]. cbv iota.
  mstep. mstep. cbn [now set_sig_mask tick]. rewrite Hmsg.
  mstep. mstep. mstep. mstep.
  cbn [zygote_map set_sig_mask tick].
  rewrite (bool_decide_eq_true_2 _ Hzygote). cbv iota.
  rewrite Hint.
  eapply returns_bind.
  eexists _, _, _. split; [apply pid_set_put_in_range; exact Hrange |].
  mstep. mstep. mstep.
  eexists _, _, _. split; [apply detach_pid_in_range; exact Hrange |].
  msteps. cbn [fork_pid attaches zygote_map set_attaches set_fork_pid
               set_sig_mask tick app].
  split; [reflexivity |].
  split; [apply Z.clearbit_eq; lia |].
  split; [reflexivity |].
  split; [reflexivity |].
  eapply returns_weaken.
  - apply do_check_fork_returns. cbn [fork_pid set_attaches]. exact Hrange.
  - cbv beta. cbn [fork_pid zygote_map set_attaches set_fork_pid
                   set_sig_mask tick].
    intros _ w'' t' (H0 & _ & Ht'). split; assumption.
Qed.


(** ** The rescan timer and the registry *)

Section Frame.

Variable R : world -> world -> Prop.
Hypothesis R_refl : forall w, R w w.
Hypothesis R_trans : forall w1 w2 w3, R w1 w2 -> R w2 w3 -> R w1 w3.

Lemma frame_ret {A} (a : A) : frame R (ret a).
Proof. intros w a' w' t [= _ <- _]. apply R_refl. Qed.

Lemma frame_get : frame R get.
Proof. intros w a' w' t [= _ <- _]. apply R_refl. Qed.

Lemma frame_emit e : frame R (emit e).
Proof. intros w a' w' t [= _ <- _]. apply R_refl. Qed.

Lemma frame_peek {A} (q : snapshot -> A) : frame R (peek env q).
Proof. intros w a' w' t [= _ <- _]. apply R_refl. Qed.

Lemma frame_modify f : (forall w, R w (f w)) -> frame R (modify f).
Proof. intros H w a' w' t [= _ <- _]. apply H. Qed.

Lemma frame_observe {A} (q : snapshot -> A) :
  (forall w, R w (tick w)) -> frame R (observe env q).
Proof. intros H w a' w' t [= _ <- _]. apply H. Qed.

Lemma frame_bind {A B} (m : M A) (k : A -> M B) :
  frame R m -> (forall a, frame R (k a)) -> frame R (bind m k).
Proof.
  intros Hm Hk w b w' t Hrun.
  apply bind_Some in Hrun as (a & w1 & t1 & t2 & H1 & H2 & _).
  eapply R_trans; [eapply Hm; exact H1 | eapply Hk; exact H2].
Qed.

Lemma frame_pid_set_get pos : frame R (pid_set_get lp64 pos).
Proof.
  intros w a w' t. unfold pid_set_get.
  destruct (in_bounds (pid_set_index lp64 pos)); [| discriminate].
  intros [= _ <- _]. apply R_refl.
Qed.

Lemma frame_pid_set_put pos b :
  (forall w x, R w (set_attaches x w)) -> frame R (pid_set_put lp64 pos b).
Proof.
  intros H w a w' t. unfold pid_set_put.
  destruct (in_bounds (pid_set_index lp64 pos)); [| discriminate].
  intros [= _ <- _]. apply H.
Qed.

End Frame.

Lemma timer_kept_refl w : timer_kept w w.
Proof. split; [reflexivity | lia]. Qed.

Lemma timer_kept_trans w1 w2 w3 :
  timer_kept w1 w2 -> timer_kept w2 w3 -> timer_kept w1 w3.
Proof. intros [H1 H2] [H3 H4]. split; [congruence | lia]. Qed.

Lemma timer_kept_same w w' :
  itimer_real w' = itimer_real w -> zygote_map w' = zygote_map w ->
  timer_kept w w'.
Proof. intros H1 H2. split; [exact H1 | rewrite H2; lia]. Qed.

Ltac frame_step :=
  intros;
  first [ apply frame_ret | apply frame_get | apply frame_emit
        | apply frame_peek | apply frame_pid_set_get | apply frame_pid_set_put
        | apply frame_observe | apply frame_modify | apply frame_bind ];
  try exact timer_kept_refl; try exact timer_kept_trans;
  try (intros; apply timer_kept_same; reflexivity).

Ltac frame_case :=
  intros;
  match goal with
  | |- frame _ (if ?c then _ else _) => destruct c
  | |- frame _ (match ?x with _ => _ end) => destruct x
  end.

Lemma frame_detach_pid pid sig : frame timer_kept (detach_pid lp64 pid sig).
Proof. unfold detach_pid, xptrace. repeat frame_step. Qed.

Lemma frame_is_process pid : frame timer_kept (is_process env pid).
Proof. unfold is_process. repeat frame_step. frame_case; frame_step. Qed.

Lemma proc_monitor_iteration_frame orig_mask :
  frame timer_kept (proc_monitor_iteration lp64 WEVENT SIGTERMTHRD env orig_mask).
Proof.
  unfold proc_monitor_iteration, pthread_sigmask, xptrace,
    new_daemon_thread_do_check_fork.
  frame_step. { frame_step. }
  frame_step. { frame_step. }
  frame_step. { frame_step. }
  intros _.
  match goal with a : (Z * Z * Z)%type |- _ => destruct a as [[pid status] errno] end.
  frame_case.
  { frame_case; frame_step. }
  frame_step. { frame_step. }
  frame_case; [apply frame_detach_pid |].
  frame_case.
  - frame_step. { frame_step. }
    frame_step. { frame_step. }
    frame_step. { frame_step. }
    frame_case; [| apply frame_detach_pid].
    frame_case.
    + frame_step. { frame_step. }
      frame_step. { frame_step. }
      frame_step. { apply frame_detach_pid. }
      frame_step; frame_step.
    + frame_step; [| intros; apply frame_detach_pid].
      apply frame_modify. intros w'. split; [reflexivity |].
      cbn [zygote_map set_zygote_map].
      apply map_subseteq_size, delete_subseteq.
  - frame_case; [| frame_step].
    frame_step. { frame_step. }
    frame_step.
    { frame_case.
      - frame_step; [apply frame_is_process | frame_step].
      - frame_step. }
    frame_step. { frame_step. }
    frame_case.
    + frame_step; frame_step.
    + apply frame_detach_pid.
Qed.

Lemma new_zygote_returns pid w :
  returns (new_zygote env pid) w (fun _ w' _ => timer_only w w').
Proof.
  unfold new_zygote, xptrace, waitpid. mstep. mstep.
  destruct (pf_ns_mnt (env (now w)) pid) as [st |]; [| msteps; reflexivity].
  mstep. mstep. cbn [zygote_map tick].
  destruct (zygote_map w !! pid); msteps; reflexivity.
Qed.

Lemma check_zygote_entry_returns pid w :
  returns (check_zygote_entry env pid) w (fun _ w' _ => timer_only w w').
Proof.
  unfold check_zygote_entry, parse_ppid. mstep. mstep.
  destruct (pf_file (env (now w)) Cmdline pid) as [l |]; [| msteps; reflexivity].
  mstep.
  destruct (String.prefix "zygote" (fgets (proc_cmdline_path pid) l));
    [| msteps; reflexivity].
  do 5 mstep.
  assert (Hppid : forall ppid,
    returns (if ppid =? 1 then new_zygote env pid else ret tt) (tick (tick w))
      (fun _ w1 _ =>
         returns (ret true) w1 (fun _ w2 _ => timer_only w w2))).
  { intros ppid. destruct (ppid =? 1).
    - eapply returns_weaken; [apply new_zygote_returns |]. cbv beta.
      intros _ w1 _ H. mstep. exact H.
    - msteps. reflexivity. }
  destruct (pf_ppid (env (now (tick w))) pid) as [v |].
  - mstep. mstep. mstep. apply Hppid.
  - mstep. apply Hppid.
Qed.

Lemma crawl_returns pids : forall w,
  returns (crawl (check_zygote_entry env) pids) w (fun _ w' _ => timer_only w w').
Proof.
  induction pids as [| pid pids IH]; intros w; simpl.
  - msteps. reflexivity.
  - mstep. eapply returns_weaken; [apply check_zygote_entry_returns |].
    cbv beta. intros continue w1 _ H1.
    destruct continue; [| msteps; exact H1].
    eapply returns_weaken; [apply IH |]. cbv beta.
    intros _ w2 _ H2. unfold timer_only in *. congruence.
Qed.

(** check_zygote: the timer is disarmed when the registry is complete
    and is left as it was otherwise. *)
Lemma check_zygote_returns w :
  returns (check_zygote lp64 env) w (fun _ w' _ =>
    (is_zygote_done lp64 w' = true -> timer_armed w' = false) /\
    (is_zygote_done lp64 w' = false -> itimer_real w' = itimer_real w)).
Proof.
  unfold check_zygote, crawl_procfs, setitimer_real.
  mstep. mstep. mstep.
  eapply returns_weaken; [apply crawl_returns |]. cbv beta.
  intros _ w1 _ H1. mstep. mstep.
  destruct (is_zygote_done lp64 w1) eqn:Hdone.
  - msteps. split; [intros _; reflexivity |].
    unfold is_zygote_done in *. cbn [zygote_map set_itimer_real].
    congruence.
  - msteps. split; [congruence | intros _; exact H1].
Qed.

Lemma setup_inotify_returns w :
  returns (setup_inotify env) w (fun _ _ _ => True).
Proof.
  unfold setup_inotify, inotify_add_watch, access. mstep. mstep. mstep. mstep.
  mstep. mstep.
  destruct (k_inotify_init1 (env (now w)) <? 0); [msteps; exact I |].
  mstep. mstep. mstep. mstep. mstep. mstep. mstep. mstep.
  match goal with |- returns (if ?c then _ else _) _ _ => destruct c end;
    [| msteps; exact I].
  mstep. mstep. mstep. mstep.
  match goal with |- returns (if ?c then _ else _) _ _ => destruct c end;
    msteps; exact I.
Qed.

Lemma not_done_iff w :
  is_zygote_done lp64 w = false <->
  (size (zygote_map w) < expected_zygotes lp64)%nat.
Proof. unfold is_zygote_done. rewrite Nat.leb_gt. reflexivity. Qed.

(** After start-up the timer is armed exactly when the registry is
    not complete. *)
Lemma proc_monitor_init_returns w :
  returns (proc_monitor_init lp64 SIGTERMTHRD env) w (fun orig_mask w0 _ =>
    orig_mask = sig_mask w /\
    timer_armed w0 = negb (is_zygote_done lp64 w0)).
Proof.
  unfold proc_monitor_init, sigaction, pthread_sigmask, setitimer_real.
  do 19 mstep.
  eapply returns_weaken; [apply setup_inotify_returns |]. cbv beta.
  intros _ w1 _ _. mstep.
  eapply returns_weaken; [apply check_zygote_returns |]. cbv beta.
  intros _ w2 _ [Hdone Hnot]. mstep. mstep. mstep.
  destruct (is_zygote_done lp64 w2) eqn:E; cbn [negb]; cbv iota.
  - msteps. split; [reflexivity |]. rewrite E. apply Hdone. reflexivity.
  - msteps. split; [reflexivity |].
    unfold is_zygote_done in *. cbn [zygote_map set_itimer_real].
    rewrite E. reflexivity.
Qed.

Lemma perform_keeps_invariant orig_mask a w w' t :
  armed_means_incomplete lp64 w ->
  perform lp64 WEVENT SIGTERMTHRD env orig_mask a w = Some (tt, w', t) ->
  armed_means_incomplete lp64 w'.
Proof.
  intros Hinv Hrun. destruct a; simpl in Hrun.
  - (* a turn of the loop *)
    destruct (proc_monitor_iteration_frame _ _ _ _ _ Hrun) as [Htimer Hsize].
    intros Harmed. unfold timer_armed in *. rewrite Htimer in Harmed.
    specialize (Hinv Harmed). apply not_done_iff in Hinv.
    apply not_done_iff. lia.
  - (* SIGALRM *)
    destruct (returns_inv _ _ _ _ _ _ (check_zygote_returns w) Hrun) as [Hdone _].
    intros Harmed. destruct (is_zygote_done lp64 w') eqn:E; [| reflexivity].
    rewrite Hdone in Harmed by reflexivity. discriminate Harmed.
  - (* SIGIO *)
    unfold inotify_event in Hrun.
    apply bind_Some in Hrun as (w0 & w1 & t1 & t2 & Hget & Hrun & _).
    injection Hget as <- <- _.
    apply bind_Some in Hrun as (n & w2 & t3 & t4 & Hobs & Hrun & _).
    injection Hobs as <- <- _.
    apply bind_Some in Hrun as (u & w3 & t5 & t6 & Hemit & Hrun & _).
    injection Hemit as _ <- _.
    destruct (k_poll (env (now w)) <=? 0).
    + injection Hrun as <- _. exact Hinv.
    + apply bind_Some in Hrun as (ev & w4 & t7 & t8 & Hobs & Hrun & _).
      injection Hobs as <- <- _.
      apply bind_Some in Hrun as (u0 & w6 & t11 & t12 & _ & Hrun & _).
      apply bind_Some in Hrun as (u' & w5 & t9 & t10 & _ & Hrun & _).
      destruct (returns_inv _ _ _ _ _ _ (check_zygote_returns w5) Hrun)
        as [Hdone _].
      intros Harmed. destruct (is_zygote_done lp64 w') eqn:E; [| reflexivity].
      rewrite Hdone in Harmed by reflexivity. discriminate Harmed.
Qed.

Lemma perform_all_keeps_invariant orig_mask l : forall w w' t,
  armed_means_incomplete lp64 w ->
  perform_all lp64 WEVENT SIGTERMTHRD env orig_mask l w = Some (tt, w', t) ->
  armed_means_incomplete lp64 w'.
Proof.
  induction l as [| a l IH]; intros w w' t Hinv Hrun; simpl in Hrun.
  - injection Hrun as <- _. exact Hinv.
  - apply bind_Some in Hrun as ([] & w1 & t1 & t2 & H1 & H2 & _).
    eapply IH; [| exact H2].
    eapply perform_keeps_invariant; [exact Hinv | exact H1].
Qed.

(** A spawner is lost: a ptrace-event-stop from a pid of the registry
    whose event is neither fork nor vfork (exit, or anything else). *)
Lemma spawner_lost orig_mask w pid status errno :
  k_waitpid_any (env (now w)) = (pid, status, errno) ->
  1 <= pid <= PID_MAX ->
  WIFSTOPPED status = true ->
  WSTOPSIG status = SIGTRAP ->
  WEVENT status <> 0 ->
  WEVENT status <> PTRACE_EVENT_FORK ->
  WEVENT status <> PTRACE_EVENT_VFORK ->
  is_Some (zygote_map w !! pid) ->
  returns (proc_monitor_iteration lp64 WEVENT SIGTERMTHRD env orig_mask) w
    (fun _ w' t =>
       zygote_map w' = delete pid (zygote_map w) /\
       itimer_real w' = itimer_real w /\
       t = [EWaitAny (pid, status, errno);
            EPtrace PTRACE_GETEVENTMSG pid (k_eventmsg (env (S (now w))) pid);
            EPtrace PTRACE_DETACH pid 0]).
Proof.
  intros Hwait Hrange Hstopped Hsig Hev0 Hev1 Hev2 Hzygote.
  unfold proc_monitor_iteration. mstep. mstep. mstep. mstep.
  cbn [now set_sig_mask]. rewrite Hwait. mstep. mstep.
  destruct (pid <? 0) eqn:E; [apply Z.ltb_lt in E; lia |].
  mstep. mstep. rewrite Hstopped. cbn [negb]. cbv iota.
  rewrite Hsig, Z.eqb_refl.
  apply Z.eqb_neq in Hev0, Hev1, Hev2. rewrite Hev0, Hev1, Hev2.
  cbn [andb orb negb]. cbv iota.
  mstep. mstep. cbn [now set_sig_mask tick].
  mstep. mstep. mstep. mstep.
  cbn [zygote_map set_sig_mask tick].
  rewrite (bool_decide_eq_true_2 _ Hzygote). cbv iota.
  mstep. mstep.
  eexists _, _, _. split; [apply detach_pid_in_range; exact Hrange |].
  cbn [zygote_map itimer_real set_attaches set_zygote_map set_sig_mask tick app].
  repeat split.
Qed.

(** C1 (as amended): after start-up the rescan timer is armed exactly
    when the registry holds fewer spawners than expected (2 with
    __LP64__, 1 without); from then on, through every sequence of loop
    turns and rescans, an armed timer implies a registry below the
    expected count; a rescan disarms the timer when it leaves the
    registry complete and otherwise leaves the timer as it was; and
    the loss of a spawner removes it from the registry and leaves the
    timer as it was. *)
Theorem armed_timer_means_incomplete_registry :
  (forall w,
     returns (proc_monitor_init lp64 SIGTERMTHRD env) w (fun _ w0 _ =>
       timer_armed w0 = true <->
       (size (zygote_map w0) < expected_zygotes lp64)%nat)) /\
  (forall l w w' t,
     proc_monitor lp64 WEVENT SIGTERMTHRD env l w = Some (tt, w', t) ->
     timer_armed w' = true ->
     (size (zygote_map w') < expected_zygotes lp64)%nat) /\
  (forall w,
     returns (check_zygote lp64 env) w (fun _ w' _ =>
       ((expected_zygotes lp64 <= size (zygote_map w'))%nat ->
        timer_armed w' = false) /\
       ((size (zygote_map w') < expected_zygotes lp64)%nat ->
        itimer_real w' = itimer_real w))) /\
  (forall orig_mask w pid status errno,
     k_waitpid_any (env (now w)) = (pid, status, errno) ->
     1 <= pid <= PID_MAX ->
     WIFSTOPPED status = true ->
     WSTOPSIG status = SIGTRAP ->
     WEVENT status <> 0 ->
     WEVENT status <> PTRACE_EVENT_FORK ->
     WEVENT status <> PTRACE_EVENT_VFORK ->
     is_Some (zygote_map w !! pid) ->
     returns (proc_monitor_iteration lp64 WEVENT SIGTERMTHRD env orig_mask) w
       (fun _ w' _ =>
          zygote_map w' = delete pid (zygote_map w) /\
          timer_armed w' = timer_armed w)).
Proof.
  split; [| split; [| split]].
  - intros w. eapply returns_weaken; [apply proc_monitor_init_returns |].
    cbv beta. intros _ w0 _ [_ H]. rewrite H, <- not_done_iff.
    destruct (is_zygote_done lp64 w0); simpl; split; congruence.
  - intros l w w' t Hrun Harmed. apply not_done_iff.
    unfold proc_monitor in Hrun.
    apply bind_Some in Hrun as (orig_mask & w0 & t0 & t1 & Hinit & Hrun & _).
    eapply perform_all_keeps_invariant; [| exact Hrun | exact Harmed].
    destruct (returns_inv _ _ _ _ _ _ (proc_monitor_init_returns w) Hinit)
      as [_ H].
    intros Ha. rewrite Ha in H. destruct (is_zygote_done lp64 w0);
      [discriminate H | reflexivity].
  - intros w. eapply returns_weaken; [apply check_zygote_returns |].
    cbv beta. intros _ w' _ [Hdone Hnot]. split.
    + intros Hle. apply Hdone. unfold is_zygote_done. apply Nat.leb_le. exact Hle.
    + intros Hlt. apply Hnot, not_done_iff. exact Hlt.
  - intros orig_mask w pid status errno H1 H2 H3 H4 H5 H6 H7 H8.
    eapply returns_weaken;
      [apply (spawner_lost orig_mask w pid status errno); assumption |].
    cbv beta. intros _ w' _ (Hmap & Htimer & _).
    split; [exact Hmap |]. unfold timer_armed. rewrite Htimer. reflexivity.
Qed.

Lemma bind_None {A B} (m : M A) (k : A -> M B) w :
  returns m w (fun a w1 _ => k a w1 = None) -> bind m k w = None.
Proof.
  intros (a & w1 & t1 & Hm & Hk). unfold bind. rewrite Hm, Hk. reflexivity.
Qed.

(** The child pid of a fork event goes to operator[] as the kernel
    gave it: when it is not a pid of [1, PID_MAX], the turn of the loop
    indexes the bitmap out of range. *)
Lemma unchecked_message_out_of_range orig_mask w pid status errno :
  k_waitpid_any (env (now w)) = (pid, status, errno) ->
  0 <= pid ->
  WIFSTOPPED status = true ->
  WSTOPSIG status = SIGTRAP ->
  WEVENT status = PTRACE_EVENT_FORK \/ WEVENT status = PTRACE_EVENT_VFORK ->
  is_Some (zygote_map w !! pid) ->
  in_bounds (pid_set_index lp64 (k_eventmsg (env (S (now w))) pid)) = false ->
  proc_monitor_iteration lp64 WEVENT SIGTERMTHRD env orig_mask w = None.
Proof.
  intros Hwait Hpid Hstopped Hsig Hevent Hzygote Hout.
  unfold proc_monitor_iteration.
  apply bind_None. mstep. apply bind_None. mstep.
  cbn [now set_sig_mask]. rewrite Hwait.
  apply bind_None. mstep.
  destruct (pid <? 0) eqn:E; [apply Z.ltb_lt in E; lia |].
  apply bind_None. mstep. rewrite Hstopped. cbn [negb]. cbv iota.
  rewrite Hsig.
  assert (Hev : negb (WEVENT status =? 0) = true
                /\ (WEVENT status =? PTRACE_EVENT_FORK)
                   || (WEVENT status =? PTRACE_EVENT_VFORK) = true).
  { destruct Hevent as [-> | ->]; split; reflexivity. }
  destruct Hev as [-> ->]. rewrite Z.eqb_refl. cbn [andb]. cbv iota.
  apply bind_None. mstep. cbn [now set_sig_mask tick].
  apply bind_None. unfold xptrace. mstep.
  apply bind_None. mstep.
  cbn [zygote_map set_sig_mask tick].
  rewrite (bool_decide_eq_true_2 _ Hzygote). cbv iota.
  unfold bind, pid_set_put. rewrite Hout. reflexivity.
Qed.

(** C10 (as amended): operator[] of the attachment bitmap refers to bit
    pos - 1; it is in bounds exactly for pos in [1, PID_MAX]; pos = 0
    wraps around to the largest size_t and is out of range.  The worker
    returns before any access to the bitmap when nothing is pending
    (fork_pid is 0), and the access it makes otherwise is at the
    pending pid, which is not 0.  The main loop has no such guard: a
    turn stays in range when the pid waited for and the child pid of
    the event are in [1, PID_MAX], and for the fork event of a
    registered spawner whose child pid is 0, or above PID_MAX, it
    indexes the bitmap out of range. *)
Theorem pid_set_bounds :
  PID_MAX = 32768 /\
  (forall pos, 0 <= pos < 2 ^ word_bits lp64 ->
     (in_bounds (pid_set_index lp64 pos) = true <-> 1 <= pos <= PID_MAX)) /\
  (forall pos, 1 <= pos <= PID_MAX -> pid_set_index lp64 pos = pos - 1) /\
  (pid_set_index lp64 0 = 2 ^ word_bits lp64 - 1 /\
   in_bounds (pid_set_index lp64 0) = false /\
   forall w b, pid_set_get lp64 0 w = None /\ pid_set_put lp64 0 b w = None) /\
  (forall w, fork_pid w = 0 ->
     do_check_fork lp64 is_hide_target env w = Some (tt, w, [])) /\
  (forall w w' t, fork_pid w <> 0 ->
     do_check_fork lp64 is_hide_target env w = Some (tt, w', t) ->
     in_bounds (pid_set_index lp64 (fork_pid w)) = true /\
     exists t', t = EPtrace PTRACE_DETACH (fork_pid w) 0 :: t') /\
  (forall orig_mask w pid status errno,
     k_waitpid_any (env (now w)) = (pid, status, errno) ->
     pid < 0 \/ 1 <= pid <= PID_MAX ->
     1 <= k_eventmsg (env (S (now w))) pid <= PID_MAX ->
     returns (proc_monitor_iteration lp64 WEVENT SIGTERMTHRD env orig_mask) w
       (fun _ _ _ => True)) /\
  (forall orig_mask w pid status errno msg,
     k_waitpid_any (env (now w)) = (pid, status, errno) ->
     0 <= pid ->
     WIFSTOPPED status = true ->
     WSTOPSIG status = SIGTRAP ->
     WEVENT status = PTRACE_EVENT_FORK \/ WEVENT status = PTRACE_EVENT_VFORK ->
     is_Some (zygote_map w !! pid) ->
     k_eventmsg (env (S (now w))) pid = msg ->
     msg = 0 \/ PID_MAX < msg < 2 ^ word_bits lp64 ->
     pid_set_put lp64 msg false w = None /\
     proc_monitor_iteration lp64 WEVENT SIGTERMTHRD env orig_mask w = None).
Proof.
  split; [reflexivity |].
  split; [exact in_bounds_iff |].
  split; [exact pid_set_index_in_range |].
  assert (H0 : in_bounds (pid_set_index lp64 0) = false).
  { rewrite pid_set_index_zero. destruct word_bits_cases as [-> | ->]; reflexivity. }
  split; [| split; [| split; [| split]]].
  - split; [exact pid_set_index_zero |]. split; [exact H0 |].
    intros w b. unfold pid_set_get, pid_set_put. rewrite H0. auto.
  - exact do_check_fork_nothing_pending.
  - intros w w' t Hne Hrun. unfold do_check_fork in Hrun.
    apply bind_Some in Hrun as (w0 & w1 & t1 & t2 & Hget & Hrun & ->).
    injection Hget as <- <- <-.
    apply bind_Some in Hrun as (u & w2 & t3 & t4 & Hmod & Hrun & ->).
    injection Hmod as <- <- <-.
    apply Z.eqb_neq in Hne. rewrite Hne in Hrun.
    apply bind_Some in Hrun as ([] & w3 & t5 & t6 & Hdet & Hrun & ->).
    split; [exact (detach_pid_Some _ _ _ _ _ Hdet) |].
    unfold detach_pid in Hdet.
    apply bind_Some in Hdet as ([] & w4 & t7 & t8 & Hput & Hx & ->).
    unfold pid_set_put in Hput.
    destruct (in_bounds (pid_set_index lp64 (fork_pid w))); [| discriminate].
    injection Hput as <- <-. injection Hx as <- <-.
    eexists. reflexivity.
  - exact proc_monitor_iteration_returns.
  - intros orig_mask w pid status errno msg
      Hwait Hpid Hstopped Hsig Hevent Hzygote Hmsg Hrange.
    assert (Hout : in_bounds (pid_set_index lp64 msg) = false).
    { destruct Hrange as [-> | Hrange]; [exact H0 |].
      destruct (in_bounds (pid_set_index lp64 msg)) eqn:Hin; [| reflexivity].
      apply in_bounds_iff in Hin; unfold PID_MAX in *; lia. }
    split.
    + unfold pid_set_put. rewrite Hout. reflexivity.
    + apply (unchecked_message_out_of_range orig_mask w pid status errno);
        try assumption.
      rewrite Hmsg. exact Hout.
Qed.

(** * Further properties of the code *)

(** ** pid_set *)

(** X1: the bitmap behaves as a map from pids to booleans: a write through
    operator[] is read back at the same pid and leaves every other pid
    of [1, PID_MAX] as it was; after reset() every pid reads false. *)
Theorem pid_set_write_then_read p q b w :
  1 <= p <= PID_MAX ->
  1 <= q <= PID_MAX ->
  returns (pid_set_put lp64 p b ;; pid_set_get lp64 q) w (fun r _ _ =>
    r = if p =? q then b else Z.testbit (attaches w) (q - 1)) /\
  returns (pid_set_reset ;; pid_set_get lp64 q) w (fun r _ _ => r = false).
Proof.
  intros Hp Hq. split.
  - mstep. apply returns_pid_set_put; [exact Hp |].
    apply returns_pid_set_get; [exact Hq |].
    cbn [attaches set_attaches].
    destruct (p =? q) eqn:E.
    + apply Z.eqb_eq in E. subst q.
      destruct b; [apply Z.setbit_eq | apply Z.clearbit_eq]; lia.
    + apply Z.eqb_neq in E.
      destruct b; [apply Z.setbit_neq | apply Z.clearbit_neq]; lia.
  - unfold pid_set_reset. mstep. mstep.
    apply returns_pid_set_get; [exact Hq |].
    cbn [attaches set_attaches]. apply Z.testbit_0_l.
Qed.

(** ** The worker *)

(** X2: the pending-fork slot is consumed once: a run of do_check_fork
    leaves fork_pid at 0, so that a second worker started on the same
    slot returns at once, without a system call and without touching
    the child. *)
Theorem pending_slot_is_consumed_once w :
  0 <= fork_pid w <= PID_MAX ->
  returns (do_check_fork lp64 is_hide_target env) w (fun _ w' _ =>
    fork_pid w' = 0 /\
    do_check_fork lp64 is_hide_target env w' = Some (tt, w', [])).
Proof.
  intros Hrange. destruct (Z.eq_dec (fork_pid w) 0) as [H0 | Hne].
  - exists tt, w, []. split; [apply do_check_fork_nothing_pending; exact H0 |].
    split; [exact H0 | apply do_check_fork_nothing_pending; exact H0].
  - eapply returns_weaken; [apply do_check_fork_returns; lia |].
    cbv beta. intros _ w' _ (H0 & _).
    split; [exact H0 | apply do_check_fork_nothing_pending; exact H0].
Qed.

Section Emits.

Variable P : event -> bool.

Lemma emits_ret {A} (a : A) : emits_only P (ret a).
Proof. intros w a' w' t [= _ _ <-]. reflexivity. Qed.

Lemma emits_get : emits_only P get.
Proof. intros w a' w' t [= _ _ <-]. reflexivity. Qed.

Lemma emits_peek {A} (q : snapshot -> A) : emits_only P (peek env q).
Proof. intros w a' w' t [= _ _ <-]. reflexivity. Qed.

Lemma emits_observe {A} (q : snapshot -> A) : emits_only P (observe env q).
Proof. intros w a' w' t [= _ _ <-]. reflexivity. Qed.

Lemma emits_modify f : emits_only P (modify f).
Proof. intros w a' w' t [= _ _ <-]. reflexivity. Qed.

Lemma emits_emit e : P e = true -> emits_only P (emit e).
Proof. intros H w a' w' t [= _ _ <-]. simpl. rewrite H. reflexivity. Qed.

Lemma emits_bind {A B} (m : M A) (k : A -> M B) :
  emits_only P m -> (forall a, emits_only P (k a)) -> emits_only P (bind m k).
Proof.
  intros Hm Hk w b w' t Hrun.
  apply bind_Some in Hrun as (a & w1 & t1 & t2 & H1 & H2 & ->).
  rewrite forallb_app, (Hm _ _ _ _ H1), (Hk _ _ _ _ _ H2). reflexivity.
Qed.

Lemma emits_pid_set_get pos : emits_only P (pid_set_get lp64 pos).
Proof.
  intros w a w' t. unfold pid_set_get.
  destruct (in_bounds (pid_set_index lp64 pos)); [| discriminate].
  intros [= _ _ <-]. reflexivity.
Qed.

Lemma emits_pid_set_put pos b : emits_only P (pid_set_put lp64 pos b).
Proof.
  intros w a w' t. unfold pid_set_put.
  destruct (in_bounds (pid_set_index lp64 pos)); [| discriminate].
  intros [= _ _ <-]. reflexivity.
Qed.

End Emits.

Ltac emits_step :=
  intros;
  first [ apply emits_ret | apply emits_get | apply emits_peek
        | apply emits_observe | apply emits_modify
        | apply emits_pid_set_get | apply emits_pid_set_put
        | (apply emits_emit; simpl; rewrite ?Z.eqb_refl; reflexivity)
        | apply emits_bind ].

Ltac emits_case :=
  intros;
  match goal with
  | |- emits_only _ (if ?c then _ else _) => destruct c
  | |- emits_only _ (match ?x with _ => _ end) => destruct x
  end.

Lemma about_wait_pre_initialized pid n : forall cmdline,
  emits_only (about pid) (wait_pre_initialized env n pid cmdline).
Proof.
  induction n as [| n IH]; intros cmdline; simpl;
    repeat first [emits_case | (intros; apply IH) | emits_step].
Qed.

Lemma about_wait_initialized pid n : forall cmdline,
  emits_only (about pid) (wait_initialized env n pid cmdline).
Proof.
  induction n as [| n IH]; intros cmdline; simpl;
    repeat first [emits_case | (intros; apply IH) | emits_step].
Qed.

Lemma about_check_and_hide pid uid cmdline st :
  emits_only (about pid) (check_and_hide is_hide_target env pid uid cmdline st).
Proof.
  unfold check_and_hide.
  repeat first [emits_case | (intros; apply about_wait_initialized) | emits_step].
Qed.

Lemma about_check_pid pid :
  emits_only (about pid) (check_pid is_hide_target env pid).
Proof.
  unfold check_pid.
  repeat first [ emits_case | (intros; apply about_wait_pre_initialized)
               | (intros; apply about_check_and_hide) | emits_step ].
Qed.

Lemma about_poll_check_pid pid n :
  emits_only (about pid) (poll_check_pid is_hide_target env n pid).
Proof.
  induction n as [| n IH]; simpl;
    repeat first [emits_case | (intros; apply about_check_pid) | (intros; apply IH) | emits_step].
Qed.

Lemma do_check_fork_Some w a w' t :
  do_check_fork lp64 is_hide_target env w = Some (a, w', t) ->
  fork_pid w = 0 /\ t = [] \/
  fork_pid w <> 0 /\
  exists w1 w2 t',
    detach_pid lp64 (fork_pid w) 0 (set_fork_pid 0 w) =
      Some (tt, w1, [EPtrace PTRACE_DETACH (fork_pid w) 0]) /\
    poll_check_pid is_hide_target env MAX_ITER (fork_pid w) w1 = Some (tt, w2, t') /\
    t = EPtrace PTRACE_DETACH (fork_pid w) 0 :: t'.
Proof.
  intros Hrun. unfold do_check_fork in Hrun.
  apply bind_Some in Hrun as (w0 & w1 & t1 & t2 & Hget & Hrun & ->).
  injection Hget as <- <- <-.
  apply bind_Some in Hrun as (u & w2 & t3 & t4 & Hmod & Hrun & ->).
  injection Hmod as <- <- <-.
  destruct (fork_pid w =? 0) eqn:E.
  - left. apply Z.eqb_eq in E. injection Hrun as _ _ <-. auto.
  - right. apply Z.eqb_neq in E. split; [exact E |].
    apply bind_Some in Hrun as ([] & w3 & t5 & t6 & Hdet & Hrun & ->).
    assert (Ht5 : t5 = [EPtrace PTRACE_DETACH (fork_pid w) 0]).
    { unfold detach_pid in Hdet.
      apply bind_Some in Hdet as ([] & w4 & t7 & t8 & Hput & Hx & ->).
      unfold pid_set_put in Hput.
      destruct (in_bounds (pid_set_index lp64 (fork_pid w))); [| discriminate].
      injection Hput as _ <-. injection Hx as _ <-. reflexivity. }
    subst t5. destruct a.
    exists w3, w', t6. auto.
Qed.

(** X3: the worker deals with the child it took from the slot and with no
    other process: every proc file it reads, every signal, every
    ptrace request and the hand-over are for that pid. *)
Theorem worker_acts_on_its_child_only w :
  1 <= fork_pid w <= PID_MAX ->
  returns (do_check_fork lp64 is_hide_target env) w (fun _ _ t =>
    forallb (about (fork_pid w)) t = true).
Proof.
  intros Hrange.
  destruct (do_check_fork_returns w Hrange) as (a & w' & t & Hrun & _).
  exists a, w', t. split; [exact Hrun |].
  destruct (do_check_fork_Some _ _ _ _ Hrun)
    as [[H0 _] | (_ & w1 & w2 & t' & _ & Hpoll & ->)]; [lia |].
  simpl. rewrite Z.eqb_refl. simpl.
  exact (about_poll_check_pid _ _ _ _ _ _ Hpoll).
Qed.

Section Costs.

Variable p : event -> bool.

Lemma costs_le k k' {A} (m : M A) :
  (k <= k')%nat -> costs p k m -> costs p k' m.
Proof. intros Hle H w a w' t Hrun. specialize (H _ _ _ _ Hrun). lia. Qed.

Lemma costs_ret k {A} (a : A) : costs p k (ret a).
Proof. intros w a' w' t [= _ _ <-]. apply Nat.le_0_l. Qed.

Lemma costs_get k : costs p k get.
Proof. intros w a' w' t [= _ _ <-]. apply Nat.le_0_l. Qed.

Lemma costs_peek k {A} (q : snapshot -> A) : costs p k (peek env q).
Proof. intros w a' w' t [= _ _ <-]. apply Nat.le_0_l. Qed.

Lemma costs_observe k {A} (q : snapshot -> A) : costs p k (observe env q).
Proof. intros w a' w' t [= _ _ <-]. apply Nat.le_0_l. Qed.

Lemma costs_modify k f : costs p k (modify f).
Proof. intros w a' w' t [= _ _ <-]. apply Nat.le_0_l. Qed.

Lemma costs_emit k e : p e = false -> costs p k (emit e).
Proof.
  intros H w a' w' t [= _ _ <-]. unfold count. simpl. rewrite H.
  apply Nat.le_0_l.
Qed.

Lemma costs_emit_one k e : costs p (S k) (emit e).
Proof.
  intros w a' w' t [= _ _ <-]. unfold count. simpl.
  destruct (p e); simpl; lia.
Qed.

Lemma costs_bind k1 k2 {A B} (m : M A) (f : A -> M B) :
  costs p k1 m -> (forall a, costs p k2 (f a)) -> costs p (k1 + k2) (bind m f).
Proof.
  intros Hm Hf w b w' t Hrun.
  apply bind_Some in Hrun as (a & w1 & t1 & t2 & H1 & H2 & ->).
  rewrite count_app.
  specialize (Hm _ _ _ _ H1). specialize (Hf _ _ _ _ _ H2). lia.
Qed.

Lemma costs_bind_free k {A B} (m : M A) (f : A -> M B) :
  costs p 0 m -> (forall a, costs p k (f a)) -> costs p k (bind m f).
Proof. intros Hm Hf. apply (costs_bind 0 k); assumption. Qed.

Lemma costs_pid_set_put k pos b : costs p k (pid_set_put lp64 pos b).
Proof.
  intros w a w' t. unfold pid_set_put.
  destruct (in_bounds (pid_set_index lp64 pos)); [| discriminate].
  intros [= _ _ <-]. apply Nat.le_0_l.
Qed.

End Costs.

(** A step through code that emits nothing counted. *)
Ltac costs_step :=
  intros;
  first [ apply costs_ret | apply costs_get | apply costs_peek
        | apply costs_observe | apply costs_modify | apply costs_pid_set_put
        | (apply costs_emit; reflexivity)
        | apply costs_bind_free ].

Ltac costs_case :=
  intros;
  match goal with
  | |- costs _ _ (if ?c then _ else _) => destruct c
  | |- costs _ _ (match ?x with _ => _ end) => destruct x
  end.

Lemma sleeps_wait_pre_initialized pid n : forall cmdline,
  costs is_usleep n (wait_pre_initialized env n pid cmdline).
Proof.
  induction n as [| n IH]; intros cmdline; simpl.
  - costs_case; costs_step.
  - costs_case; [costs_step |].
    costs_step; [repeat costs_step |].
    costs_case; [| costs_step].
    apply (costs_bind _ 1 n); [apply costs_emit_one | intros; apply IH].
Qed.

Lemma sleeps_wait_initialized pid n : forall cmdline,
  costs is_usleep n (wait_initialized env n pid cmdline).
Proof.
  induction n as [| n IH]; intros cmdline; simpl.
  - costs_case; costs_step.
  - costs_case; [| costs_step].
    costs_step; [repeat costs_step |].
    costs_case; [| costs_step].
    apply (costs_bind _ 1 n); [apply costs_emit_one | intros; apply IH].
Qed.

Lemma sleeps_check_and_hide pid uid cmdline st :
  costs is_usleep MAX_ITER
    (check_and_hide is_hide_target env pid uid cmdline st).
Proof.
  unfold check_and_hide.
  costs_case; [costs_step |]. costs_case; [costs_step |].
  apply (costs_le _ (MAX_ITER + 0)); [lia |].
  apply costs_bind; [apply sleeps_wait_initialized |].
  repeat first [costs_case | costs_step].
Qed.

Lemma sleeps_check_pid pid :
  costs is_usleep (2 * MAX_ITER) (check_pid is_hide_target env pid).
Proof.
  assert (Hdirect : forall uid c st,
            costs is_usleep (2 * MAX_ITER)
              (check_and_hide is_hide_target env pid uid c st)).
  { intros. eapply costs_le; [| apply sleeps_check_and_hide]. lia. }
  unfold check_pid.
  costs_step; [repeat costs_step |]. costs_case; [| costs_step].
  costs_step; [costs_step |].
  costs_step; [repeat costs_step |]. costs_case; [| costs_step].
  costs_step; [costs_step |].
  costs_step; [repeat costs_step |]. costs_case; [| costs_step].
  costs_case; [| apply Hdirect].
  costs_case; [apply Hdirect |].
  apply (costs_le _ (MAX_ITER + MAX_ITER)); [lia |].
  apply costs_bind; [apply sleeps_wait_pre_initialized |].
  costs_case; [apply sleeps_check_and_hide | costs_step].
Qed.

Lemma sleeps_poll_check_pid pid n :
  costs is_usleep ((n + 1) * (2 * MAX_ITER) + n)
    (poll_check_pid is_hide_target env n pid).
Proof.
  induction n as [| n IH]; simpl poll_check_pid.
  - apply (costs_le _ (2 * MAX_ITER + 0)); [lia |].
    apply costs_bind; [apply sleeps_check_pid |].
    costs_case; costs_step.
  - apply (costs_le _ (2 * MAX_ITER + (1 + ((n + 1) * (2 * MAX_ITER) + n))));
      [lia |].
    apply costs_bind; [apply sleeps_check_pid |].
    costs_case; [costs_step |].
    apply costs_bind; [apply costs_emit_one | intros; apply IH].
Qed.

Lemma stats_wait_pre_initialized pid n : forall cmdline,
  costs is_stat_proc 0 (wait_pre_initialized env n pid cmdline).
Proof.
  induction n as [| n IH]; intros cmdline; simpl;
    repeat first [costs_case | (intros; apply IH) | costs_step].
Qed.

Lemma stats_wait_initialized pid n : forall cmdline,
  costs is_stat_proc 0 (wait_initialized env n pid cmdline).
Proof.
  induction n as [| n IH]; intros cmdline; simpl;
    repeat first [costs_case | (intros; apply IH) | costs_step].
Qed.

Lemma stats_check_and_hide pid uid cmdline st :
  costs is_stat_proc 0 (check_and_hide is_hide_target env pid uid cmdline st).
Proof.
  unfold check_and_hide.
  repeat first [ costs_case | (intros; apply stats_wait_initialized)
               | costs_step ].
Qed.

Lemma stats_check_pid pid :
  costs is_stat_proc 1 (check_pid is_hide_target env pid).
Proof.
  unfold check_pid.
  apply (costs_bind _ 1 0).
  { unfold stat_proc. costs_step; [costs_step |].
    intros. apply (costs_bind _ 1 0); [apply costs_emit_one | costs_step]. }
  repeat first [ costs_case | (intros; apply stats_wait_pre_initialized)
               | (intros; apply stats_check_and_hide) | costs_step ].
Qed.

Lemma stats_poll_check_pid pid n :
  costs is_stat_proc (n + 1) (poll_check_pid is_hide_target env n pid).
Proof.
  induction n as [| n IH]; simpl poll_check_pid.
  - apply (costs_bind _ 1 0); [apply stats_check_pid |].
    costs_case; costs_step.
  - apply (costs_le _ (1 + (n + 1))); [lia |].
    apply costs_bind; [apply stats_check_pid |].
    costs_case; [costs_step |].
    costs_step; [costs_step | intros; apply IH].
Qed.

(** X4: an inspection is bounded: the worker looks at /proc/<pid> at most
    300001 times, and sleeps its 10 microseconds at most
    300001 * 600000 + 300000 times (each of the 300001 calls of
    check_pid has two waiting loops of 300000 turns). *)
Theorem inspection_is_bounded w :
  1 <= fork_pid w <= PID_MAX ->
  MAX_ITER = Z.to_nat 300000 /\
  returns (do_check_fork lp64 is_hide_target env) w (fun _ _ t =>
    (count is_stat_proc t <= MAX_ITER + 1)%nat /\
    (count is_usleep t <= (MAX_ITER + 1) * (2 * MAX_ITER) + MAX_ITER)%nat).
Proof.
  intros Hrange. split; [reflexivity |].
  destruct (do_check_fork_returns w Hrange) as (a & w' & t & Hrun & _).
  exists a, w', t. split; [exact Hrun |].
  destruct (do_check_fork_Some _ _ _ _ Hrun)
    as [[H0 _] | (_ & w1 & w2 & t' & _ & Hpoll & ->)]; [lia |].
  split.
  - exact (stats_poll_check_pid _ _ _ _ _ _ Hpoll).
  - exact (sleeps_poll_check_pid _ _ _ _ _ _ Hpoll).
Qed.

Lemma stat_proc_eq pid w :
  stat_proc env pid w =
    Some (pf_stat (env (now w)) pid, tick w,
          [EStatProc pid (pf_stat (env (now w)) pid)]).
Proof. reflexivity. Qed.

Lemma open_read_eq f pid w :
  open_read env f pid w =
    Some (pf_file (env (now w)) f pid, tick w,
          [EOpenRead f pid (pf_file (env (now w)) f pid)]).
Proof. reflexivity. Qed.

(** The continuation of a read only has to be examined for the values
    the oracle can give. *)
Lemma emits_stat_proc_bind P {B} pid (k : option stat -> M B) :
  (forall r, P (EStatProc pid r) = true) ->
  (forall n, emits_only P (k (pf_stat (env n) pid))) ->
  emits_only P (bind (stat_proc env pid) k).
Proof.
  intros HP Hk w b w' t Hrun.
  apply bind_Some in Hrun as (a & w1 & t1 & t2 & H1 & H2 & ->).
  rewrite stat_proc_eq in H1. injection H1 as <- <- <-.
  simpl. rewrite HP. exact (Hk _ _ _ _ _ H2).
Qed.

Lemma emits_open_read_bind P {B} f pid (k : option (option string) -> M B) :
  (forall r, P (EOpenRead f pid r) = true) ->
  (forall n, emits_only P (k (pf_file (env n) f pid))) ->
  emits_only P (bind (open_read env f pid) k).
Proof.
  intros HP Hk w b w' t Hrun.
  apply bind_Some in Hrun as (a & w1 & t1 & t2 & H1 & H2 & ->).
  rewrite open_read_eq in H1. injection H1 as <- <- <-.
  simpl. rewrite HP. exact (Hk _ _ _ _ _ H2).
Qed.

Lemma passive_wait_pre_initialized pid n : forall cmdline,
  emits_only passive (wait_pre_initialized env n pid cmdline).
Proof.
  induction n as [| n IH]; intros cmdline; simpl;
    repeat first [emits_case | (intros; apply IH) | emits_step].
Qed.

Lemma passive_check_and_hide_root pid cmdline st :
  emits_only passive (check_and_hide is_hide_target env pid 0 cmdline st).
Proof. unfold check_and_hide. simpl. apply emits_ret. Qed.

Lemma passive_check_and_hide_usap pid uid cmdline st :
  cmdline = "usap32" \/ cmdline = "usap64" ->
  emits_only passive (check_and_hide is_hide_target env pid uid cmdline st).
Proof.
  intros [-> | ->]; unfold check_and_hide; destruct (uid =? 0);
    simpl; apply emits_ret.
Qed.

Lemma passive_check_pid_excluded pid :
  always_root env pid \/ always_usap env pid ->
  emits_only passive (check_pid is_hide_target env pid).
Proof.
  intros Hexcl. unfold check_pid.
  apply emits_stat_proc_bind; [reflexivity |]. intros n.
  destruct (pf_stat (env n) pid) as [st |] eqn:Hstat; [| apply emits_ret].
  emits_step; [emits_step |]. intros context0.
  emits_step; [repeat emits_step |]. intros c1.
  destruct c1 as [l1 |]; [| apply emits_ret].
  emits_step; [emits_step |]. intros cmdline0.
  apply emits_open_read_bind; [reflexivity |]. intros n2.
  destruct (pf_file (env n2) Cmdline pid) as [l2 |] eqn:Hcmd; [| apply emits_ret].
  destruct Hexcl as [Hroot | Husap].
  - rewrite (Hroot n st Hstat).
    repeat first [ emits_case | (intros; apply passive_wait_pre_initialized)
                 | (intros; apply passive_check_and_hide_root) | emits_step ].
  - specialize (Husap n2). rewrite Hcmd in Husap.
    destruct l2 as [c |]; [| destruct Husap]. simpl fgets.
    assert (Hname : is_zygote_name c = false)
      by (destruct Husap as [-> | ->]; reflexivity).
    rewrite Hname. simpl.
    apply passive_check_and_hide_usap. exact Husap.
Qed.

Lemma passive_poll_check_pid_excluded pid n :
  always_root env pid \/ always_usap env pid ->
  emits_only passive (poll_check_pid is_hide_target env n pid).
Proof.
  intros Hexcl. induction n as [| n IH]; simpl;
    repeat first [ emits_case
                 | (intros; apply passive_check_pid_excluded; exact Hexcl)
                 | (intros; apply IH) | emits_step ].
Qed.

(** X5: a child that stays root, or whose command line reads usap32 or
    usap64, is left alone: after the detach the worker only reads proc
    files and sleeps; it sends no SIGSTOP and no SIGCONT, does not
    consult is_hide_target and does not call hide_daemon. *)
Theorem excluded_child_is_left_alone w :
  1 <= fork_pid w <= PID_MAX ->
  always_root env (fork_pid w) \/ always_usap env (fork_pid w) ->
  returns (do_check_fork lp64 is_hide_target env) w (fun _ _ t =>
    exists t', t = EPtrace PTRACE_DETACH (fork_pid w) 0 :: t' /\
               forallb passive t' = true).
Proof.
  intros Hrange Hexcl.
  destruct (do_check_fork_returns w Hrange) as (a & w' & t & Hrun & _).
  exists a, w', t. split; [exact Hrun |].
  destruct (do_check_fork_Some _ _ _ _ Hrun)
    as [[H0 _] | (_ & w1 & w2 & t' & _ & Hpoll & ->)]; [lia |].
  exists t'. split; [reflexivity |].
  exact (passive_poll_check_pid_excluded _ _ Hexcl _ _ _ _ Hpoll).
Qed.

(** ** Discovery *)

Lemma returns_parse_ppid pid w (Q : Z -> world -> list event -> Prop) :
  Q (match pf_ppid (env (now w)) pid with
     | None => -1
     | Some v => default (uninit_int (env (S (now w)))) v
     end) (tick w) [EParsePpid pid (pf_ppid (env (now w)) pid)] ->
  returns (parse_ppid env pid) w Q.
Proof.
  intros H. unfold parse_ppid. mstep. mstep. mstep. mstep.
  destruct (pf_ppid (env (now w)) pid) as [v |]; msteps; exact H.
Qed.

Lemma clock_only_set_zygote_map m w w' :
  clock_only w w' -> clock_only (set_zygote_map m w) (set_zygote_map m w').
Proof. unfold clock_only. intros ->. destruct w; reflexivity. Qed.

Lemma check_zygote_entry_effect pid w :
  returns (check_zygote_entry env pid) w (fun continue w' t =>
    continue = true /\ entry_effect env pid w w' t).
Proof.
  unfold check_zygote_entry. mstep. mstep.
  destruct (pf_file (env (now w)) Cmdline pid) as [l |] eqn:Hfile.
  2: { mstep. split; [reflexivity |].
       apply E_skipped; [auto with monitor | simpl; rewrite Z.eqb_refl; reflexivity |].
       left. exists (now w). unfold reads_zygote. rewrite Hfile. reflexivity. }
  mstep.
  destruct (String.prefix "zygote" (fgets (proc_cmdline_path pid) l)) eqn:Hprefix.
  2: { msteps. split; [reflexivity |].
       apply E_skipped; [auto with monitor | simpl; rewrite Z.eqb_refl; reflexivity |].
       left. exists (now w). unfold reads_zygote. rewrite Hfile. exact Hprefix. }
  mstep. apply returns_parse_ppid. cbn [now tick].
  match goal with |- returns (if ?c then _ else _) _ _ => destruct c eqn:Hppid end.
  2: { msteps. split; [reflexivity |].
       apply E_skipped;
         [auto with monitor | simpl; rewrite !Z.eqb_refl; reflexivity |].
       right. left. exists (S (now w)). unfold child_of_init.
       destruct (pf_ppid (env (S (now w))) pid); [exact Hppid | reflexivity]. }
  assert (Hchild : child_of_init (env (S (now w))) (env (S (S (now w)))) pid
                   = true).
  { unfold child_of_init.
    destruct (pf_ppid (env (S (now w))) pid); [exact Hppid | discriminate Hppid]. }
  unfold new_zygote, xptrace, waitpid. mstep. mstep. cbn [now tick].
  destruct (pf_ns_mnt (env (S (S (now w)))) pid) as [st |] eqn:Hns.
  2: { msteps. split; [reflexivity |].
       apply E_skipped;
         [auto with monitor | simpl; rewrite !Z.eqb_refl; reflexivity |].
       right. right. exists (S (S (now w))). exact Hns. }
  mstep. mstep. cbn [zygote_map tick].
  destruct (zygote_map w !! pid) as [old |] eqn:Hold.
  - msteps. split; [reflexivity |].
    eapply E_adopted with (st := st) (n := S (S (now w)))
                          (reads := [_; _; _]);
      [ exists (now w); unfold reads_zygote; rewrite Hfile; exact Hprefix
      | exists (S (now w)); exact Hchild
      | exact Hns
      | unfold clock_only; destruct w; reflexivity
      |
      | rewrite Hold; reflexivity ].
    simpl. rewrite !Z.eqb_refl. reflexivity.
  - msteps. split; [reflexivity |].
    eapply E_adopted with (st := st) (n := S (S (now w)))
                          (reads := [_; _; _]);
      [ exists (now w); unfold reads_zygote; rewrite Hfile; exact Hprefix
      | exists (S (now w)); exact Hchild
      | exact Hns
      | unfold clock_only; destruct w; reflexivity
      |
      | rewrite Hold; reflexivity ].
    simpl. rewrite !Z.eqb_refl. reflexivity.
Qed.

Lemma clock_only_attaches w w' : clock_only w w' -> attaches w' = attaches w.
Proof. unfold clock_only. intros ->. reflexivity. Qed.

Lemma clock_only_fork_pid w w' : clock_only w w' -> fork_pid w' = fork_pid w.
Proof. unfold clock_only. intros ->. reflexivity. Qed.

Lemma scan_reads_attach pid p t :
  forallb (is_scan_read p) t = true -> count (is_attach pid) t = 0%nat.
Proof.
  unfold count. induction t as [| e t IH]; simpl; [reflexivity |].
  intros H. apply andb_prop in H as [He Ht].
  destruct e as [| f | | | | | | | | | | req | | | | | | | | | |];
    try discriminate He; try destruct f; try discriminate He;
    simpl; apply IH; exact Ht.
Qed.

Lemma scan_reads_trace_call pid p t :
  forallb (is_scan_read p) t = true -> count (is_trace_call pid) t = 0%nat.
Proof.
  unfold count. induction t as [| e t IH]; simpl; [reflexivity |].
  intros H. apply andb_prop in H as [He Ht].
  destruct e as [| f | | | | | | | | | | req | | | | | | | | | |];
    try discriminate He; try destruct f; try discriminate He;
    simpl; apply IH; exact Ht.
Qed.

Lemma adoption_calls_attach pid p :
  count (is_attach pid) (adoption_calls p) = if p =? pid then 1%nat else 0%nat.
Proof. unfold count. simpl. destruct (p =? pid); reflexivity. Qed.

Lemma entry_rescan_effect pid w w' t :
  entry_effect env pid w w' t -> rescan_effect w w' t.
Proof.
  intros [Hc Ht _ | st n reads _ _ Hns Hc Hreads ->].
  - unfold rescan_effect, registered.
    rewrite (clock_only_zygote_map _ _ Hc), (clock_only_attaches _ _ Hc),
      (clock_only_fork_pid _ _ Hc).
    repeat split; auto; intros q; try rewrite (scan_reads_attach q pid t Ht);
      intros; lia.
  - assert (Hcount : forall q,
      count (is_attach q)
        (reads ++ match zygote_map w !! pid with
                  | Some _ => []
                  | None => adoption_calls pid
                  end) =
      match zygote_map w !! pid with
      | Some _ => 0%nat
      | None => if pid =? q then 1%nat else 0%nat
      end).
    { intros q. rewrite count_app, (scan_reads_attach q pid reads Hreads).
      destruct (zygote_map w !! pid); [reflexivity | apply adoption_calls_attach]. }
    unfold rescan_effect, registered.
    rewrite (clock_only_zygote_map _ _ Hc), (clock_only_attaches _ _ Hc),
      (clock_only_fork_pid _ _ Hc).
    cbn [zygote_map attaches fork_pid set_zygote_map].
    split; [| split; [| split; [| split; [| split]]]]; try reflexivity.
    + intros q Hq. rewrite lookup_insert. case_decide; [eauto | exact Hq].
    + intros q Hq. rewrite Hcount.
      destruct (zygote_map w !! pid) eqn:E; [reflexivity |].
      destruct (pid =? q) eqn:Epq; [| reflexivity].
      apply Z.eqb_eq in Epq. subst q. rewrite E in Hq. destruct Hq as [? Hq].
      discriminate Hq.
    + intros q. rewrite Hcount.
      destruct (zygote_map w !! pid); [lia |]. destruct (pid =? q); lia.
    + intros q. rewrite Hcount. intros Hq.
      rewrite lookup_insert. case_decide; [eauto |].
      destruct (zygote_map w !! pid); [lia |].
      destruct (pid =? q) eqn:Epq; [apply Z.eqb_eq in Epq; congruence | lia].
Qed.

Lemma rescan_effect_nothing w : rescan_effect w w [].
Proof.
  unfold rescan_effect, count. simpl.
  repeat split; auto; intros; lia.
Qed.

Lemma rescan_effect_app w w1 w2 t1 t2 :
  rescan_effect w w1 t1 -> rescan_effect w1 w2 t2 ->
  rescan_effect w w2 (t1 ++ t2).
Proof.
  intros (Hk1 & Hn1 & Ho1 & Hi1 & Ha1 & Hf1) (Hk2 & Hn2 & Ho2 & Hi2 & Ha2 & Hf2).
  unfold rescan_effect.
  split; [| split; [| split; [| split; [| split]]]]; try congruence.
  - auto.
  - intros q Hq. rewrite count_app, (Hn1 q Hq), (Hn2 q (Hk1 q Hq)). reflexivity.
  - intros q. rewrite count_app. specialize (Ho1 q). specialize (Ho2 q).
    destruct (count (is_attach q) t1) as [| k] eqn:E; [lia |].
    rewrite (Hn2 q) by (apply Hk2 || apply Hi1; rewrite ?E; lia). lia.
  - intros q. rewrite count_app. intros Hq.
    destruct (count (is_attach q) t1) as [| k] eqn:E.
    + apply Hi2. lia.
    + apply Hk2, Hi1. rewrite E. lia.
Qed.

Lemma crawl_rescan_effect pids : forall w,
  returns (crawl (check_zygote_entry env) pids) w (fun _ w' t =>
    rescan_effect w w' t).
Proof.
  induction pids as [| pid pids IH]; intros w; simpl.
  - mstep. apply rescan_effect_nothing.
  - mstep. eapply returns_weaken; [apply check_zygote_entry_effect |].
    cbv beta. intros continue w1 t1 [-> H1].
    eapply returns_weaken; [apply IH |]. cbv beta.
    intros _ w2 t2 H2.
    eapply rescan_effect_app; [eapply entry_rescan_effect; exact H1 | exact H2].
Qed.

(** X6: a rescan keeps every spawner it had, trace-attaches none of them
    again, attaches a pid at most once even when procfs lists it
    twice, has every pid it attached in the registry afterwards, and
    leaves the bitmap and the pending-fork slot alone. *)
Theorem rescan_never_reattaches w :
  returns (check_zygote lp64 env) w (fun _ w' t =>
    (forall pid, registered pid w -> registered pid w') /\
    (forall pid, registered pid w -> count (is_attach pid) t = 0%nat) /\
    (forall pid, (count (is_attach pid) t <= 1)%nat) /\
    (forall pid, (1 <= count (is_attach pid) t)%nat -> registered pid w') /\
    attaches w' = attaches w /\ fork_pid w' = fork_pid w).
Proof.
  unfold check_zygote, crawl_procfs, setitimer_real. mstep. mstep. mstep.
  eapply returns_weaken; [apply crawl_rescan_effect |]. cbv beta.
  intros _ w1 t1 H1. mstep. mstep.
  assert (H : rescan_effect w w1 (([] ++ t1) ++ [] ++ [])).
  { simpl. rewrite !app_nil_r.
    destruct H1 as (Hk & Hn & Ho & Hi & Ha & Hf).
    unfold rescan_effect, registered in *. cbn [zygote_map attaches fork_pid tick] in *.
    auto 10. }
  destruct (is_zygote_done lp64 w1); msteps; exact H.
Qed.

Lemma is_zygote_at_reads s pid st :
  is_zygote_at s pid st -> reads_zygote s pid = true.
Proof.
  intros ((c & Hc & Hprefix) & _). unfold reads_zygote. rewrite Hc. exact Hprefix.
Qed.

Lemma is_zygote_at_child s s' pid st :
  is_zygote_at s pid st -> child_of_init s s' pid = true.
Proof. intros (_ & Hppid & _). unfold child_of_init. rewrite Hppid. reflexivity. Qed.

Lemma entry_keeps_found pid st q w w' t :
  (forall n, is_zygote_at (env n) pid st) ->
  entry_effect env q w w' t ->
  (q = pid -> zygote_map w' !! pid = Some st) /\
  (zygote_map w !! pid = Some st -> zygote_map w' !! pid = Some st).
Proof.
  intros Hz [Hc _ Hwhy | st' n reads _ _ Hns Hc _ _].
  - rewrite (clock_only_zygote_map _ _ Hc). split; [| auto].
    intros ->. exfalso. destruct Hwhy as [[n H] | [[n H] | [n H]]].
    + rewrite (is_zygote_at_reads _ _ _ (Hz n)) in H. discriminate H.
    + rewrite (is_zygote_at_child _ _ _ _ (Hz n)) in H. discriminate H.
    + destruct (Hz n) as (_ & _ & Hst). congruence.
  - rewrite (clock_only_zygote_map _ _ Hc). cbn [zygote_map set_zygote_map].
    split.
    + intros ->. destruct (Hz n) as (_ & _ & Hst).
      rewrite lookup_insert_eq. congruence.
    + intros Hfound. rewrite lookup_insert. case_decide; [| exact Hfound].
      subst q. destruct (Hz n) as (_ & _ & Hst). congruence.
Qed.

Lemma crawl_finds pid st pids : forall w,
  (forall n, is_zygote_at (env n) pid st) ->
  In pid pids \/ zygote_map w !! pid = Some st ->
  returns (crawl (check_zygote_entry env) pids) w (fun _ w' _ =>
    zygote_map w' !! pid = Some st).
Proof.
  induction pids as [| q pids IH]; intros w Hz Hin; simpl.
  - mstep. destruct Hin as [[] | H]. exact H.
  - mstep. eapply returns_weaken; [apply check_zygote_entry_effect |].
    cbv beta. intros continue w1 t1 [-> H1].
    destruct (entry_keeps_found pid st q w w1 t1 Hz H1) as [Hnew Hkeep].
    eapply returns_weaken; [apply IH; [exact Hz |] |].
    + destruct Hin as [[-> | Hin] | Hfound]; auto.
    + auto.
Qed.

(** X7: discovery finds the spawner: a process that procfs lists, whose
    command line starts with "zygote", whose parent is init and whose
    mount namespace can be examined is in the registry after the
    rescan, with its current fingerprint, whether it was known before
    or not. *)
Theorem rescan_finds_the_spawner w pid st :
  In pid (pf_pids (env (now w))) ->
  (forall n, is_zygote_at (env n) pid st) ->
  returns (check_zygote lp64 env) w (fun _ w' _ =>
    zygote_map w' !! pid = Some st).
Proof.
  intros Hin Hz.
  unfold check_zygote, crawl_procfs, setitimer_real. mstep. mstep. mstep.
  eapply returns_weaken; [apply (crawl_finds pid st); auto |]. cbv beta.
  intros _ w1 t1 H1. mstep. mstep.
  destruct (is_zygote_done lp64 w1); msteps; exact H1.
Qed.

Lemma proc_cmdline_path_not_zygote pid :
  String.prefix "zygote" (proc_cmdline_path pid) = false.
Proof. reflexivity. Qed.

Lemma never_zygote_cmdline_reads pid n :
  never_zygote_cmdline env pid -> reads_zygote (env n) pid = false.
Proof.
  intros H. specialize (H n). unfold reads_zygote.
  destruct (pf_file (env n) Cmdline pid) as [[c |] |].
  - exact H.
  - apply proc_cmdline_path_not_zygote.
  - reflexivity.
Qed.

Lemma never_child_of_init_parse pid n :
  never_child_of_init env pid ->
  child_of_init (env n) (env (S n)) pid = false.
Proof.
  intros H. specialize (H n). unfold child_of_init.
  destruct (pf_ppid (env n) pid) as [[ppid |] |].
  - simpl. apply Z.eqb_neq. exact H.
  - destruct H.
  - reflexivity.
Qed.

Lemma adoption_calls_trace_call pid p :
  p <> pid -> count (is_trace_call pid) (adoption_calls p) = 0%nat.
Proof.
  intros Hne. apply Z.eqb_neq in Hne. unfold count. simpl. rewrite Hne.
  reflexivity.
Qed.

Lemma entry_leaves_alone pid q w w' t :
  never_zygote_cmdline env pid \/ never_child_of_init env pid ->
  entry_effect env q w w' t ->
  zygote_map w' !! pid = zygote_map w !! pid /\
  count (is_trace_call pid) t = 0%nat.
Proof.
  intros Hnever [Hc Ht _ | st n reads [n1 Hr] [n2 Hp] _ Hc Hreads ->].
  - rewrite (clock_only_zygote_map _ _ Hc). split; [reflexivity |].
    exact (scan_reads_trace_call pid q t Ht).
  - assert (Hne : q <> pid).
    { intros ->. destruct Hnever as [H | H].
      - rewrite (never_zygote_cmdline_reads pid n1 H) in Hr. discriminate Hr.
      - rewrite (never_child_of_init_parse pid n2 H) in Hp. discriminate Hp. }
    rewrite (clock_only_zygote_map _ _ Hc). cbn [zygote_map set_zygote_map].
    split; [apply lookup_insert_ne; exact Hne |].
    rewrite count_app, (scan_reads_trace_call pid q reads Hreads).
    destruct (zygote_map w !! q); [reflexivity |].
    apply adoption_calls_trace_call. exact Hne.
Qed.

Lemma crawl_leaves_alone pid pids : forall w,
  never_zygote_cmdline env pid \/ never_child_of_init env pid ->
  returns (crawl (check_zygote_entry env) pids) w (fun _ w' t =>
    zygote_map w' !! pid = zygote_map w !! pid /\
    count (is_trace_call pid) t = 0%nat).
Proof.
  induction pids as [| q pids IH]; intros w Hnever; simpl.
  - mstep. split; reflexivity.
  - mstep. eapply returns_weaken; [apply check_zygote_entry_effect |].
    cbv beta. intros continue w1 t1 [-> H1].
    destruct (entry_leaves_alone pid q w w1 t1 Hnever H1) as [Hmap1 Hcount1].
    eapply returns_weaken; [apply IH; exact Hnever |]. cbv beta.
    intros _ w2 t2 [Hmap2 Hcount2]. split; [congruence |].
    rewrite count_app. lia.
Qed.

(** X8: a process that does not read as a spawner is never adopted: when
    its command line cannot be opened, is empty or does not start with
    "zygote", or when its parent is not init, a rescan leaves its
    registry entry (present or absent) as it was and makes no ptrace
    call and no wait for it. *)
Theorem rescan_ignores_other_processes w pid :
  never_zygote_cmdline env pid \/ never_child_of_init env pid ->
  returns (check_zygote lp64 env) w (fun _ w' t =>
    zygote_map w' !! pid = zygote_map w !! pid /\
    count (is_trace_call pid) t = 0%nat).
Proof.
  intros Hnever.
  unfold check_zygote, crawl_procfs, setitimer_real. mstep. mstep. mstep.
  eapply returns_weaken; [apply (crawl_leaves_alone pid); exact Hnever |].
  cbv beta. intros _ w1 t1 [Hmap Hcount]. mstep. mstep.
  assert (H : count (is_trace_call pid) (([] ++ t1) ++ [] ++ []) = 0%nat).
  { simpl. rewrite !app_nil_r. exact Hcount. }
  destruct (is_zygote_done lp64 w1); msteps; split; assumption.
Qed.

(** ** inotify *)

Lemma no_update_new_zygote pid : emits_only no_update_uid_map (new_zygote env pid).
Proof.
  unfold new_zygote, read_ns, xptrace, waitpid.
  repeat first [emits_case | emits_step].
Qed.

Lemma no_update_check_zygote_entry pid :
  emits_only no_update_uid_map (check_zygote_entry env pid).
Proof.
  unfold check_zygote_entry, open_read, parse_ppid.
  repeat first [emits_case | (intros; apply no_update_new_zygote) | emits_step].
Qed.

Lemma no_update_crawl pids :
  emits_only no_update_uid_map (crawl (check_zygote_entry env) pids).
Proof.
  induction pids as [| pid pids IH]; simpl;
    repeat first [ emits_case | (intros; apply no_update_check_zygote_entry)
                 | (intros; apply IH) | emits_step ].
Qed.

Lemma no_update_check_zygote :
  emits_only no_update_uid_map (check_zygote lp64 env).
Proof.
  unfold check_zygote, crawl_procfs, setitimer_real.
  repeat first [emits_case | (intros; apply no_update_crawl) | emits_step].
Qed.

Lemma no_update_count t :
  forallb no_update_uid_map t = true -> count is_update_uid_map t = 0%nat.
Proof.
  unfold count, no_update_uid_map. induction t as [| e t IH]; simpl; [reflexivity |].
  intros H. apply andb_prop in H as [He Ht]. apply negb_true_iff in He.
  rewrite He. apply IH. exact Ht.
Qed.

(** X9: the SIGIO handler.  When poll reports nothing to read it does
    nothing else: no read, no update_uid_map, no rescan.  Otherwise it
    reads one event, calls update_uid_map exactly when the event is a
    close-write on packages.xml (and then once, before the rescan),
    and runs check_zygote whatever the event was. *)
Theorem inotify_event_cases w :
  returns (inotify_event lp64 env) w (fun _ w' t =>
    if k_poll (env (now w)) <=? 0
    then t = [EPoll (inotify_fd w)] /\ clock_only w w'
    else
      exists w1 t',
        clock_only w w1 /\
        check_zygote lp64 env w1 = Some (tt, w', t') /\
        t = (EPoll (inotify_fd w) :: ERead (inotify_fd w)
             :: (if packages_written (k_inotify_read (env (S (now w))))
                 then [EUpdateUidMap] else []) ++ t')%list /\
        count is_update_uid_map t =
          if packages_written (k_inotify_read (env (S (now w))))
          then 1%nat else 0%nat).
Proof.
  unfold inotify_event. mstep. mstep. mstep. mstep. mstep. mstep.
  destruct (k_poll (env (now w)) <=? 0).
  { mstep. split; [reflexivity | auto with monitor]. }
  mstep. mstep. mstep. mstep. cbn [now tick]. mstep.
  fold (packages_written (k_inotify_read (env (S (now w))))).
  destruct (check_zygote_returns (tick (tick w))) as (a & w' & t' & Hrun & _).
  destruct a.
  pose proof (no_update_count _ (no_update_check_zygote _ _ _ _ Hrun)) as Hnone.
  destruct (packages_written (k_inotify_read (env (S (now w))))).
  - mstep. exists tt, w', t'. split; [exact Hrun |].
    exists (tick (tick w)), t'. split; [auto with monitor |].
    split; [exact Hrun |]. split; [reflexivity |].
    simpl. unfold count in *. simpl. rewrite Hnone. reflexivity.
  - mstep. exists tt, w', t'. split; [exact Hrun |].
    exists (tick (tick w)), t'. split; [auto with monitor |].
    split; [exact Hrun |]. split; [reflexivity |].
    simpl. unfold count in *. simpl. exact Hnone.
Qed.

(** X10: setup_inotify.  When inotify_init1 fails nothing is watched and
    inotify_fd keeps the negative result.  Otherwise the descriptor is
    open, set up for asynchronous I/O, and watches /data/system for
    close-write; then, by the two calls of access: app_process32 when
    it exists, and app_process64 after it when that exists too; plain
    app_process when app_process32 does not exist, app_process64 being
    neither tested nor watched then. *)
Theorem setup_inotify_watches w :
  returns (setup_inotify env) w (fun _ w' t =>
    let fd := k_inotify_init1 (env (now w)) in
    let exists32 := k_access (env (S (now w))) (APP_PROC +:+ "32") =? 0 in
    let exists64 := k_access (env (S (S (now w)))) (APP_PROC +:+ "64") =? 0 in
    let watch path := EInotifyAddWatch fd path IN_ACCESS in
    inotify_fd w' = fd /\
    zygote_map w' = zygote_map w /\ attaches w' = attaches w /\
    if fd <? 0
    then t = [EInotifyInit fd] /\ open_fds w' = open_fds w /\ now w' = S (now w)
    else open_fds w' = {[fd]} ∪ open_fds w /\
         t = ([EInotifyInit fd; EFcntlAsync fd;
               EInotifyAddWatch fd "/data/system" IN_CLOSE_WRITE]
              ++ (if exists32
                  then watch (APP_PROC +:+ "32")
                       :: (if exists64 then [watch (APP_PROC +:+ "64")] else [])
                  else [watch APP_PROC]))%list /\
         now w' = if exists32 then S (S (S (now w))) else S (S (now w))).
Proof.
  unfold setup_inotify, inotify_add_watch, access.
  mstep. mstep. mstep. mstep. mstep. mstep. cbv zeta.
  destruct (k_inotify_init1 (env (now w)) <? 0).
  { mstep. repeat split. }
  mstep. mstep. mstep. mstep. mstep. mstep. mstep. mstep.
  cbn [now tick set_inotify_fd set_open_fds].
  destruct (k_access (env (S (now w))) (APP_PROC +:+ "32") =? 0).
  - mstep. mstep. mstep. mstep.
    cbn [now tick set_inotify_fd set_open_fds].
    destruct (k_access (env (S (S (now w)))) (APP_PROC +:+ "64") =? 0);
      mstep; repeat split.
  - mstep. repeat split.
Qed.

(** ** The loop: what a turn keeps *)

Lemma loop_kept_refl w : loop_kept w w.
Proof. unfold loop_kept. repeat split; reflexivity. Qed.

Lemma loop_kept_trans w1 w2 w3 :
  loop_kept w1 w2 -> loop_kept w2 w3 -> loop_kept w1 w3.
Proof.
  intros (H1 & H2 & H3 & H4 & H5) (H6 & H7 & H8 & H9 & H10).
  unfold loop_kept. repeat split; try congruence.
  etransitivity; eassumption.
Qed.

Lemma loop_kept_same w w' :
  itimer_real w' = itimer_real w -> sig_handlers w' = sig_handlers w ->
  inotify_fd w' = inotify_fd w -> open_fds w' = open_fds w ->
  zygote_map w' = zygote_map w -> loop_kept w w'.
Proof.
  intros H1 H2 H3 H4 H5. unfold loop_kept. rewrite H5. repeat split; auto.
Qed.




Ltac frame_with refl trans same :=
  intros;
  first [ apply frame_ret | apply frame_get | apply frame_emit
        | apply frame_peek | apply frame_pid_set_get | apply frame_pid_set_put
        | apply frame_observe | apply frame_modify | apply frame_bind ];
  try exact refl; try exact trans;
  try (intros; apply same; reflexivity).

Ltac loop_step := frame_with loop_kept_refl loop_kept_trans loop_kept_same.

Lemma loop_kept_detach_pid pid sig : frame loop_kept (detach_pid lp64 pid sig).
Proof. unfold detach_pid, xptrace. repeat loop_step. Qed.

Lemma loop_kept_is_process pid : frame loop_kept (is_process env pid).
Proof. unfold is_process. repeat loop_step. frame_case; loop_step. Qed.



Lemma proc_monitor_iteration_loop_kept orig_mask :
  frame loop_kept (proc_monitor_iteration lp64 WEVENT SIGTERMTHRD env orig_mask).
Proof.
  unfold proc_monitor_iteration, pthread_sigmask, xptrace,
    new_daemon_thread_do_check_fork.
  loop_step. { loop_step. }
  loop_step. { loop_step. }
  loop_step. { loop_step. }
  intros _.
  match goal with a : (Z * Z * Z)%type |- _ => destruct a as [[pid status] errno] end.
  frame_case.
  { frame_case; loop_step. }
  loop_step. { loop_step. }
  frame_case; [apply loop_kept_detach_pid |].
  frame_case.
  - loop_step. { loop_step. }
    loop_step. { loop_step. }
    loop_step. { loop_step. }
    frame_case; [| apply loop_kept_detach_pid].
    frame_case.
    + loop_step. { loop_step. }
      loop_step. { loop_step. }
      loop_step. { apply loop_kept_detach_pid. }
      loop_step; loop_step.
    + loop_step; [| intros; apply loop_kept_detach_pid].
      apply frame_modify. intros w'. unfold loop_kept.
      cbn [zygote_map itimer_real sig_handlers inotify_fd open_fds set_zygote_map].
      repeat split. apply delete_subseteq.
  - frame_case; [| loop_step].
    loop_step. { loop_step. }
    loop_step.
    { frame_case.
      - loop_step; [apply loop_kept_is_process | loop_step].
      - loop_step. }
    loop_step. { loop_step. }
    frame_case.
    + loop_step; loop_step.
    + apply loop_kept_detach_pid.
Qed.



(** ** The loop: the rows that end a trace or pass a signal on *)

(** X12: a wait that fails does no bookkeeping at all: the turn makes no
    ptrace call and writes nothing but the signal mask, where the three
    signals stay unblocked.  It sleeps exactly when errno is ECHILD. *)
Theorem failed_wait_turn orig_mask w pid status errno :
  k_waitpid_any (env (now w)) = (pid, status, errno) ->
  pid < 0 ->
  returns (proc_monitor_iteration lp64 WEVENT SIGTERMTHRD env orig_mask) w
    (fun _ w' t =>
       t = EWaitAny (pid, status, errno)
           :: (if errno =? ECHILD then [ENanosleep] else []) /\
       w' = tick (set_sig_mask
                    (Z.ldiff (sig_mask w) (unblock_set SIGTERMTHRD)) w)).
Proof.
  intros Hwait Hpid.
  unfold proc_monitor_iteration. mstep. mstep. mstep. mstep.
  cbn [now set_sig_mask]. rewrite Hwait. mstep. mstep.
  apply Z.ltb_lt in Hpid. rewrite Hpid.
  destruct (errno =? ECHILD); mstep; split; reflexivity.
Qed.

(** X13: a pid that is reported for anything but a stop (it exited or was
    killed), and a ptrace-event-stop of a pid that is not in the
    registry, end the same way: the pid is detached with signal 0 and
    its bit is cleared.  It is never resumed with PTRACE_CONT, no
    worker is started, and the registry and the pending slot are left
    as they were. *)
Theorem stray_report_is_detached orig_mask w pid status errno :
  k_waitpid_any (env (now w)) = (pid, status, errno) ->
  1 <= pid <= PID_MAX ->
  WIFSTOPPED status = false \/
  (WSTOPSIG status = SIGTRAP /\ WEVENT status <> 0 /\
   zygote_map w !! pid = None) ->
  returns (proc_monitor_iteration lp64 WEVENT SIGTERMTHRD env orig_mask) w
    (fun _ w' t =>
       Z.testbit (attaches w') (pid - 1) = false /\
       (forall q, q <> pid - 1 ->
          Z.testbit (attaches w') q = Z.testbit (attaches w) q) /\
       zygote_map w' = zygote_map w /\
       fork_pid w' = fork_pid w /\
       t = (EWaitAny (pid, status, errno)
            :: (if WIFSTOPPED status
                then [EPtrace PTRACE_GETEVENTMSG pid
                        (k_eventmsg (env (S (now w))) pid)]
                else [])
            ++ [EPtrace PTRACE_DETACH pid 0])%list).
Proof.
  intros Hwait Hrange Hrow.
  assert (Hidx : 0 <= pid - 1) by lia.
  unfold proc_monitor_iteration. mstep. mstep. mstep. mstep.
  cbn [now set_sig_mask]. rewrite Hwait. mstep. mstep.
  destruct (pid <? 0) eqn:E; [apply Z.ltb_lt in E; lia |].
  mstep. mstep.
  destruct (WIFSTOPPED status) eqn:Hstopped; cbn [negb]; cbv iota.
  - destruct Hrow as [Hrow | (Hsig & Hev & Hnone)]; [discriminate |].
    rewrite Hsig, Z.eqb_refl. apply Z.eqb_neq in Hev. rewrite Hev.
    cbn [andb negb]. cbv iota.
    mstep. mstep. cbn [now set_sig_mask tick].
    mstep. mstep. mstep. mstep.
    cbn [zygote_map set_sig_mask tick].
    rewrite bool_decide_eq_false_2
      by (rewrite Hnone; intros [x Hx]; discriminate).
    cbv iota.
    eexists _, _, _. split; [apply detach_pid_in_range; exact Hrange |].
    cbn [attaches zygote_map fork_pid set_attaches set_sig_mask tick app].
    split; [apply Z.clearbit_eq; exact Hidx |].
    split; [intros q Hq; apply Z.clearbit_neq; congruence |].
    repeat split.
  - eexists _, _, _. split; [apply detach_pid_in_range; exact Hrange |].
    cbn [attaches zygote_map fork_pid set_attaches set_sig_mask tick app].
    split; [apply Z.clearbit_eq; exact Hidx |].
    split; [intros q Hq; apply Z.clearbit_neq; congruence |].
    repeat split.
Qed.

(** X14: a stop the monitor did not cause is transparent to the traced
    process: a signal other than SIGSTOP, and a SIGTRAP that carries
    no ptrace event, is put back with the one call PTRACE_CONT; the
    bitmap, the registry and the pending slot are not touched. *)
Theorem foreign_signal_is_passed_on orig_mask w pid status errno :
  k_waitpid_any (env (now w)) = (pid, status, errno) ->
  0 <= pid ->
  WIFSTOPPED status = true ->
  WSTOPSIG status <> SIGSTOP ->
  WSTOPSIG status <> SIGTRAP \/ WEVENT status = 0 ->
  returns (proc_monitor_iteration lp64 WEVENT SIGTERMTHRD env orig_mask) w
    (fun _ w' t =>
       t = [EWaitAny (pid, status, errno);
            EPtrace PTRACE_CONT pid (WSTOPSIG status)] /\
       attaches w' = attaches w /\
       zygote_map w' = zygote_map w /\
       fork_pid w' = fork_pid w).
Proof.
  intros Hwait Hpid Hstopped Hstop Hrow.
  unfold proc_monitor_iteration. mstep. mstep. mstep. mstep.
  cbn [now set_sig_mask]. rewrite Hwait. mstep. mstep.
  destruct (pid <? 0) eqn:E; [apply Z.ltb_lt in E; lia |].
  mstep. mstep. rewrite Hstopped. cbn [negb]. cbv iota.
  assert (Hsel : (WSTOPSIG status =? SIGTRAP) && negb (WEVENT status =? 0)
                 = false).
  { destruct Hrow as [Hrow | ->].
    - apply Z.eqb_neq in Hrow. rewrite Hrow. reflexivity.
    - rewrite Z.eqb_refl. apply andb_false_r. }
  rewrite Hsel. apply Z.eqb_neq in Hstop. rewrite Hstop. cbv iota.
  unfold xptrace. mstep.
  cbn [attaches zygote_map fork_pid set_sig_mask tick app].
  repeat split.
Qed.

(** ** The loop: how the bitmap changes *)






(** ** Start-up *)

Lemma rescan_kept_refl w : rescan_kept w w.
Proof. unfold rescan_kept. repeat split; reflexivity. Qed.

Lemma rescan_kept_trans w1 w2 w3 :
  rescan_kept w1 w2 -> rescan_kept w2 w3 -> rescan_kept w1 w3.
Proof.
  intros (H1 & H2 & H3 & H4 & H5 & H6) (H7 & H8 & H9 & H10 & H11 & H12).
  unfold rescan_kept. repeat split; congruence.
Qed.

Lemma rescan_kept_same w w' :
  sig_handlers w' = sig_handlers w -> sig_mask w' = sig_mask w ->
  attaches w' = attaches w -> fork_pid w' = fork_pid w ->
  inotify_fd w' = inotify_fd w -> open_fds w' = open_fds w ->
  rescan_kept w w'.
Proof. unfold rescan_kept. auto 10. Qed.

Ltac rescan_step :=
  frame_with rescan_kept_refl rescan_kept_trans rescan_kept_same.

Lemma rescan_kept_entry pid : frame rescan_kept (check_zygote_entry env pid).
Proof.
  unfold check_zygote_entry, open_read, parse_ppid, new_zygote, read_ns,
    xptrace, waitpid.
  rescan_step. { repeat rescan_step. }
  frame_case; [| rescan_step].
  rescan_step; [| rescan_step].
  frame_case; [| rescan_step].
  rescan_step.
  { rescan_step. { rescan_step. }
    rescan_step. { rescan_step. }
    frame_case; repeat rescan_step. }
  frame_case; [| rescan_step].
  rescan_step. { repeat rescan_step. }
  frame_case; [| rescan_step].
  rescan_step. { rescan_step. }
  frame_case; repeat rescan_step.
Qed.

Lemma rescan_kept_crawl pids :
  frame rescan_kept (crawl (check_zygote_entry env) pids).
Proof.
  induction pids as [| pid pids IH]; simpl.
  - rescan_step.
  - rescan_step; [apply rescan_kept_entry |].
    frame_case; [exact IH | rescan_step].
Qed.

Lemma rescan_kept_check_zygote : frame rescan_kept (check_zygote lp64 env).
Proof.
  unfold check_zygote, crawl_procfs, setitimer_real.
  rescan_step.
  { rescan_step; [rescan_step | intros; apply rescan_kept_crawl]. }
  rescan_step. { rescan_step. }
  frame_case; rescan_step.
Qed.

Lemma returns_frame (R : world -> world -> Prop) {A} (m : M A) w
    (Q : A -> world -> list event -> Prop) :
  returns m w Q -> frame R m ->
  returns m w (fun a w' t => Q a w' t /\ R w w').
Proof.
  intros (a & w' & t & Hrun & HQ) Hframe.
  exists a, w', t. split; [exact Hrun |].
  split; [exact HQ | exact (Hframe _ _ _ _ Hrun)].
Qed.

Lemma setup_inotify_keeps w :
  returns (setup_inotify env) w (fun _ w' _ =>
    inotify_fd w' = k_inotify_init1 (env (now w)) /\
    sig_handlers w' = sig_handlers w /\ sig_mask w' = sig_mask w /\
    attaches w' = attaches w /\ fork_pid w' = fork_pid w /\
    open_fds w' = if k_inotify_init1 (env (now w)) <? 0 then open_fds w
                  else {[k_inotify_init1 (env (now w))]} ∪ open_fds w).
Proof.
  unfold setup_inotify, inotify_add_watch, access. mstep. mstep. mstep. mstep.
  mstep. mstep.
  destruct (k_inotify_init1 (env (now w)) <? 0); [msteps; repeat split |].
  mstep. mstep. mstep. mstep. mstep. mstep. mstep. mstep.
  match goal with |- returns (if ?c then _ else _) _ _ => destruct c end;
    [| msteps; repeat split].
  mstep. mstep. mstep. mstep.
  match goal with |- returns (if ?c then _ else _) _ _ => destruct c end;
    msteps; repeat split.
Qed.

(** X16: start-up hands the loop the caller's signal mask and returns with
    that mask in place again, the temporary unblocking undone.  The
    three signals have their handlers (term_thread, inotify_event,
    check_zygote) and no other signal's disposition is written; the
    bitmap and the pending slot are not written either.  A failure of
    inotify_init1 is recorded in inotify_fd and does not stop the
    start-up. *)
Theorem start_up_installs_handlers w :
  SIGTERMTHRD <> SIGIO ->
  SIGTERMTHRD <> SIGALRM ->
  returns (proc_monitor_init lp64 SIGTERMTHRD env) w (fun orig_mask w' _ =>
    orig_mask = sig_mask w /\
    sig_mask w' = sig_mask w /\
    sig_handlers w' !! SIGTERMTHRD = Some H_term_thread /\
    sig_handlers w' !! SIGIO = Some H_inotify_event /\
    sig_handlers w' !! SIGALRM = Some H_check_zygote /\
    (forall sig, sig <> SIGTERMTHRD -> sig <> SIGIO -> sig <> SIGALRM ->
       sig_handlers w' !! sig = sig_handlers w !! sig) /\
    attaches w' = attaches w /\
    fork_pid w' = fork_pid w /\
    inotify_fd w' = k_inotify_init1 (env (now w))).
Proof.
  intros Hio Halrm.
  assert (Hdiff : SIGIO <> SIGALRM) by (vm_compute; discriminate).
  unfold proc_monitor_init, sigaction, pthread_sigmask, setitimer_real.
  do 19 mstep.
  eapply returns_weaken; [apply setup_inotify_keeps |]. cbv beta.
  intros _ w1 _ (Hfd & Hh & Hm & Ha & Hf & _). mstep.
  eapply returns_weaken;
    [apply (returns_frame rescan_kept);
       [apply check_zygote_returns | apply rescan_kept_check_zygote] |].
  cbv beta.
  intros _ w2 _ (_ & Hh2 & Hm2 & Ha2 & Hf2 & Hfd2 & _).
  cbn [now sig_handlers sig_mask attaches fork_pid
       set_sig_handlers set_sig_mask] in Hfd, Hh, Hm, Ha, Hf.
  assert (Hend : sig_mask w2 = sig_mask w /\
    sig_handlers w2 !! SIGTERMTHRD = Some H_term_thread /\
    sig_handlers w2 !! SIGIO = Some H_inotify_event /\
    sig_handlers w2 !! SIGALRM = Some H_check_zygote /\
    (forall sig, sig <> SIGTERMTHRD -> sig <> SIGIO -> sig <> SIGALRM ->
       sig_handlers w2 !! sig = sig_handlers w !! sig) /\
    attaches w2 = attaches w /\ fork_pid w2 = fork_pid w /\
    inotify_fd w2 = k_inotify_init1 (env (now w))).
  { rewrite Hm2, Hh2, Ha2, Hf2, Hfd2, Hm, Hh, Ha, Hf, Hfd.
    split; [reflexivity |].
    split. { rewrite !lookup_insert_ne by congruence. apply lookup_insert_eq. }
    split. { rewrite lookup_insert_ne by congruence. apply lookup_insert_eq. }
    split. { apply lookup_insert_eq. }
    split. { intros sig H1 H2 H3. rewrite !lookup_insert_ne by congruence.
             reflexivity. }
    repeat split. }
  mstep. mstep. mstep.
  destruct (is_zygote_done lp64 w2); cbn [negb]; cbv iota; msteps;
    cbn [sig_mask sig_handlers attaches fork_pid inotify_fd set_itimer_real];
    (split; [reflexivity | exact Hend]).
Qed.

(** ** From start-up to termination *)

Lemma frame_weaken (R R' : world -> world -> Prop) {A} (m : M A) :
  (forall w w', R w w' -> R' w w') -> frame R m -> frame R' m.
Proof. intros H Hm w a w' t Hrun. apply H. exact (Hm _ _ _ _ Hrun). Qed.

Lemma rescan_kept_inotify_event : frame rescan_kept (inotify_event lp64 env).
Proof.
  unfold inotify_event.
  rescan_step. { rescan_step. }
  rescan_step. { rescan_step. }
  rescan_step. { rescan_step. }
  frame_case; [rescan_step |].
  rescan_step. { rescan_step. }
  rescan_step. { rescan_step. }
  rescan_step; [frame_case; rescan_step |].
  intros; apply rescan_kept_check_zygote.
Qed.

Lemma fd_kept_perform orig_mask a :
  frame fd_kept (perform lp64 WEVENT SIGTERMTHRD env orig_mask a).
Proof.
  destruct a; simpl.
  - eapply frame_weaken; [| apply proc_monitor_iteration_loop_kept].
    intros w w' (_ & _ & H1 & H2 & _). split; assumption.
  - eapply frame_weaken; [| apply rescan_kept_check_zygote].
    intros w w' (_ & _ & _ & _ & H1 & H2). split; assumption.
  - eapply frame_weaken; [| apply rescan_kept_inotify_event].
    intros w w' (_ & _ & _ & _ & H1 & H2). split; assumption.
Qed.

Lemma fd_kept_perform_all orig_mask l :
  frame fd_kept (perform_all lp64 WEVENT SIGTERMTHRD env orig_mask l).
Proof.
  induction l as [| a l IH]; simpl.
  - apply frame_ret. intros w. split; reflexivity.
  - apply frame_bind.
    + intros w1 w2 w3 [H1 H2] [H3 H4]. split; congruence.
    + apply fd_kept_perform.
    + intros _. exact IH.
Qed.

Lemma proc_monitor_init_fds w :
  returns (proc_monitor_init lp64 SIGTERMTHRD env) w (fun _ w' _ =>
    inotify_fd w' = k_inotify_init1 (env (now w)) /\
    open_fds w' = if k_inotify_init1 (env (now w)) <? 0 then open_fds w
                  else {[k_inotify_init1 (env (now w))]} ∪ open_fds w).
Proof.
  unfold proc_monitor_init, sigaction, pthread_sigmask, setitimer_real.
  do 19 mstep.
  eapply returns_weaken; [apply setup_inotify_keeps |]. cbv beta.
  intros _ w1 _ (Hfd & _ & _ & _ & _ & Hopen). mstep.
  eapply returns_weaken;
    [apply (returns_frame rescan_kept);
       [apply check_zygote_returns | apply rescan_kept_check_zygote] |].
  cbv beta.
  intros _ w2 _ (_ & _ & _ & _ & _ & Hfd2 & Hopen2).
  cbn [now open_fds set_sig_handlers set_sig_mask] in Hfd, Hopen.
  rewrite <- Hfd2 in Hfd. rewrite <- Hopen2 in Hopen.
  mstep. mstep. mstep.
  destruct (is_zygote_done lp64 w2); cbn [negb]; cbv iota; msteps;
    cbn [inotify_fd open_fds set_itimer_real]; split; assumption.
Qed.

(** X17: from start-up to termination no descriptor is leaked.  Whatever
    turns of the loop, rescans and inotify events a run of the monitor
    went through, term_thread then closes the one descriptor start-up
    opened: the descriptor table is the one before start-up without
    that descriptor, and inotify_fd is -1.  When inotify_init1 failed,
    the table is the one before start-up. *)
Theorem termination_closes_inotify l w w1 t :
  proc_monitor lp64 WEVENT SIGTERMTHRD env l w = Some (tt, w1, t) ->
  returns (term_thread SIGTERMTHRD) w1 (fun _ w2 t2 =>
    let fd := k_inotify_init1 (env (now w)) in
    inotify_fd w2 = -1 /\
    open_fds w2 = (if fd <? 0 then open_fds w else open_fds w ∖ {[fd]}) /\
    t2 = [EClose fd; EPthreadExit]).
Proof.
  intros Hrun. unfold proc_monitor in Hrun.
  apply bind_Some in Hrun as (orig & w0 & t0 & t1 & Hinit & Hloop & _).
  destruct (returns_inv _ _ _ _ _ _ (proc_monitor_init_fds w) Hinit)
    as [Hfd Hopen].
  destruct (fd_kept_perform_all _ _ _ _ _ _ Hloop) as [Hfd1 Hopen1].
  exists tt, (terminated SIGTERMTHRD w1), [EClose (inotify_fd w1); EPthreadExit].
  split; [apply term_thread_eq |].
  cbv zeta. unfold terminated. cbn [inotify_fd open_fds].
  rewrite Hfd1, Hopen1, Hfd, Hopen.
  split; [reflexivity |]. split; [| reflexivity].
  destruct (k_inotify_init1 (env (now w)) <? 0); [reflexivity |].
  apply set_eq. intros x.
  rewrite !elem_of_difference, elem_of_union, elem_of_singleton.
  split.
  - intros [[H | H] Hx]; [contradiction | split; assumption].
  - intros [H Hx]. split; [right; exact H | exact Hx].
Qed.

(** ** is_process: a status file without the key *)






End Properties.

(** * Runs of the scenarios *)

(** C1, counterexample: start-up finds the one spawner a 32-bit system
    expects and leaves the timer disarmed; the spawner then exits; the
    registry is empty, below the expected count, and the timer is not
    armed. *)
Lemma timer_not_rearmed_after_spawner_loss :
  exists w' t,
    proc_monitor false WEVENT_bits SIGUSR1
      (fun _ => zygote_snapshot (event_stop PTRACE_EVENT_EXIT))
      [Iteration] fresh_world = Some (tt, w', t) /\
    ~ (timer_armed w' = true <->
       (size (zygote_map w') < expected_zygotes false)%nat).
Proof.
  eexists _, _. split; [vm_compute; reflexivity |].
  intros [_ H].
  assert (Harmed : false = true) by (apply H; vm_compute; lia).
  discriminate Harmed.
Qed.

Lemma armed_timer_witness :
  (exists w' t,
     proc_monitor false WEVENT_bits SIGUSR1 (fun _ => empty_snapshot)
       [Alarm; Iteration] fresh_world = Some (tt, w', t) /\
     timer_armed w' = true /\
     (size (zygote_map w') < expected_zygotes false)%nat) /\
  returns (proc_monitor_iteration true WEVENT_bits SIGUSR1
             (fun _ => zygote_snapshot (event_stop PTRACE_EVENT_EXIT)) 0)
    zygote_world
    (fun _ w' _ =>
       zygote_map w' = delete 100 (zygote_map zygote_world) /\
       timer_armed w' = timer_armed zygote_world).
Proof.
  split.
  - destruct (proc_monitor false WEVENT_bits SIGUSR1 (fun _ => empty_snapshot)
                [Alarm; Iteration] fresh_world) as [[[[] w'] t] |] eqn:Hrun;
      [| vm_compute in Hrun; discriminate Hrun].
    exists w', t. split; [reflexivity |].
    assert (Harmed : timer_armed w' = true)
      by (vm_compute in Hrun; injection Hrun as <- _; reflexivity).
    split; [exact Harmed |].
    exact (proj1 (proj2 (armed_timer_means_incomplete_registry
                           false WEVENT_bits SIGUSR1 (fun _ => empty_snapshot)))
             [Alarm; Iteration] fresh_world w' t Hrun Harmed).
  - apply (proj2 (proj2 (proj2 (armed_timer_means_incomplete_registry
                                  true WEVENT_bits SIGUSR1
                                  (fun _ => zygote_snapshot
                                              (event_stop PTRACE_EVENT_EXIT)))))
             0 zygote_world 100 (event_stop PTRACE_EVENT_EXIT) 0).
    + reflexivity.
    + unfold PID_MAX. lia.
    + reflexivity.
    + reflexivity.
    + vm_compute. discriminate.
    + vm_compute. discriminate.
    + vm_compute. discriminate.
    + exists F1. reflexivity.
Defined.

(** C2, counterexample: the child is gone when the worker looks at it
    (stat of /proc/1100 fails); the worker returns having neither
    resumed the child nor handed it to hide_daemon. *)
Lemma dead_child_neither_resumed_nor_handed_over :
  exists w' t,
    do_check_fork true target_predicate (fun _ => empty_snapshot)
      (registry_world 1100) = Some (tt, w', t) /\
    ~ ((resumes 1100 t = 1 /\ handovers 1100 t = 0) \/
       (resumes 1100 t = 0 /\ handovers 1100 t = 1))%nat.
Proof.
  eexists _, _. split; [vm_compute; reflexivity |].
  vm_compute. intros [[H _] | [_ H]]; discriminate H.
Qed.

Lemma inspector_witness :
  1 <= fork_pid (registry_world 1100) <= PID_MAX /\
  exists w' t,
    do_check_fork true target_predicate (fun _ => child_snapshot (Some F2))
      (registry_world 1100) = Some (tt, w', t) /\
    stops 1100 t = 1%nat /\
    (resumes 1100 t + handovers 1100 t = 1)%nat.
Proof.
  assert (Hrange : 1 <= fork_pid (registry_world 1100) <= PID_MAX)
    by (vm_compute; split; discriminate).
  split; [exact Hrange |].
  destruct (inspector_resumes_or_hands_over_at_most_once
              true target_predicate (fun _ => child_snapshot (Some F2))
              (registry_world 1100) Hrange)
    as ([] & w' & t & Hrun & _ & _ & Hone & _).
  exists w', t. split; [exact Hrun |].
  vm_compute in Hrun. injection Hrun as <- <-.
  split; [reflexivity | apply Hone; reflexivity].
Defined.


(** C4, counterexample: is_hide_target classifies the child as a
    target, and the mount namespace read for it is still the one of
    spawner 1000; the inspector resumes the child with SIGCONT and
    does not hand it to hide_daemon. *)
Lemma target_in_shared_namespace_is_resumed :
  exists w' t,
    do_check_fork true target_predicate (fun _ => child_snapshot (Some F1))
      (registry_world 1100) = Some (tt, w', t) /\
    ~ (forall uid cmdline,
         In (EIsHideTarget uid cmdline 95) t ->
         target_predicate uid cmdline 95 = true ->
         resumes 1100 t = 0%nat /\ handovers 1100 t = 1%nat).
Proof.
  eexists _, _. split; [vm_compute; reflexivity |].
  intros H.
  destruct (H 10050 "com.example.target") as [Hres _].
  - do 6 right. left. reflexivity.
  - reflexivity.
  - vm_compute in Hres. discriminate Hres.
Qed.

Lemma stop_precedes_classification_witness :
  1 <= fork_pid (registry_world 1100) <= PID_MAX /\
  exists w' t,
    do_check_fork true target_predicate (fun _ => child_snapshot (Some F2))
      (registry_world 1100) = Some (tt, w', t) /\
    In (EHideDaemon 1100) t /\
    stops 1100 t = 1%nat /\ handovers 1100 t = 1%nat /\ resumes 1100 t = 0%nat.
Proof.
  assert (Hrange : 1 <= fork_pid (registry_world 1100) <= PID_MAX)
    by (vm_compute; split; discriminate).
  split; [exact Hrange |].
  destruct (stop_precedes_classification
              true target_predicate (fun _ => child_snapshot (Some F2))
              (registry_world 1100) Hrange)
    as ([] & w' & t & Hrun & _ & Htarget & Hclass & _).
  exists w', t. split; [exact Hrun |].
  vm_compute in Hrun. injection Hrun as <- <-.
  assert (Hin : In (EHideDaemon 1100)
                  [EPtrace PTRACE_DETACH 1100 0;
                   EStatProc 1100 (Some proc_dir_1100);
                   EOpenRead AttrCurrent 1100
                     (Some (Some "u:r:untrusted_app:s0:c50,c256,c512,c768"));
                   EOpenRead Cmdline 1100 (Some (Some "com.example.target"));
                   EOpenRead Cmdline 1100 (Some (Some "com.example.target"));
                   EKill 1100 19;
                   EIsHideTarget 10050 "com.example.target" 95;
                   EReadNs 1100 (Some F2); EHideDaemon 1100]).
  { apply (Hclass 10050 "com.example.target" F2).
    - do 6 right. left. reflexivity.
    - reflexivity.
    - do 7 right. left. reflexivity.
    - reflexivity. }
  split; [exact Hin | exact (Htarget Hin)].
Defined.

Lemma new_zygote_witness :
  new_zygote (fun _ => zygote_snapshot 0) 55 fresh_world =
    Some (tt, tick fresh_world, [EReadNs 55 None]) /\
  new_zygote (fun _ => zygote_snapshot 0) 100 zygote_world =
    Some (tt, set_zygote_map (<[100 := F1]> (zygote_map zygote_world))
                (tick zygote_world),
          [EReadNs 100 (Some F1)]) /\
  new_zygote (fun _ => zygote_snapshot 0) 100 fresh_world =
    Some (tt, set_zygote_map (<[100 := F1]> (zygote_map fresh_world))
                (tick fresh_world),
          [EReadNs 100 (Some F1);
           EPtrace PTRACE_ATTACH 100 0;
           EWaitpid 100 (Z.lor WALL WNOTHREAD);
           EPtrace PTRACE_SETOPTIONS 100 zygote_options;
           EPtrace PTRACE_CONT 100 0]).
Proof.
  split; [| split].
  - apply (proj1 (new_zygote_cases (fun _ => zygote_snapshot 0) 55 fresh_world)).
    reflexivity.
  - apply (proj1 (proj2 (new_zygote_cases (fun _ => zygote_snapshot 0) 100
                           zygote_world)) F1).
    + reflexivity.
    + exists F1. reflexivity.
  - apply (proj2 (proj2 (new_zygote_cases (fun _ => zygote_snapshot 0) 100
                           fresh_world)) F1).
    + reflexivity.
    + reflexivity.
Defined.

Lemma fork_event_witness :
  returns (proc_monitor_iteration true WEVENT_bits SIGUSR1
             (fun _ => zygote_snapshot (event_stop PTRACE_EVENT_FORK)) 0)
    zygote_world
    (fun _ w' t =>
       fork_pid w' = 1100 /\
       Z.testbit (attaches w') (1100 - 1) = false /\
       zygote_map w' = zygote_map zygote_world /\
       t = [EWaitAny (100, event_stop PTRACE_EVENT_FORK, 0);
            EPtrace PTRACE_GETEVENTMSG 100 1100;
            EPtrace PTRACE_DETACH 1100 0;
            ENewDaemonThreadCheckFork;
            EPtrace PTRACE_CONT 100 0] /\
       returns (do_check_fork true target_predicate
                  (fun _ => zygote_snapshot (event_stop PTRACE_EVENT_FORK))) w'
         (fun _ w'' t' =>
            fork_pid w'' = 0 /\
            exists t'', t' = EPtrace PTRACE_DETACH 1100 0 :: t'' /\
                        inspection target_predicate
                          (fun _ => zygote_snapshot (event_stop PTRACE_EVENT_FORK))
                          1100 (zygote_map zygote_world) t'')).
Proof.
  apply (fork_event_dispatch true WEVENT_bits SIGUSR1 target_predicate
           (fun _ => zygote_snapshot (event_stop PTRACE_EVENT_FORK))
           0 zygote_world 100 (event_stop PTRACE_EVENT_FORK) 0 1100).
  - reflexivity.
  - lia.
  - reflexivity.
  - reflexivity.
  - left. reflexivity.
  - exists F1. reflexivity.
  - reflexivity.
  - unfold PID_MAX. lia.
Defined.


Lemma term_thread_witness :
  exists w1 t1,
    term_thread SIGUSR1
      (set_open_fds {[7]} (set_inotify_fd 7 zygote_world)) = Some (tt, w1, t1) /\
    7 ∉ open_fds w1.
Proof.
  destruct (term_thread_idempotent SIGUSR1
              (set_open_fds {[7]} (set_inotify_fd 7 zygote_world)))
    as (w1 & t1 & t2 & Hrun & _ & _ & _ & _ & Hclosed).
  exists w1, t1. split; [exact Hrun |].
  apply Hclosed. simpl. lia.
Defined.

(** C10, counterexample: spawner 100 forks and PTRACE_GETEVENTMSG gives
    0 as the child pid.  The loop passes it on to operator[] as it is:
    attaches[0], the bit before the first, with no test in between. *)
Lemma fork_message_zero_reaches_bitmap :
  k_eventmsg zero_message_snapshot 100 = 0 /\
  in_bounds (pid_set_index true 0) = false /\
  proc_monitor_iteration true WEVENT_bits SIGUSR1
    (fun _ => zero_message_snapshot) 0 zygote_world = None.
Proof. split; [| split]; vm_compute; reflexivity. Qed.

Lemma pid_set_bounds_witness :
  (in_bounds (pid_set_index true 1100) = true <-> 1 <= 1100 <= PID_MAX) /\
  pid_set_index true 32768 = 32768 - 1 /\
  do_check_fork true target_predicate (fun _ => empty_snapshot) fresh_world =
    Some (tt, fresh_world, []) /\
  in_bounds (pid_set_index true (fork_pid (registry_world 1100))) = true /\
  returns (proc_monitor_iteration true WEVENT_bits SIGUSR1
             (fun _ => zygote_snapshot (event_stop PTRACE_EVENT_FORK)) 0)
    zygote_world (fun _ _ _ => True) /\
  proc_monitor_iteration true WEVENT_bits SIGUSR1
    (fun _ => zero_message_snapshot) 0 zygote_world = None.
Proof.
  pose proof (pid_set_bounds true WEVENT_bits SIGUSR1 target_predicate
                (fun _ => empty_snapshot))
    as (_ & Hiff & Hidx & _ & Hnone & Hsome & _).
  split; [| split; [| split; [| split; [| split]]]].
  - apply Hiff. vm_compute. split; [discriminate | reflexivity].
  - apply Hidx. vm_compute. split; discriminate.
  - apply Hnone. reflexivity.
  - refine (proj1 (Hsome (registry_world 1100) _ _ _ _)).
    + vm_compute. discriminate.
    + vm_compute. reflexivity.
  - pose proof (pid_set_bounds true WEVENT_bits SIGUSR1 target_predicate
                  (fun _ => zygote_snapshot (event_stop PTRACE_EVENT_FORK)))
      as (_ & _ & _ & _ & _ & _ & Hloop & _).
    apply (Hloop 0 zygote_world 100 (event_stop PTRACE_EVENT_FORK) 0).
    + reflexivity.
    + right. unfold PID_MAX. lia.
    + vm_compute. split; discriminate.
  - pose proof (pid_set_bounds true WEVENT_bits SIGUSR1 target_predicate
                  (fun _ => zero_message_snapshot))
      as (_ & _ & _ & _ & _ & _ & _ & Hzero).
    apply (Hzero 0 zygote_world 100 (event_stop PTRACE_EVENT_FORK) 0 0).
    + reflexivity.
    + lia.
    + reflexivity.
    + reflexivity.
    + left. reflexivity.
    + exists F1. reflexivity.
    + reflexivity.
    + left. reflexivity.
Defined.

(** A Tgid beyond the range of int is compared as the int sscanf
    leaves in tgid: 2^32 + 100 reads as 100. *)
Lemma wide_tgid_reads_as_int :
  scan_status 100 ["Tgid:" +:+ String (ascii_of_nat 9) "4294967396"] "" 0
  = true.
Proof. vm_compute. reflexivity. Qed.

(** C8 (the code departs from it): the child passes every read the
    code tests, is stopped and classified as a target, and is gone
    when its mount namespace is read.  read_ns fails, its result is
    not looked at, the stale stat buffer of /proc/1100 matches no
    spawner, and hide_daemon is invoked for the dead child. *)
Theorem unchecked_namespace_read_reaches_hide_daemon :
  exists w',
    do_check_fork true target_predicate child_dies (registry_world 1100) =
      Some (tt, w',
            [EPtrace PTRACE_DETACH 1100 0;
             EStatProc 1100 (Some proc_dir_1100);
             EOpenRead AttrCurrent 1100
               (Some (Some "u:r:untrusted_app:s0:c50,c256,c512,c768"));
             EOpenRead Cmdline 1100 (Some (Some "com.example.target"));
             EOpenRead Cmdline 1100 (Some (Some "com.example.target"));
             EKill 1100 SIGSTOP;
             EIsHideTarget 10050 "com.example.target" 95;
             EReadNs 1100 None;
             EHideDaemon 1100]).
Proof. eexists. vm_compute. reflexivity. Qed.

(** ** Runs for the further properties *)

Lemma pid_set_write_then_read_witness :
  returns (pid_set_put true 1100 true ;; pid_set_get true 1100) fresh_world
    (fun r _ _ => r = true) /\
  returns (pid_set_put true 1100 true ;; pid_set_get true 1101) fresh_world
    (fun r _ _ => r = false) /\
  returns (pid_set_reset ;; pid_set_get true 1100)
    (set_attaches (-1) fresh_world) (fun r _ _ => r = false).
Proof.
  assert (H1 : 1 <= 1100 <= PID_MAX) by (unfold PID_MAX; lia).
  assert (H2 : 1 <= 1101 <= PID_MAX) by (unfold PID_MAX; lia).
  split; [| split].
  - eapply returns_weaken;
      [apply (proj1 (pid_set_write_then_read true 1100 1100 true fresh_world
                       H1 H1)) |].
    cbv beta. intros r _ _ ->. reflexivity.
  - eapply returns_weaken;
      [apply (proj1 (pid_set_write_then_read true 1100 1101 true fresh_world
                       H1 H2)) |].
    cbv beta. intros r _ _ ->. reflexivity.
  - exact (proj2 (pid_set_write_then_read true 1100 1100 true
                    (set_attaches (-1) fresh_world) H1 H1)).
Defined.

Lemma pending_slot_witness :
  0 <= fork_pid (registry_world 1100) <= PID_MAX /\
  returns (do_check_fork true target_predicate
             (fun _ => child_snapshot (Some F2))) (registry_world 1100)
    (fun _ w' _ =>
       fork_pid w' = 0 /\
       do_check_fork true target_predicate
         (fun _ => child_snapshot (Some F2)) w' = Some (tt, w', [])).
Proof.
  assert (Hrange : 0 <= fork_pid (registry_world 1100) <= PID_MAX)
    by (vm_compute; split; discriminate).
  split; [exact Hrange |].
  exact (pending_slot_is_consumed_once true target_predicate
           (fun _ => child_snapshot (Some F2)) (registry_world 1100) Hrange).
Defined.

Lemma worker_acts_on_its_child_witness :
  1 <= fork_pid (registry_world 1100) <= PID_MAX /\
  returns (do_check_fork true target_predicate
             (fun _ => child_snapshot (Some F2))) (registry_world 1100)
    (fun _ _ t => forallb (about (fork_pid (registry_world 1100))) t = true).
Proof.
  assert (Hrange : 1 <= fork_pid (registry_world 1100) <= PID_MAX)
    by (vm_compute; split; discriminate).
  split; [exact Hrange |].
  exact (worker_acts_on_its_child_only true target_predicate
           (fun _ => child_snapshot (Some F2)) (registry_world 1100) Hrange).
Defined.

Lemma inspection_is_bounded_witness :
  1 <= fork_pid (registry_world 1100) <= PID_MAX /\
  returns (do_check_fork true target_predicate (fun _ => empty_snapshot))
    (registry_world 1100)
    (fun _ _ t =>
       (count is_stat_proc t <= MAX_ITER + 1)%nat /\
       (count is_usleep t <= (MAX_ITER + 1) * (2 * MAX_ITER) + MAX_ITER)%nat).
Proof.
  assert (Hrange : 1 <= fork_pid (registry_world 1100) <= PID_MAX)
    by (vm_compute; split; discriminate).
  split; [exact Hrange |].
  exact (proj2 (inspection_is_bounded true target_predicate
                  (fun _ => empty_snapshot) (registry_world 1100) Hrange)).
Defined.

Lemma excluded_child_witness :
  1 <= fork_pid (registry_world 1100) <= PID_MAX /\
  always_usap (fun _ => usap_snapshot) (fork_pid (registry_world 1100)) /\
  returns (do_check_fork true target_predicate (fun _ => usap_snapshot))
    (registry_world 1100)
    (fun _ _ t =>
       exists t', t = EPtrace PTRACE_DETACH (fork_pid (registry_world 1100)) 0
                      :: t' /\
                  forallb passive t' = true).
Proof.
  assert (Hrange : 1 <= fork_pid (registry_world 1100) <= PID_MAX)
    by (vm_compute; split; discriminate).
  assert (Husap : always_usap (fun _ => usap_snapshot)
                    (fork_pid (registry_world 1100)))
    by (intros n; simpl; right; reflexivity).
  split; [exact Hrange |]. split; [exact Husap |].
  exact (excluded_child_is_left_alone true target_predicate
           (fun _ => usap_snapshot) (registry_world 1100) Hrange
           (or_intror Husap)).
Defined.

Lemma rescan_finds_the_spawner_witness :
  In 100 (pf_pids (zygote_snapshot 0)) /\
  is_zygote_at (zygote_snapshot 0) 100 F1 /\
  returns (check_zygote true (fun _ => zygote_snapshot 0)) fresh_world
    (fun _ w' _ => zygote_map w' !! 100 = Some F1).
Proof.
  assert (Hin : In 100 (pf_pids (zygote_snapshot 0)))
    by (simpl; right; left; reflexivity).
  assert (Hz : is_zygote_at (zygote_snapshot 0) 100 F1).
  { split; [exists "zygote"; split; reflexivity | split; reflexivity]. }
  split; [exact Hin |]. split; [exact Hz |].
  exact (rescan_finds_the_spawner true (fun _ => zygote_snapshot 0)
           fresh_world 100 F1 Hin (fun _ => Hz)).
Defined.

Lemma rescan_ignores_other_processes_witness :
  never_zygote_cmdline (fun _ => zygote_snapshot 0) 1 /\
  returns (check_zygote true (fun _ => zygote_snapshot 0)) fresh_world
    (fun _ w' t =>
       zygote_map w' !! 1 = zygote_map fresh_world !! 1 /\
       count (is_trace_call 1) t = 0%nat).
Proof.
  assert (Hnever : never_zygote_cmdline (fun _ => zygote_snapshot 0) 1)
    by (intros n; simpl; exact I).
  split; [exact Hnever |].
  exact (rescan_ignores_other_processes true (fun _ => zygote_snapshot 0)
           fresh_world 1 (or_introl Hnever)).
Defined.


Lemma failed_wait_witness :
  returns (proc_monitor_iteration true WEVENT_bits SIGUSR1
             (fun _ => empty_snapshot) 0)
    fresh_world
    (fun _ w' t =>
       t = [EWaitAny (-1, 0, ECHILD); ENanosleep] /\
       w' = tick (set_sig_mask
                    (Z.ldiff (sig_mask fresh_world) (unblock_set SIGUSR1))
                    fresh_world)).
Proof.
  apply (failed_wait_turn true WEVENT_bits SIGUSR1 (fun _ => empty_snapshot)
           0 fresh_world (-1) 0 ECHILD).
  - reflexivity.
  - lia.
Defined.

Lemma stray_report_witness :
  returns (proc_monitor_iteration true WEVENT_bits SIGUSR1
             (fun _ => zygote_snapshot 0) 0)
    zygote_world
    (fun _ _ t => t = [EWaitAny (100, 0, 0); EPtrace PTRACE_DETACH 100 0]) /\
  returns (proc_monitor_iteration true WEVENT_bits SIGUSR1
             (fun _ => zygote_snapshot (event_stop PTRACE_EVENT_EXIT)) 0)
    fresh_world
    (fun _ w' t =>
       zygote_map w' = ∅ /\
       t = [EWaitAny (100, event_stop PTRACE_EVENT_EXIT, 0);
            EPtrace PTRACE_GETEVENTMSG 100 1100;
            EPtrace PTRACE_DETACH 100 0]).
Proof.
  assert (Hrange : 1 <= 100 <= PID_MAX) by (unfold PID_MAX; lia).
  split.
  - eapply returns_weaken.
    + apply (stray_report_is_detached true WEVENT_bits SIGUSR1
               (fun _ => zygote_snapshot 0) 0 zygote_world 100 0 0).
      * reflexivity.
      * exact Hrange.
      * left. reflexivity.
    + cbv beta. intros _ w' t (_ & _ & _ & _ & Ht). exact Ht.
  - eapply returns_weaken.
    + apply (stray_report_is_detached true WEVENT_bits SIGUSR1
               (fun _ => zygote_snapshot (event_stop PTRACE_EVENT_EXIT))
               0 fresh_world 100 (event_stop PTRACE_EVENT_EXIT) 0).
      * reflexivity.
      * exact Hrange.
      * right. split; [reflexivity |].
        split; [vm_compute; discriminate | reflexivity].
    + cbv beta. intros _ w' t (_ & _ & Hmap & _ & Ht).
      split; [exact Hmap | exact Ht].
Defined.

Lemma foreign_signal_witness :
  returns (proc_monitor_iteration true WEVENT_bits SIGUSR1
             (fun _ => zygote_snapshot (signal_stop SIGUSR1)) 0)
    zygote_world
    (fun _ w' t =>
       t = [EWaitAny (100, signal_stop SIGUSR1, 0);
            EPtrace PTRACE_CONT 100 SIGUSR1] /\
       attaches w' = attaches zygote_world /\
       zygote_map w' = zygote_map zygote_world /\
       fork_pid w' = fork_pid zygote_world).
Proof.
  apply (foreign_signal_is_passed_on true WEVENT_bits SIGUSR1
           (fun _ => zygote_snapshot (signal_stop SIGUSR1))
           0 zygote_world 100 (signal_stop SIGUSR1) 0).
  - reflexivity.
  - lia.
  - reflexivity.
  - vm_compute. discriminate.
  - left. vm_compute. discriminate.
Defined.


Lemma start_up_witness :
  returns (proc_monitor_init true SIGUSR1 (fun _ => zygote_snapshot 0))
    fresh_world
    (fun orig_mask w' _ =>
       orig_mask = 0 /\
       sig_mask w' = 0 /\
       sig_handlers w' !! SIGUSR1 = Some H_term_thread /\
       sig_handlers w' !! SIGIO = Some H_inotify_event /\
       sig_handlers w' !! SIGALRM = Some H_check_zygote /\
       inotify_fd w' = 7).
Proof.
  eapply returns_weaken.
  - apply (start_up_installs_handlers true SIGUSR1
             (fun _ => zygote_snapshot 0) fresh_world).
    + vm_compute. discriminate.
    + vm_compute. discriminate.
  - cbv beta.
    intros orig_mask w' _ (H1 & H2 & H3 & H4 & H5 & _ & _ & _ & H6).
    repeat split; assumption.
Defined.

Lemma termination_witness :
  exists w1 t,
    proc_monitor true WEVENT_bits SIGUSR1 (fun _ => empty_snapshot)
      [Iteration; Alarm; Inotify] fresh_world = Some (tt, w1, t) /\
    returns (term_thread SIGUSR1) w1 (fun _ w2 t2 =>
      inotify_fd w2 = -1 /\
      open_fds w2 = open_fds fresh_world ∖ {[7]} /\
      t2 = [EClose 7; EPthreadExit]).
Proof.
  destruct (proc_monitor true WEVENT_bits SIGUSR1 (fun _ => empty_snapshot)
              [Iteration; Alarm; Inotify] fresh_world)
    as [[[[] w1] t] |] eqn:Hrun;
    [| vm_compute in Hrun; discriminate Hrun].
  exists w1, t. split; [reflexivity |].
  exact (termination_closes_inotify true WEVENT_bits SIGUSR1
           (fun _ => empty_snapshot) [Iteration; Alarm; Inotify]
           fresh_world w1 t Hrun).
Defined.

